(** * The Herbal Chicken API: cart, coupon and checkout pipeline

    A shallow embedding of the cart and checkout handlers of [main.py]
    (with the document shapes of [schemas.py]) and the properties of the
    checkout and cart pricing pipeline proved about them.

    Conventions of the model.
    - Every handler is a computation over the document store: it returns
      either a value or a raised exception, together with the store it
      leaves behind.  A raised exception does not undo earlier writes.
    - A MongoDB collection is a list of documents in insertion order;
      [find_one] returns the first match and [update_one] changes the first
      match.
    - In the handlers amounts are exact rationals ([Q]), where Python's
      [float] rounds.  What an order is stored with depends on that
      rounding: the module [B64] embeds [checkout] a second time, over
      IEEE 754 binary64 values, and the properties of the stored amounts
      are proved on it.
    - [str] values are [string]s holding the UTF-8 bytes of the text;
      [char_count] counts its characters.  [str.upper] maps the ASCII
      letters [a]-[z] and leaves every other byte alone.
    - [ObjectId(s)] reads a string of 24 characters with [bytes.fromhex],
      which skips ASCII whitespace before a pair of digits.
    - [ObjectId()] draws a value from outside the program: each handler
      takes the identifiers it generates as arguments. *)

From Stdlib Require Import List String Ascii Bool ZArith NArith QArith Qround Lia Lqa.
From Stdlib Require Import Qabs SpecFloat.
Import ListNotations.

Local Open Scope string_scope.

(** ** Exceptions and computations over the store *)

Inductive exn : Type :=
| HTTPException (status_code : Z) (detail : string)
| TypeError
| OverflowError
| InvalidId.

Inductive outcome (A : Type) : Type :=
| Return (a : A)
| Raise (e : exn).

Arguments Return {A} a.
Arguments Raise {A} e.

(** ** Strings *)

(** [str.upper] on one ASCII character. *)
Definition upper_ascii (c : ascii) : ascii :=
  let n := nat_of_ascii c in
  if (97 <=? n)%nat && (n <=? 122)%nat then ascii_of_nat (n - 32) else c.

Fixpoint upper (s : string) : string :=
  match s with
  | EmptyString => EmptyString
  | String c s' => String (upper_ascii c) (upper s')
  end.

(** The slice [s[:n]]. *)
Definition prefix_slice (n : nat) (s : string) : string := substring 0 n s.

(** Truth value of a [str] or [None]: [None] and the empty string are false. *)
Definition truthy_str (v : option string) : bool :=
  match v with
  | None => false
  | Some EmptyString => false
  | Some _ => true
  end.

Fixpoint all_chars (p : ascii -> bool) (s : string) : bool :=
  match s with
  | EmptyString => true
  | String c s' => p c && all_chars p s'
  end.

Definition is_digit (c : ascii) : bool :=
  let n := nat_of_ascii c in (48 <=? n)%nat && (n <=? 57)%nat.

Definition is_upper_letter (c : ascii) : bool :=
  let n := nat_of_ascii c in (65 <=? n)%nat && (n <=? 90)%nat.

Definition is_upper_alnum (c : ascii) : bool := is_digit c || is_upper_letter c.

Definition is_lower_hex (c : ascii) : bool :=
  let n := nat_of_ascii c in
  is_digit c || ((97 <=? n)%nat && (n <=? 102)%nat).

(** [len(s)]: the characters of a [str], which are the bytes of its
    UTF-8 encoding that are not continuation bytes ([10xxxxxx]). *)
Fixpoint char_count (s : string) : nat :=
  match s with
  | EmptyString => O
  | String c s' =>
      let n := nat_of_ascii c in
      if (128 <=? n)%nat && (n <=? 191)%nat then char_count s'
      else S (char_count s')
  end.

(** ASCII whitespace: space, tab, line feed, vertical tab, form feed and
    carriage return. *)
Definition is_space (c : ascii) : bool :=
  let n := nat_of_ascii c in
  (n =? 32)%nat || ((9 <=? n)%nat && (n <=? 13)%nat).

(** ** bson.ObjectId

    A generated ObjectId, and every stored [_id], is a 12-byte value, here
    the number it encodes (below [2^96]); [str] prints it as 24 lowercase
    hexadecimal digits, most significant first.

    [ObjectId(s)] takes a string of 24 characters and reads its bytes with
    [bytes.fromhex], which skips ASCII whitespace in front of a pair of
    digits: a string with whitespace gives an id of fewer than 12 bytes,
    which no stored document has.  Such an id is a number from [2^96] on:
    [k] bytes of value [v] are [2^96 + 256^k + v]. *)

Definition ObjectId := N.

Definition hex_digit (d : N) : ascii :=
  if (d <? 10)%N then ascii_of_N (48 + d) else ascii_of_N (87 + d).

Fixpoint hex_str (k : nat) (n : N) : string :=
  match k with
  | O => EmptyString
  | S k' => String (hex_digit ((n / 16 ^ N.of_nat k') mod 16)%N) (hex_str k' n)
  end.

Definition oid_str (o : ObjectId) : string := hex_str 24 o.

Definition hex_value (c : ascii) : option N :=
  let n := N_of_ascii c in
  if is_digit c then Some (n - 48)%N
  else if ((97 <=? n) && (n <=? 102))%N then Some (n - 87)%N
  else if ((65 <=? n) && (n <=? 70))%N then Some (n - 55)%N
  else None.

(** [bytes.fromhex(s)]: two hexadecimal digits for each byte, whitespace
    skipped before a byte, never between its two digits; [None] stands for
    the [ValueError]. *)
Fixpoint fromhex (s : string) : option (list N) :=
  match s with
  | EmptyString => Some []
  | String c rest =>
      if is_space c then fromhex rest
      else
        match hex_value c, rest with
        | Some top, String c' rest' =>
            match hex_value c' with
            | Some bot =>
                match fromhex rest' with
                | Some bytes => Some ((16 * top + bot)%N :: bytes)
                | None => None
                end
            | None => None
            end
        | _, _ => None
        end
  end.

(** The bytes that [ObjectId(s)] holds. *)
Definition ObjectId_binary (s : string) : outcome (list N) :=
  if (char_count s =? 24)%nat then
    match fromhex s with
    | Some bytes => Return bytes
    | None => Raise InvalidId
    end
  else Raise InvalidId.

(** The number of a sequence of bytes, most significant first. *)
Definition bytes_value (bytes : list N) : N :=
  fold_left (fun acc b => (256 * acc + b)%N) bytes 0%N.

Definition oid_of_bytes (bytes : list N) : ObjectId :=
  if (List.length bytes =? 12)%nat then bytes_value bytes
  else (2 ^ 96 + 256 ^ N.of_nat (List.length bytes) + bytes_value bytes)%N.

Definition oid_parse (s : string) : outcome ObjectId :=
  match ObjectId_binary s with
  | Return bytes => Return (oid_of_bytes bytes)
  | Raise e => Raise e
  end.

(** [binascii.hexlify]: what [str] prints for the bytes of an id. *)
Fixpoint hexlify (bytes : list N) : string :=
  match bytes with
  | [] => EmptyString
  | b :: rest =>
      String (hex_digit ((b / 16) mod 16)%N)
        (String (hex_digit (b mod 16)%N) (hexlify rest))
  end.

(** ** Numbers *)

(** [min(a, b)]: the first argument unless the second is smaller. *)
Definition py_min (a b : Q) : Q := if Qle_bool a b then a else b.

(** [max(a, b)]: the first argument unless the second is larger. *)
Definition py_max (a b : Q) : Q := if Qle_bool b a then a else b.

(** Rounding to the nearest integer, ties to even. *)
Definition round_half_even (y : Q) : Z :=
  let f := Qfloor y in
  match (y - inject_Z f ?= 1 # 2)%Q with
  | Lt => f
  | Gt => (f + 1)%Z
  | Eq => if Z.even f then f else (f + 1)%Z
  end.

(** [round(x, 2)]. *)
Definition py_round2 (x : Q) : Q := Qred (Qmake (round_half_even (x * 100)) 100).

(** ** Documents *)

(** A key of a document (a Python dict): absent, stored as [None], or
    stored with a value. *)
Inductive field (A : Type) : Type :=
| Missing
| Null
| Value (a : A).

Arguments Missing {A}.
Arguments Null {A}.
Arguments Value {A} a.

(** [d.get(key, default)]: the default only replaces an absent key. *)
Definition dict_get {A} (f : field A) (default : A) : option A :=
  match f with
  | Missing => Some default
  | Null => None
  | Value a => Some a
  end.

(** [float(v)] on a number or [None]. *)
Definition py_float (v : option Q) : outcome Q :=
  match v with
  | Some q => Return q
  | None => Raise TypeError
  end.

Record Product : Type := mkProduct {
  product__id : ObjectId;
  product_title : option string;
  product_price : field Q;
  product_image_url : option string
}.

Record Coupon : Type := mkCoupon {
  coupon__id : ObjectId;
  coupon_code_of : string;
  coupon_discount_type : string;
  coupon_value : field Q;
  coupon_min_amount : Q;
  coupon_max_discount : field Q;
  coupon_active : bool
}.

Record CartItem : Type := mkCartItem {
  item_product_id : string;
  item_title : option string;
  item_price : Q;
  item_quantity : Z;
  item_image_url : option string
}.

(** A cart document.  [cart_coupon_code] is what [cart.get("coupon_code")]
    returns: [None] for an absent key as for a stored [None]. *)
Record Cart : Type := mkCart {
  cart__id : ObjectId;
  cart_user_id : string;
  cart_items : list CartItem;
  cart_area_pincode : option string;
  cart_coupon_code : option string
}.

Record PaymentInfo : Type := mkPayment {
  payment_method_of : string;
  payment_provider : option string;
  payment_status : string
}.

Definition Address := list (string * string).

Record Order : Type := mkOrder {
  order__id : ObjectId;
  order_user_id : string;
  order_items : list CartItem;
  order_total_amount : Q;
  order_discount_amount : Q;
  order_final_amount : Q;
  order_address : Address;
  order_area_pincode : string;
  order_payment : PaymentInfo;
  order_status : string;
  order_tracking_code : string
}.

Record Notification : Type := mkNotification {
  notification__id : ObjectId;
  notification_user_id : string;
  notification_title : string;
  notification_message : string;
  notification_type : string;
  notification_read : bool
}.

(** The collections of [db] the handlers touch. *)
Record store : Type := mkStore {
  db_product : list Product;
  db_coupon : list Coupon;
  db_cart : list Cart;
  db_order : list Order;
  db_notification : list Notification
}.

Definition empty_store : store := mkStore [] [] [] [] [].

(** ** Collection operations (pymongo) *)

Definition find_one {A} (filt : A -> bool) (coll : list A) : option A :=
  find filt coll.

(** [update_one(filter, {"$set": ...})]: the first match is patched. *)
Fixpoint update_one {A} (filt : A -> bool) (patch : A -> A) (coll : list A)
  : list A :=
  match coll with
  | [] => []
  | d :: rest =>
      if filt d then patch d :: rest else d :: update_one filt patch rest
  end.

(** [update_one(..., upsert=True)]: without a match, [fresh] is inserted. *)
Definition update_one_upsert {A} (filt : A -> bool) (patch : A -> A)
    (fresh : A) (coll : list A) : list A :=
  match find_one filt coll with
  | Some _ => update_one filt patch coll
  | None => coll ++ [fresh]
  end.

Definition insert_one {A} (d : A) (coll : list A) : list A :=
  (coll ++ [d])%list.

(** ** The computation monad *)

Definition M (A : Type) : Type := store -> outcome A * store.

Definition ret {A} (a : A) : M A := fun st => (Return a, st).

Definition raise {A} (e : exn) : M A := fun st => (Raise e, st).

Definition bind {A B} (c : M A) (k : A -> M B) : M B :=
  fun st =>
    match c st with
    | (Return a, st') => k a st'
    | (Raise e, st') => (Raise e, st')
    end.

Definition gets {A} (f : store -> A) : M A := fun st => (Return (f st), st).

Definition modify (f : store -> store) : M unit := fun st => (Return tt, f st).

(** A pure step that may raise. *)
Definition lift {A} (o : outcome A) : M A := fun st => (o, st).

Declare Scope m_scope.
Delimit Scope m_scope with M.
Notation "x <- c ;; k" := (bind c (fun x => k))
  (at level 61, c at next level, right associativity) : m_scope.
Notation "c ;;; k" := (bind c (fun _ => k))
  (at level 61, right associativity) : m_scope.

Local Open Scope m_scope.

Definition set_carts (f : list Cart -> list Cart) (st : store) : store :=
  mkStore (db_product st) (db_coupon st) (f (db_cart st)) (db_order st)
          (db_notification st).

Definition set_orders (f : list Order -> list Order) (st : store) : store :=
  mkStore (db_product st) (db_coupon st) (db_cart st) (f (db_order st))
          (db_notification st).

Definition set_notifications (f : list Notification -> list Notification)
    (st : store) : store :=
  mkStore (db_product st) (db_coupon st) (db_cart st) (db_order st)
          (f (db_notification st)).

Definition set_products (f : list Product -> list Product) (st : store)
  : store :=
  mkStore (f (db_product st)) (db_coupon st) (db_cart st) (db_order st)
          (db_notification st).

Definition set_coupons (f : list Coupon -> list Coupon) (st : store) : store :=
  mkStore (db_product st) (f (db_coupon st)) (db_cart st) (db_order st)
          (db_notification st).

(** The filters of the handlers. *)
Definition by_user_id (user_id : string) (c : Cart) : bool :=
  String.eqb (cart_user_id c) user_id.

Definition by_product_id (o : ObjectId) (p : Product) : bool :=
  N.eqb (product__id p) o.

Definition by_active_code (code : string) (c : Coupon) : bool :=
  String.eqb (coupon_code_of c) code && Bool.eqb (coupon_active c) true.

Definition by_tracking_code (code : string) (o : Order) : bool :=
  String.eqb (order_tracking_code o) code.

(** Modelled from the spec: [create_document] of [database.py], which is
    not part of the sources at hand; the collaborator contract is
    [create(collection, doc) -> id].  The document, which carries the
    identifier generated for it, is inserted into the collection selected by
    [coll] and the identifier is returned as a string. *)
Definition create_document {A} (coll : (list A -> list A) -> store -> store)
    (id_of : A -> ObjectId) (doc : A) : M string :=
  modify (coll (insert_one doc)) ;;;
  ret (oid_str (id_of doc)).

(** ** Cart endpoints *)

Definition find_cart (user_id : string) (st : store) : option Cart :=
  find_one (by_user_id user_id) (db_cart st).

(** [GET /api/cart/{user_id}] *)
Definition get_cart (fresh : ObjectId) (user_id : string) : M Cart :=
  cart <- gets (find_cart user_id) ;;
  cart <- match cart with
          | Some c => ret (Some c)
          | None =>
              create_document set_carts cart__id
                (mkCart fresh user_id [] None None) ;;;
              gets (find_cart user_id)
          end ;;
  match cart with
  | Some c => ret c
  | None => raise TypeError
  end.

Record CartUpdate : Type := mkCartUpdate {
  upd_product_id : string;
  upd_quantity : Z
}.

Definition with_quantity (q : Z) (it : CartItem) : CartItem :=
  mkCartItem (item_product_id it) (item_title it) (item_price it) q
             (item_image_url it).

(** The loop of [add_to_cart]: the first item of the product gets the
    quantity and the loop stops; the flag is [found]. *)
Fixpoint set_quantity (product_id : string) (q : Z) (items : list CartItem)
  : list CartItem * bool :=
  match items with
  | [] => ([], false)
  | it :: rest =>
      if String.eqb (item_product_id it) product_id
      then (with_quantity q it :: rest, true)
      else let (rest', found) := set_quantity product_id q rest in
           (it :: rest', found)
  end.

Definition item_of_product (upd : CartUpdate) (prod : Product)
  : outcome CartItem :=
  match py_float (dict_get (product_price prod) 0) with
  | Return price =>
      Return (mkCartItem (upd_product_id upd) (product_title prod) price
                (upd_quantity upd) (product_image_url prod))
  | Raise e => Raise e
  end.

Definition with_items (items : list CartItem) (c : Cart) : Cart :=
  mkCart (cart__id c) (cart_user_id c) items (cart_area_pincode c)
         (cart_coupon_code c).

Definition with_coupon_code (code : option string) (c : Cart) : Cart :=
  mkCart (cart__id c) (cart_user_id c) (cart_items c) (cart_area_pincode c)
         code.

(** [POST /api/cart/{user_id}/add] *)
Definition add_to_cart (fresh : ObjectId) (user_id : string)
    (upd : CartUpdate) : M unit :=
  oid <- lift (oid_parse (upd_product_id upd)) ;;
  prod <- gets (fun st => find_one (by_product_id oid) (db_product st)) ;;
  match prod with
  | None => raise (HTTPException 404 "Product not found")
  | Some prod =>
      cart <- gets (find_cart user_id) ;;
      let items := match cart with
                   | Some c => cart_items c
                   | None => []
                   end in
      let (items1, found) :=
        set_quantity (upd_product_id upd) (upd_quantity upd) items in
      items2 <- (if found then ret items1
                 else it <- lift (item_of_product upd prod) ;;
                      ret (items1 ++ [it])%list) ;;
      modify (set_carts
                (update_one_upsert (by_user_id user_id) (with_items items2)
                   (mkCart fresh user_id items2 None None)))
  end.

(** [POST /api/cart/{user_id}/remove] *)
Definition remove_from_cart (user_id : string) (upd : CartUpdate) : M unit :=
  cart <- gets (find_cart user_id) ;;
  match cart with
  | None => ret tt
  | Some c =>
      let items :=
        filter (fun it => negb (String.eqb (item_product_id it)
                                           (upd_product_id upd)))
               (cart_items c) in
      modify (set_carts (update_one (by_user_id user_id) (with_items items)))
  end.

Definition find_active_coupon (code : string) (st : store) : option Coupon :=
  find_one (by_active_code code) (db_coupon st).

(** [POST /api/cart/{user_id}/apply-coupon] *)
Definition apply_coupon (user_id : string) (code : string) : M unit :=
  coupon <- gets (find_active_coupon code) ;;
  match coupon with
  | None => raise (HTTPException 404 "Invalid coupon")
  | Some _ =>
      modify (set_carts
                (update_one (by_user_id user_id)
                   (with_coupon_code (Some code))))
  end.

(** ** Checkout and orders *)

Record CheckoutPayload : Type := mkCheckoutPayload {
  payload_address : Address;
  payload_area_pincode : string;
  payload_payment_method : string
}.

(** [sum([it["price"] * it["quantity"] for it in items])] (main.py, line
    159): the sum starts from 0 and adds the products from left to right. *)
Definition subtotal_of (items : list CartItem) : Q :=
  fold_left Qplus
    (map (fun it => item_price it * inject_Z (item_quantity it))%Q items)
    0%Q.

(** The two branches on [discount_type] (main.py, lines 164-167); in each,
    [float(cpn.get("value", 0))] is evaluated before
    [float(cpn.get("max_discount", subtotal))]. *)
Definition coupon_discount (subtotal : Q) (cpn : Coupon) : outcome Q :=
  if String.eqb (coupon_discount_type cpn) "percent" then
    match py_float (dict_get (coupon_value cpn) 0%Q) with
    | Raise e => Raise e
    | Return value =>
        match py_float (dict_get (coupon_max_discount cpn) subtotal) with
        | Raise e => Raise e
        | Return ceiling => Return (py_min (subtotal * value / 100)%Q ceiling)
        end
    end
  else
    match py_float (dict_get (coupon_value cpn) 0%Q) with
    | Raise e => Raise e
    | Return value =>
        match py_float (dict_get (coupon_max_discount cpn) subtotal) with
        | Raise e => Raise e
        | Return ceiling => Return (py_min value ceiling)
        end
    end.

(** The discount of a cart (main.py, lines 160-167): [0.0] unless the cart
    has a coupon code that still names an active coupon. *)
Definition cart_discount (st : store) (cart : Cart) (subtotal : Q)
  : outcome Q :=
  if truthy_str (cart_coupon_code cart) then
    match cart_coupon_code cart with
    | Some code =>
        match find_active_coupon code st with
        | Some cpn => coupon_discount subtotal cpn
        | None => Return 0%Q
        end
    | None => Return 0%Q
    end
  else Return 0%Q.

(** The payment block (main.py, lines 170-174). *)
Definition payment_of (payment_method : string) : PaymentInfo :=
  mkPayment
    (if String.eqb (upper payment_method) "COD" then "COD" else "ONLINE")
    (if String.eqb (upper payment_method) "COD" then None
     else Some "razorpay")
    (if String.eqb (upper payment_method) "ONLINE" then "pending"
     else "paid").

Record CheckoutResponse : Type := mkCheckoutResponse {
  resp_order_id : string;
  resp_tracking_code : string;
  resp_payment : PaymentInfo
}.

(** [str(ObjectId())[:8].upper()] (main.py, line 186). *)
Definition tracking_code_of (o : ObjectId) : string :=
  upper (prefix_slice 8 (oid_str o)).

(** [POST /api/checkout/{user_id}].  [tracking_oid] is the ObjectId the
    tracking code is cut from, [order_oid] and [note_oid] the identifiers
    of the two inserted documents. *)
Definition checkout (tracking_oid order_oid note_oid : ObjectId)
    (user_id : string) (data : CheckoutPayload) : M CheckoutResponse :=
  cart <- gets (find_cart user_id) ;;
  match cart with
  | None => raise (HTTPException 400 "Cart is empty")
  | Some cart =>
      match cart_items cart with
      | [] => raise (HTTPException 400 "Cart is empty")
      | _ :: _ =>
          let subtotal := subtotal_of (cart_items cart) in
          discount <- (fun st => (cart_discount st cart subtotal, st)) ;;
          let final_amount := py_max 0%Q (subtotal - discount)%Q in
          let payment := payment_of (payload_payment_method data) in
          let order_doc :=
            mkOrder order_oid user_id (cart_items cart)
              (py_round2 subtotal) (py_round2 discount)
              (py_round2 final_amount)
              (payload_address data) (payload_area_pincode data)
              payment "placed" (tracking_code_of tracking_oid) in
          oid <- create_document set_orders order__id order_doc ;;
          modify (set_carts
                    (update_one (by_user_id user_id)
                       (fun c => with_coupon_code None (with_items [] c)))) ;;;
          create_document set_notifications notification__id
            (mkNotification note_oid user_id "Order Placed"
               ("Your order #" ++ oid ++ " has been placed.")
               "order" false) ;;;
          ret (mkCheckoutResponse oid (order_tracking_code order_doc) payment)
      end
  end.

(** [GET /api/track/{tracking_code}] *)
Definition track_order (tracking_code : string) : M Order :=
  order <- gets (fun st => find_one (by_tracking_code tracking_code)
                                    (db_order st)) ;;
  match order with
  | None => raise (HTTPException 404 "Order not found")
  | Some o => ret o
  end.

(** ** Admin endpoints that feed the catalog and the coupons *)

Definition admin_create_product (p : Product) : M string :=
  create_document set_products product__id p.

Definition admin_create_coupon (c : Coupon) : M string :=
  create_document set_coupons coupon__id c.

(** ** ObjectIdStr *)

(** What the code outside the cart and checkout handlers raises: an
    exception of those handlers, [ValueError], or the [ValidationError] of
    a pydantic model. *)
Inductive py_exn : Type :=
| Exn (e : exn)
| ValueError (message : string)
| ValidationError.

Inductive result (A : Type) : Type :=
| Ok (a : A)
| Err (e : py_exn).

Arguments Ok {A} a.
Arguments Err {A} e.

(** [ObjectIdStr.validate] (main.py, lines 16-21) on a [str]:
    [str(ObjectId(str(v)))], any exception becoming [ValueError]. *)
Definition ObjectIdStr_validate (v : string) : result string :=
  match ObjectId_binary v with
  | Return bytes => Ok (hexlify bytes)
  | Raise _ => Err (ValueError "Invalid ObjectId")
  end.

(** ** Registration and login *)

Record AuthPayload : Type := mkAuthPayload {
  auth_name : option string;
  auth_email : string;
  auth_mobile : string
}.

(** A document of the [user] collection, with the fields of the [User]
    schema. *)
Record User : Type := mkUser {
  user__id : ObjectId;
  user_name : string;
  user_email : string;
  user_mobile : string;
  user_avatar_url : option string;
  user_addresses : list Address;
  user_referral_code : option string;
  user_referred_by : option string;
  user_is_admin : bool;
  user_is_active : bool
}.

Record LoginResponse : Type := mkLoginResponse {
  login_user_id : string;
  login_name : string;
  login_email : string;
  login_mobile : string
}.

(** The filter [{"$or": [{"email": email}, {"mobile": mobile}]}]. *)
Definition by_email_or_mobile (email mobile : string) (u : User) : bool :=
  String.eqb (user_email u) email || String.eqb (user_mobile u) mobile.

(** [payload.name or ""] *)
Definition name_or_empty (name : option string) : string :=
  match name with
  | Some n => n
  | None => EmptyString
  end.

Section Registration.

(** What pydantic's [EmailStr] makes of a string: nothing when it rejects
    it, the address it stores otherwise.  The validator is a library of its
    own; the handlers are modelled for any such function. *)
Variable EmailStr : string -> option string.

(** [User(name=..., email=..., mobile=...)] (schemas.py, lines 21-30): the
    email must pass [EmailStr], the mobile must have 7 to 15 characters;
    the other fields take their defaults. *)
Definition User_new (fresh : ObjectId) (name email mobile : string)
  : result User :=
  match EmailStr email with
  | None => Err ValidationError
  | Some stored =>
      if (7 <=? char_count mobile)%nat && (char_count mobile <=? 15)%nat
      then Ok (mkUser fresh name stored mobile None [] None None false true)
      else Err ValidationError
  end.

(** [POST /api/auth/register] (main.py, lines 70-77), over the [user]
    collection.  Modelled from the spec: the [create_document] of
    [database.py], here on the user collection, inserts the document and
    answers its identifier as a string. *)
Definition register (fresh : ObjectId) (payload : AuthPayload)
    (users : list User) : result string * list User :=
  match find_one (by_email_or_mobile (auth_email payload)
                    (auth_mobile payload)) users with
  | Some _ => (Err (Exn (HTTPException 400 "User already exists")), users)
  | None =>
      match User_new fresh (name_or_empty (auth_name payload))
              (auth_email payload) (auth_mobile payload) with
      | Err e => (Err e, users)
      | Ok user => (Ok (oid_str (user__id user)), insert_one user users)
      end
  end.

End Registration.

(** [POST /api/auth/login] (main.py, lines 79-84). *)
Definition login (payload : AuthPayload) (users : list User)
  : result LoginResponse * list User :=
  match find_one (by_email_or_mobile (auth_email payload)
                    (auth_mobile payload)) users with
  | None => (Err (Exn (HTTPException 404 "User not found")), users)
  | Some user =>
      (Ok (mkLoginResponse (oid_str (user__id user)) (user_name user)
             (user_email user) (user_mobile user)), users)
  end.

(** * Amounts as binary64 doubles

    The handlers above compute amounts in exact arithmetic.  What
    [checkout] stores depends on the rounding of Python's [float], an IEEE
    754 binary64 value: the module [B64] repeats the checkout handler
    (main.py, lines 153-200) over documents whose amounts are doubles, with
    the operations of the standard library's [SpecFloat] at precision 53
    and maximal exponent 1024. *)

Module B64.

Definition float : Type := spec_float.

Definition prec : Z := 53.
Definition emax : Z := 1024.

(** The literal [0.0]. *)
Definition zero : float := S754_zero false.

Definition add : float -> float -> float := SFadd prec emax.
Definition sub : float -> float -> float := SFsub prec emax.
Definition mul : float -> float -> float := SFmul prec emax.
Definition div : float -> float -> float := SFdiv prec emax.

(** [a < b]: false as soon as one side is NaN. *)
Definition lt (a b : float) : bool := SFltb a b.

(** The double nearest to [n / d], ties to even, with the sign [s]: the
    value of a decimal literal, and of a decimal string read back. *)
Definition nearest (s : bool) (n : Z) (d : positive) : float :=
  match n with
  | Zpos _ =>
      let '(m, e, l) := SFdiv_core_binary prec emax n 0 (Zpos d) 0 in
      binary_round_aux prec emax s m e l
  | _ => S754_zero s
  end.

(** The literal [100.0]. *)
Definition hundred : float := nearest false 100 1.

(** An [int] operand of a float operation: the nearest double, and
    [OverflowError] for an integer beyond the doubles. *)
Definition of_int (z : Z) : outcome float :=
  match binary_normalize prec emax z 0 false with
  | S754_infinity _ => Raise OverflowError
  | x => Return x
  end.

(** [min(a, b)]: the first argument unless the second is smaller. *)
Definition py_min (a b : float) : float := if lt b a then b else a.

(** [max(a, b)]: the first argument unless the second is larger. *)
Definition py_max (a b : float) : float := if lt a b then b else a.

(** The magnitude [m * 2 ^ e] of a finite double. *)
Definition value_of (m : positive) (e : Z) : Q :=
  (inject_Z (Zpos m) * Qpower 2 e)%Q.

(** [round(x, 2)]: a finite [x] is printed with 2 decimals, the exact
    binary value rounded to the nearest hundredth, ties to even, and the
    decimal string is read back as a double; zeros, infinities and NaN are
    returned as they are. *)
Definition round2 (x : float) : float :=
  match x with
  | S754_finite s m e => nearest s (round_half_even (value_of m e * 100)) 100
  | _ => x
  end.

(** [float(v)] on a number or [None]. *)
Definition py_float (v : option float) : outcome float :=
  match v with
  | Some x => Return x
  | None => Raise TypeError
  end.

(** The documents, with [float] amounts. *)
Record Product : Type := mkProduct {
  product__id : ObjectId;
  product_title : option string;
  product_price : field float;
  product_image_url : option string
}.

Record Coupon : Type := mkCoupon {
  coupon__id : ObjectId;
  coupon_code_of : string;
  coupon_discount_type : string;
  coupon_value : field float;
  coupon_min_amount : float;
  coupon_max_discount : field float;
  coupon_active : bool
}.

Record CartItem : Type := mkCartItem {
  item_product_id : string;
  item_title : option string;
  item_price : float;
  item_quantity : Z;
  item_image_url : option string
}.

Record Cart : Type := mkCart {
  cart__id : ObjectId;
  cart_user_id : string;
  cart_items : list CartItem;
  cart_area_pincode : option string;
  cart_coupon_code : option string
}.

Record Order : Type := mkOrder {
  order__id : ObjectId;
  order_user_id : string;
  order_items : list CartItem;
  order_total_amount : float;
  order_discount_amount : float;
  order_final_amount : float;
  order_address : Address;
  order_area_pincode : string;
  order_payment : PaymentInfo;
  order_status : string;
  order_tracking_code : string
}.

Record store : Type := mkStore {
  db_product : list Product;
  db_coupon : list Coupon;
  db_cart : list Cart;
  db_order : list Order;
  db_notification : list Notification
}.

Definition by_user_id (user_id : string) (c : Cart) : bool :=
  String.eqb (cart_user_id c) user_id.

Definition by_active_code (code : string) (c : Coupon) : bool :=
  String.eqb (coupon_code_of c) code && Bool.eqb (coupon_active c) true.

Definition find_cart (user_id : string) (st : store) : option Cart :=
  find_one (by_user_id user_id) (db_cart st).

Definition find_active_coupon (code : string) (st : store) : option Coupon :=
  find_one (by_active_code code) (db_coupon st).

(** The patch [{"$set": {"items": [], "coupon_code": None}}]. *)
Definition clear_cart (c : Cart) : Cart :=
  mkCart (cart__id c) (cart_user_id c) [] (cart_area_pincode c) None.

(** [[it["price"] * it["quantity"] for it in items]] (main.py, line 159):
    each quantity, an [int], is converted for the multiplication. *)
Fixpoint line_totals (items : list CartItem) : outcome (list float) :=
  match items with
  | [] => Return []
  | it :: rest =>
      match of_int (item_quantity it) with
      | Raise e => Raise e
      | Return quantity =>
          match line_totals rest with
          | Raise e => Raise e
          | Return totals => Return (mul (item_price it) quantity :: totals)
          end
      end
  end.

(** The builtin [sum] as CPython up to 3.11 computes it on floats: from 0,
    one addition per element, left to right. *)
Definition sum_left_to_right (xs : list float) : float :=
  fold_left add xs zero.

(** The builtin [sum] as CPython computes it on floats from 3.12 on: the
    first element is added to 0 and every further one by Neumaier's
    compensated summation, the compensation being added at the end when it
    is finite and not zero. *)
Fixpoint sum_compensated_from (xs : list float) (hi lo : float) : float :=
  match xs with
  | [] =>
      match lo with
      | S754_finite _ _ _ => add hi lo
      | _ => hi
      end
  | x :: rest =>
      let t := add hi x in
      sum_compensated_from rest t
        (if SFleb (SFabs x) (SFabs hi)
         then add lo (add (sub hi t) x)
         else add lo (add (sub x t) hi))
  end.

Definition sum_compensated (xs : list float) : float :=
  match xs with
  | [] => zero
  | x :: rest => sum_compensated_from rest (add zero x) zero
  end.

Section Checkout.

(** The builtin [sum] on a list of floats.  Which additions it performs
    depends on the interpreter, [sum_left_to_right] or [sum_compensated],
    so the handler takes it as a parameter. *)
Variable py_sum : list float -> float.

Definition subtotal_of (items : list CartItem) : outcome float :=
  match line_totals items with
  | Raise e => Raise e
  | Return totals => Return (py_sum totals)
  end.

(** The two branches on [discount_type] (main.py, lines 164-167). *)
Definition coupon_discount (subtotal : float) (cpn : Coupon) : outcome float :=
  if String.eqb (coupon_discount_type cpn) "percent" then
    match py_float (dict_get (coupon_value cpn) zero) with
    | Raise e => Raise e
    | Return value =>
        match py_float (dict_get (coupon_max_discount cpn) subtotal) with
        | Raise e => Raise e
        | Return ceiling =>
            Return (py_min (div (mul subtotal value) hundred) ceiling)
        end
    end
  else
    match py_float (dict_get (coupon_value cpn) zero) with
    | Raise e => Raise e
    | Return value =>
        match py_float (dict_get (coupon_max_discount cpn) subtotal) with
        | Raise e => Raise e
        | Return ceiling => Return (py_min value ceiling)
        end
    end.

(** The discount of a cart (main.py, lines 160-167). *)
Definition cart_discount (st : store) (cart : Cart) (subtotal : float)
  : outcome float :=
  if truthy_str (cart_coupon_code cart) then
    match cart_coupon_code cart with
    | Some code =>
        match find_active_coupon code st with
        | Some cpn => coupon_discount subtotal cpn
        | None => Return zero
        end
    | None => Return zero
    end
  else Return zero.

(** The order document of main.py, lines 176-187. *)
Definition order_doc_of (tracking_oid order_oid : ObjectId) (user_id : string)
    (data : CheckoutPayload) (cart : Cart) (subtotal discount : float)
  : Order :=
  mkOrder order_oid user_id (cart_items cart)
    (round2 subtotal) (round2 discount)
    (round2 (py_max zero (sub subtotal discount)))
    (payload_address data) (payload_area_pincode data)
    (payment_of (payload_payment_method data)) "placed"
    (tracking_code_of tracking_oid).

(** [POST /api/checkout/{user_id}], with the three generated identifiers
    as arguments and the store before and after. *)
Definition checkout (tracking_oid order_oid note_oid : ObjectId)
    (user_id : string) (data : CheckoutPayload) (st : store)
  : outcome CheckoutResponse * store :=
  match find_cart user_id st with
  | None => (Raise (HTTPException 400 "Cart is empty"), st)
  | Some cart =>
      match cart_items cart with
      | [] => (Raise (HTTPException 400 "Cart is empty"), st)
      | _ :: _ =>
          match subtotal_of (cart_items cart) with
          | Raise e => (Raise e, st)
          | Return subtotal =>
              match cart_discount st cart subtotal with
              | Raise e => (Raise e, st)
              | Return discount =>
                  let order_doc :=
                    order_doc_of tracking_oid order_oid user_id data cart
                      subtotal discount in
                  (Return
                     (mkCheckoutResponse (oid_str order_oid)
                        (order_tracking_code order_doc)
                        (order_payment order_doc)),
                   mkStore (db_product st) (db_coupon st)
                     (update_one (by_user_id user_id) clear_cart (db_cart st))
                     (insert_one order_doc (db_order st))
                     (insert_one
                        (mkNotification note_oid user_id "Order Placed"
                           ("Your order #" ++ oid_str order_oid
                            ++ " has been placed.")
                           "order" false)
                        (db_notification st)))
              end
          end
      end
  end.

End Checkout.

Definition set_products (catalog : list Product) (st : store) : store :=
  mkStore catalog (db_coupon st) (db_cart st) (db_order st)
          (db_notification st).

End B64.

(** * Vocabulary of the properties *)

(** The order document that [checkout] builds from the cart and the
    discount (main.py, lines 176-187). *)
Definition order_doc_of (tracking_oid order_oid : ObjectId) (user_id : string)
    (data : CheckoutPayload) (cart : Cart) (discount : Q) : Order :=
  let subtotal := subtotal_of (cart_items cart) in
  mkOrder order_oid user_id (cart_items cart)
    (py_round2 subtotal) (py_round2 discount)
    (py_round2 (py_max 0 (subtotal - discount)))
    (payload_address data) (payload_area_pincode data)
    (payment_of (payload_payment_method data)) "placed"
    (tracking_code_of tracking_oid).

(** The notification of a placed order (main.py, lines 192-198). *)
Definition notification_of (note_oid order_oid : ObjectId) (user_id : string)
  : Notification :=
  mkNotification note_oid user_id "Order Placed"
    ("Your order #" ++ oid_str order_oid ++ " has been placed.")
    "order" false.

(** The patch [{"$set": {"items": [], "coupon_code": None}}]. *)
Definition clear_cart (c : Cart) : Cart :=
  with_coupon_code None (with_items [] c).

(** The store that a checkout which returns leaves behind: the order
    inserted, the cart of the user cleared, the notification inserted. *)
Definition store_after_checkout (note_oid : ObjectId) (user_id : string)
    (ord : Order) (st : store) : store :=
  mkStore (db_product st) (db_coupon st)
    (update_one (by_user_id user_id) clear_cart (db_cart st))
    (insert_one ord (db_order st))
    (insert_one (notification_of note_oid (order__id ord) user_id)
       (db_notification st)).

(** The discount of a coupon before its ceiling is applied: the
    percentage of the subtotal, or the flat value. *)
Definition uncapped_discount (subtotal : Q) (cpn : Coupon) (value : Q) : Q :=
  if String.eqb (coupon_discount_type cpn) "percent"
  then (subtotal * value / 100)%Q
  else value.


(** Characters that [str.upper] sends to an upper-case letter or a digit. *)
Definition upper_to_alnum (c : ascii) : bool := is_upper_alnum (upper_ascii c).

(** The items of a product in a cart. *)
Definition has_product (product_id : string) (it : CartItem) : bool :=
  String.eqb (item_product_id it) product_id.

(** One call of an endpoint that writes, whatever it answers. *)
Inductive step : store -> store -> Prop :=
| step_get_cart fresh user_id st :
    step st (snd (get_cart fresh user_id st))
| step_add_to_cart fresh user_id upd st :
    step st (snd (add_to_cart fresh user_id upd st))
| step_remove_from_cart user_id upd st :
    step st (snd (remove_from_cart user_id upd st))
| step_apply_coupon user_id code st :
    step st (snd (apply_coupon user_id code st))
| step_checkout tracking_oid order_oid note_oid user_id data st :
    step st (snd (checkout tracking_oid order_oid note_oid user_id data st))
| step_admin_create_product p st :
    step st (snd (admin_create_product p st))
| step_admin_create_coupon c st :
    step st (snd (admin_create_coupon c st)).

(** The stores the endpoints build from an empty database. *)
Inductive reachable : store -> Prop :=
| reachable_empty : reachable empty_store
| reachable_step st st' : reachable st -> step st st' -> reachable st'.

(** The product id of a cart item names a product of the catalog. *)
Definition resolves (products : list Product) (product_id : string) : Prop :=
  exists oid prod,
    oid_parse product_id = Return oid /\
    find_one (by_product_id oid) products = Some prod.

(** A cart lists each product once, and only products of the catalog. *)
Definition cart_ok (products : list Product) (c : Cart) : Prop :=
  NoDup (map item_product_id (cart_items c)) /\
  Forall (fun it => resolves products (item_product_id it)) (cart_items c).

(** The invariant of the cart collection. *)
Definition carts_ok (st : store) : Prop :=
  Forall (cart_ok (db_product st)) (db_cart st).

(** A coupon document with another [min_amount]. *)
Definition with_min_amount (m : Q) (c : Coupon) : Coupon :=
  mkCoupon (coupon__id c) (coupon_code_of c) (coupon_discount_type c)
           (coupon_value c) m (coupon_max_discount c) (coupon_active c).

(** What every order written by [checkout] satisfies. *)
Definition order_placed (o : Order) : Prop :=
  order_items o <> [] /\
  order_status o = "placed" /\
  String.length (order_tracking_code o) = 8%nat /\
  all_chars is_upper_alnum (order_tracking_code o) = true /\
  (0 <= order_final_amount o)%Q /\
  (payment_method_of (order_payment o) = "COD" /\
   payment_provider (order_payment o) = None
   \/
   payment_method_of (order_payment o) = "ONLINE" /\
   payment_provider (order_payment o) = Some "razorpay").

(** Any number of endpoint calls, one after the other. *)
Inductive steps : store -> store -> Prop :=
| steps_none st : steps st st
| steps_more st st' st'' : steps st st' -> step st' st'' -> steps st st''.

(** A hexadecimal digit in either letter case. *)
Definition is_hex_char (c : ascii) : bool :=
  let n := nat_of_ascii c in
  is_digit c || ((97 <=? n)%nat && (n <=? 102)%nat)
  || ((65 <=? n)%nat && (n <=? 70)%nat).

(** [str.lower] on ASCII. *)
Definition lower_ascii (c : ascii) : ascii :=
  let n := nat_of_ascii c in
  if (65 <=? n)%nat && (n <=? 90)%nat then ascii_of_nat (n + 32) else c.

Fixpoint lower (s : string) : string :=
  match s with
  | EmptyString => EmptyString
  | String c s' => String (lower_ascii c) (lower s')
  end.

(** The user collections that registrations and logins build from an
    empty one. *)
Inductive users_reachable (EmailStr : string -> option string)
  : list User -> Prop :=
| users_empty : users_reachable EmailStr []
| users_register fresh payload users :
    users_reachable EmailStr users ->
    users_reachable EmailStr (snd (register EmailStr fresh payload users))
| users_login payload users :
    users_reachable EmailStr users ->
    users_reachable EmailStr (snd (login payload users)).

(** A double with the sign bit [s]: NaN has neither sign. *)
Definition has_sign (s : bool) (x : B64.float) : bool :=
  match x with
  | S754_zero s' | S754_infinity s' | S754_finite s' _ _ => Bool.eqb s' s
  | S754_nan => false
  end.

(** [+0.0], a positive double or [+inf]: not negative, not [-0.0] and not
    NaN. *)
Definition not_negative (x : B64.float) : bool := has_sign false x.

(** [y] is [x] rounded to 2 decimals.  For a finite [x] of magnitude [v],
    [y] is the double nearest to [k / 100] with the sign of [x], where [k]
    is the integer nearest to [100 v], the even one of the two when [100 v]
    lies halfway; a zero, an infinity or NaN is kept. *)
Definition rounds_to (x y : B64.float) : Prop :=
  match x with
  | S754_finite s m e =>
      exists k : Z,
        (Qabs (inject_Z k - B64.value_of m e * 100) <= 1 # 2)%Q /\
        ((Qabs (inject_Z k - B64.value_of m e * 100) == 1 # 2)%Q ->
         Z.even k = true) /\
        y = B64.nearest s k 100
  | _ => y = x
  end.

(** [total] is the product [price * quantity] of the stored item. *)
Definition line_total_of (it : B64.CartItem) (total : B64.float) : Prop :=
  exists quantity,
    B64.of_int (B64.item_quantity it) = Return quantity /\
    total = B64.mul (B64.item_price it) quantity.

(** The three amounts of a stored order: total, discount, final. *)
Definition amounts_of (ord : B64.Order) : B64.float * B64.float * B64.float :=
  (B64.order_total_amount ord, B64.order_discount_amount ord,
   B64.order_final_amount ord).

Definition is_nan (x : B64.float) : bool :=
  match x with
  | S754_nan => true
  | _ => false
  end.

(** The discount of a coupon before its ceiling is applied, on doubles. *)
Definition uncapped_discount_b64 (subtotal : B64.float) (cpn : B64.Coupon)
    (value : B64.float) : B64.float :=
  if String.eqb (B64.coupon_discount_type cpn) "percent"
  then B64.div (B64.mul subtotal value) B64.hundred
  else value.

(** [coupon_within] on doubles: the value is not below 0, the ceiling is a
    number not below 0, and the subtotal is not below the ceiling or not
    below the discount before the ceiling. *)
Definition coupon_within_b64 (subtotal : B64.float) (cpn : B64.Coupon)
  : Prop :=
  exists value ceiling,
    dict_get (B64.coupon_value cpn) B64.zero = Some value /\
    B64.lt value B64.zero = false /\
    dict_get (B64.coupon_max_discount cpn) subtotal = Some ceiling /\
    B64.lt ceiling B64.zero = false /\
    is_nan ceiling = false /\
    (B64.lt subtotal ceiling = false \/
     B64.lt subtotal (uncapped_discount_b64 subtotal cpn value) = false).

(** * Example data *)

(** The ObjectId printed as [65a1b2c3d4e5f60718293a4b]. *)
Definition ex_product_oid : ObjectId := 31453467242603790624579205707%N.

(** The [product_id] a client sends for it. *)
Definition ex_product_id : string := "65a1b2c3d4e5f60718293a4b".

(** A product of the catalog, priced 250. *)
Definition ex_product : Product :=
  mkProduct ex_product_oid (Some "Chicken Breast") (Value 250%Q)
            (Some "breast.png").

(** A cart item of that product, with the price it was added at. *)
Definition ex_item (price : Q) (quantity : Z) : CartItem :=
  mkCartItem ex_product_id (Some "Chicken Breast") price quantity
             (Some "breast.png").

(** The cart of user [u1]. *)
Definition ex_cart (items : list CartItem) (code : option string) : Cart :=
  mkCart 17%N "u1" items None code.

(** A checkout request. *)
Definition ex_payload (payment_method : string) : CheckoutPayload :=
  mkCheckoutPayload [("line1", "12 Lake Road")] "560001" payment_method.

(** One product, one cart worth 250 and no coupon. *)
Definition ex_store_plain : store :=
  mkStore [ex_product] [] [ex_cart [ex_item 250 1] None] [] [].

(** A flat coupon of 10 as [admin_create_coupon] stores it when no
    [max_discount] is given: the key is present and holds [None]. *)
Definition ex_coupon_null_max : Coupon :=
  mkCoupon 7%N "FLAT10" "flat" (Value 10%Q) 0%Q Null true.

Definition ex_store_null_max : store :=
  mkStore [ex_product] [ex_coupon_null_max]
          [ex_cart [ex_item 250 1] (Some "FLAT10")] [] [].

(** A flat coupon of 500 capped at 1000, on a cart worth 250. *)
Definition ex_coupon_flat500 : Coupon :=
  mkCoupon 8%N "BIG500" "flat" (Value 500%Q) 0%Q (Value 1000%Q) true.

Definition ex_store_flat500 : store :=
  mkStore [ex_product] [ex_coupon_flat500]
          [ex_cart [ex_item 250 1] (Some "BIG500")] [] [].

(** The scenario of the specification: items [100 x 2] and [50 x 1],
    coupon SAVE10 of 10 percent capped at 20. *)
Definition ex_coupon_save10 : Coupon :=
  mkCoupon 9%N "SAVE10" "percent" (Value 10%Q) 0%Q (Value 20%Q) true.

Definition ex_cart_save10 : Cart :=
  ex_cart [ex_item 100 2; ex_item 50 1] (Some "SAVE10").

Definition ex_store_save10 : store :=
  mkStore [ex_product] [ex_coupon_save10] [ex_cart_save10] [] [].





Definition ex_store_empty_cart : store :=
  mkStore [ex_product] [] [ex_cart [] None] [] [].

(** An active coupon and no cart at all. *)
Definition ex_store_no_cart : store :=
  mkStore [ex_product] [ex_coupon_save10] [] [] [].

(** Two users with a cart each, and two ObjectIds generated within the same
    second: they share their first four bytes, the timestamp. *)
Definition ex_store_two_carts : store :=
  mkStore [ex_product] []
    [mkCart 17%N "u1" [ex_item 250 1] None None;
     mkCart 18%N "u2" [ex_item 250 2] None None] [] [].

(** Printed as [65a1b2c3d4e5f60718293a4b] and [65a1b2c3d4e5f60718293a4c]. *)
Definition ex_oid_a : ObjectId := 31453467242603790624579205707%N.
Definition ex_oid_b : ObjectId := 31453467242603790624579205708%N.

(** An ObjectId generated one second later, printed as
    [65a1b2c4d4e5f60718293a4b]. *)
Definition ex_oid_later : ObjectId := 31453467261050534698288757323%N.

(** The catalog after [admin_create_product], and the store after user
    [u1] has added the product with quantity 3. *)
Definition ex_store_catalog : store :=
  snd (admin_create_product ex_product empty_store).

Definition ex_store_three : store :=
  snd (add_to_cart 17%N "u1" (mkCartUpdate ex_product_id 3) ex_store_catalog).

(** The same request with quantity 0. *)
Definition ex_store_zero : store :=
  snd (add_to_cart 17%N "u1" (mkCartUpdate ex_product_id 0) ex_store_catalog).

(** A second product of the catalog, priced 90, and a store where the cart
    of [u1] holds the first product only. *)
Definition ex_second_product : Product :=
  mkProduct 1%N (Some "Eggs") (Value 90%Q) (Some "eggs.png").

Definition ex_store_two_products : store :=
  mkStore [ex_product; ex_second_product] []
          [ex_cart [ex_item 250 1] None] [] [].

(** The coupon SAVE10 deactivated, the cart still carrying its code. *)
Definition ex_store_inactive_coupon : store :=
  mkStore [ex_product]
    [mkCoupon 9%N "SAVE10" "percent" (Value 10%Q) 0%Q (Value 20%Q) false]
    [ex_cart_save10] [] [].

(** A registration request, and an email check that keeps every string. *)
Definition ex_auth : AuthPayload :=
  mkAuthPayload (Some "Asha") "asha@example.com" "9876543210".

Definition ex_email_check (s : string) : option string := Some s.

(** A text of [n] euro signs, each one character of 3 bytes (E2 82 AC) in
    UTF-8, and a registration with a mobile of 7 of them. *)
Fixpoint ex_euro_signs (n : nat) : string :=
  match n with
  | O => EmptyString
  | S n' =>
      String (ascii_of_nat 226)
        (String (ascii_of_nat 130)
           (String (ascii_of_nat 172) (ex_euro_signs n')))
  end.

Definition ex_auth_wide (n : nat) : AuthPayload :=
  mkAuthPayload (Some "Bela") "bela@example.com" (ex_euro_signs n).

(** Doubles, each given by its mantissa and exponent and named after the
    decimal literal it is the value of. *)
Definition d_10_50 : B64.float := S754_finite false 5910974510923776 (-49).
Definition d_0_525 : B64.float := S754_finite false 4728779608739021 (-53).
Definition d_0_53 : B64.float := S754_finite false 4773815605012726 (-53).
Definition d_9_97 : B64.float := S754_finite false 5612611035610481 (-49).
Definition d_1_006 : B64.float := S754_finite false 4530621225134719 (-52).
Definition d_0_004 : B64.float := S754_finite false 4611686018427388 (-60).
Definition d_1_01 : B64.float := S754_finite false 4548635623644201 (-52).
Definition d_1 : B64.float := S754_finite false 4503599627370496 (-52).
Definition d_5 : B64.float := S754_finite false 5629499534213120 (-50).
Definition d_50 : B64.float := S754_finite false 7036874417766400 (-47).
Definition d_100 : B64.float := S754_finite false 7036874417766400 (-46).
Definition d_250 : B64.float := S754_finite false 8796093022208000 (-45).
Definition d_500 : B64.float := S754_finite false 8796093022208000 (-44).
Definition d_1000 : B64.float := S754_finite false 8796093022208000 (-43).
Definition d_0_125 : B64.float := S754_finite false 4503599627370496 (-55).
Definition d_0_12 : B64.float := S754_finite false 8646911284551352 (-56).
Definition d_0_375 : B64.float := S754_finite false 6755399441055744 (-54).
Definition d_0_38 : B64.float := S754_finite false 6845471433603154 (-54).
Definition d_minus_0_001 : B64.float :=
  S754_finite true 4611686018427388 (-62).
Definition d_2_675 : B64.float := S754_finite false 6023564501608038 (-51).
Definition d_2_67 : B64.float := S754_finite false 6012305502539612 (-51).
Definition d_0_1 : B64.float := S754_finite false 7205759403792794 (-56).
Definition d_0_9999999999999999 : B64.float := S754_finite false 9007199254740991 (-53).

(** Stores with [float] amounts: one cart for ["u1"] with the given items
    and one active coupon, applied to the cart. *)
Definition ex_b64_item (price : B64.float) (quantity : Z) : B64.CartItem :=
  B64.mkCartItem ex_product_id (Some "Herbal chicken") price quantity None.

Definition ex_b64_store (items : list B64.CartItem) (cpn : B64.Coupon)
  : B64.store :=
  B64.mkStore [] [cpn]
    [B64.mkCart 20%N "u1" items None (Some (B64.coupon_code_of cpn))] [] [].

(** One item at 10.50 and a coupon of 5 percent without a ceiling. *)
Definition ex_b64_five_percent : B64.store :=
  ex_b64_store [ex_b64_item d_10_50 1]
    (B64.mkCoupon 10%N "FIVE" "percent" (Value d_5) B64.zero Missing true).

(** One item at 1.006 and a flat coupon of 0.004. *)
Definition ex_b64_small_flat : B64.store :=
  ex_b64_store [ex_b64_item d_1_006 1]
    (B64.mkCoupon 10%N "TINY" "flat" (Value d_0_004) B64.zero Missing true).

(** Two items at 100.00 and one at 50.00, and a flat coupon of 500 capped
    at 1000. *)
Definition ex_b64_flat500 : B64.store :=
  ex_b64_store [ex_b64_item d_100 2; ex_b64_item d_50 1]
    (B64.mkCoupon 10%N "FLAT500" "flat" (Value d_500) B64.zero
       (Value d_1000) true).

(** * Properties *)

(** ** Collections *)

Section Collections.
Context {A : Type}.
Variables (filt : A -> bool) (patch : A -> A).

Lemma update_one_length (coll : list A) :
  List.length (update_one filt patch coll) = List.length coll.
Proof.
  induction coll as [|d rest IH]; simpl; [reflexivity|].
  destruct (filt d); simpl; congruence.
Qed.

Lemma update_one_no_match (coll : list A) :
  find_one filt coll = None -> update_one filt patch coll = coll.
Proof.
  unfold find_one.
  induction coll as [|d rest IH]; simpl; [reflexivity|].
  destruct (filt d); [discriminate|].
  intros H. now rewrite IH.
Qed.

(** A patch that keeps the filtered key patches the document that
    [find_one] returns. *)
Lemma find_one_update_one (coll : list A) :
  (forall d, filt d = true -> filt (patch d) = true) ->
  find_one filt (update_one filt patch coll)
  = option_map patch (find_one filt coll).
Proof.
  intros Hkeep. unfold find_one.
  induction coll as [|d rest IH]; simpl; [reflexivity|].
  destruct (filt d) eqn:E; simpl.
  - now rewrite (Hkeep d E).
  - now rewrite E.
Qed.

(** Documents that another filter selects, and that the patch leaves
    outside [filt], are found as before. *)
Lemma find_one_update_one_other (other : A -> bool) (coll : list A) :
  (forall d, filt d = true -> other d = false) ->
  (forall d, filt d = true -> other (patch d) = false) ->
  find_one other (update_one filt patch coll) = find_one other coll.
Proof.
  intros H1 H2. unfold find_one.
  induction coll as [|d rest IH]; simpl; [reflexivity|].
  destruct (filt d) eqn:E; simpl.
  - now rewrite (H1 d E), (H2 d E).
  - now rewrite IH.
Qed.

Lemma find_one_insert_one (d : A) (coll : list A) :
  find_one filt (insert_one d coll)
  = match find_one filt coll with
    | Some x => Some x
    | None => if filt d then Some d else None
    end.
Proof.
  unfold find_one, insert_one.
  induction coll as [|x rest IH]; simpl; [reflexivity|].
  destruct (filt x); [reflexivity | exact IH].
Qed.

Lemma find_one_some (coll : list A) (x : A) :
  find_one filt coll = Some x -> In x coll /\ filt x = true.
Proof. apply find_some. Qed.
End Collections.

(** ** Checkout, step by step *)

Lemma checkout_unfold tracking_oid order_oid note_oid user_id data st :
  checkout tracking_oid order_oid note_oid user_id data st =
  match find_cart user_id st with
  | None => (Raise (HTTPException 400 "Cart is empty"), st)
  | Some cart =>
      match cart_items cart with
      | [] => (Raise (HTTPException 400 "Cart is empty"), st)
      | _ :: _ =>
          match cart_discount st cart (subtotal_of (cart_items cart)) with
          | Raise e => (Raise e, st)
          | Return d =>
              let ord :=
                order_doc_of tracking_oid order_oid user_id data cart d in
              (Return (mkCheckoutResponse (oid_str order_oid)
                         (tracking_code_of tracking_oid)
                         (payment_of (payload_payment_method data))),
               store_after_checkout note_oid user_id ord st)
          end
      end
  end.
Proof.
  unfold checkout, bind, gets, raise.
  destruct (find_cart user_id st) as [cart|]; [|reflexivity].
  destruct (cart_items cart) as [|it rest] eqn:Eitems; [reflexivity|].
  destruct (cart_discount st cart (subtotal_of (it :: rest))) as [d|e];
    [|reflexivity].
  unfold order_doc_of. rewrite Eitems. reflexivity.
Qed.

(** A checkout that returns has found a cart with items, priced it, and
    left the store with the order, the cleared cart and the notification. *)
Lemma checkout_returns tracking_oid order_oid note_oid user_id data st resp st' :
  checkout tracking_oid order_oid note_oid user_id data st = (Return resp, st') ->
  exists cart d,
    find_cart user_id st = Some cart /\
    cart_items cart <> [] /\
    cart_discount st cart (subtotal_of (cart_items cart)) = Return d /\
    resp = mkCheckoutResponse (oid_str order_oid)
             (tracking_code_of tracking_oid)
             (payment_of (payload_payment_method data)) /\
    st' = store_after_checkout note_oid user_id
            (order_doc_of tracking_oid order_oid user_id data cart d) st.
Proof.
  rewrite checkout_unfold.
  destruct (find_cart user_id st) as [cart|]; [|discriminate].
  destruct (cart_items cart) as [|it rest] eqn:Eitems; [discriminate|].
  destruct (cart_discount st cart (subtotal_of (it :: rest))) as [d|e] eqn:Ed;
    [|discriminate].
  intros H. injection H as <- <-.
  exists cart, d. rewrite Eitems. repeat split; try assumption.
  discriminate.
Qed.

(** ** Payment block *)

Lemma payment_of_cod (pm : string) :
  upper pm = "COD" -> payment_of pm = mkPayment "COD" None "paid".
Proof. intros H. unfold payment_of. now rewrite H. Qed.

Lemma payment_of_online (pm : string) :
  upper pm = "ONLINE" ->
  payment_of pm = mkPayment "ONLINE" (Some "razorpay") "pending".
Proof. intros H. unfold payment_of. now rewrite H. Qed.

Lemma payment_of_other (pm : string) :
  upper pm <> "COD" -> upper pm <> "ONLINE" ->
  payment_of pm = mkPayment "ONLINE" (Some "razorpay") "paid".
Proof.
  intros H1 H2. unfold payment_of.
  destruct (String.eqb_spec (upper pm) "COD"); [contradiction|].
  destruct (String.eqb_spec (upper pm) "ONLINE"); [contradiction|].
  reflexivity.
Qed.

(** The block returned to the caller is the block stored in the order. *)
Lemma checkout_payment tracking_oid order_oid note_oid user_id data st resp st' :
  checkout tracking_oid order_oid note_oid user_id data st = (Return resp, st') ->
  resp_payment resp = payment_of (payload_payment_method data) /\
  exists ord, db_order st' = insert_one ord (db_order st) /\
              order_payment ord = payment_of (payload_payment_method data).
Proof.
  intros H. apply checkout_returns in H.
  destruct H as (cart & d & _ & _ & _ & -> & ->).
  split; [reflexivity|]. eexists. split; reflexivity.
Qed.

(** C1 (payment block): with [payment_method = "razorpay"] the checkout
    returns and stores [{method: ONLINE, provider: "razorpay"}] with status
    [paid], where the rule gives [pending]: the status is [pending] only
    for a method that upper-cases to [ONLINE]. *)
Theorem C1_razorpay_status_is_paid :
  payment_of "razorpay" = mkPayment "ONLINE" (Some "razorpay") "paid" /\
  payment_of "cod" = mkPayment "COD" None "paid" /\
  payment_of "online" = mkPayment "ONLINE" (Some "razorpay") "pending" /\
  let run := checkout 1%N 2%N 3%N "u1" (ex_payload "razorpay") ex_store_plain in
  option_map resp_payment
    (match fst run with Return r => Some r | Raise _ => None end)
  = Some (mkPayment "ONLINE" (Some "razorpay") "paid") /\
  map order_payment (db_order (snd run))
  = [mkPayment "ONLINE" (Some "razorpay") "paid"].
Proof. repeat split; reflexivity. Qed.

(** ** Coupon evaluation *)

(** The discount formula, for a coupon whose [value] and [max_discount]
    are numbers or absent keys. *)
Lemma coupon_discount_formula (subtotal : Q) (cpn : Coupon) (value ceiling : Q) :
  dict_get (coupon_value cpn) 0%Q = Some value ->
  dict_get (coupon_max_discount cpn) subtotal = Some ceiling ->
  coupon_discount subtotal cpn
  = Return (if String.eqb (coupon_discount_type cpn) "percent"
            then py_min (subtotal * value / 100)%Q ceiling
            else py_min value ceiling).
Proof.
  intros Hv Hm. unfold coupon_discount. rewrite Hv, Hm. simpl.
  now destruct (coupon_discount_type cpn =? "percent").
Qed.

(** A [max_discount] stored as [None] is not replaced by the subtotal:
    [float(None)] raises. *)
Lemma coupon_discount_null_max (subtotal : Q) (cpn : Coupon) :
  coupon_max_discount cpn = Null ->
  exists e, coupon_discount subtotal cpn = Raise e.
Proof.
  intros Hm. unfold coupon_discount. rewrite Hm.
  destruct (coupon_discount_type cpn =? "percent");
    destruct (py_float (dict_get (coupon_value cpn) 0%Q)); simpl; eauto.
Qed.

(** C2 (discount formula): a cart of 250 with the active flat coupon of 10
    whose [max_discount] is stored as null.  The ceiling should be the
    subtotal and the discount 10; the checkout raises [TypeError] instead
    and creates no order. *)
Theorem C2_null_max_discount_raises :
  checkout 1%N 2%N 3%N "u1" (ex_payload "cod") ex_store_null_max
  = (Raise TypeError, ex_store_null_max).
Proof. reflexivity. Qed.

(** ** Arithmetic of amounts *)


Lemma py_min_le_r (a b : Q) : (py_min a b <= b)%Q.
Proof.
  unfold py_min. destruct (Qle_bool a b) eqn:E; [|lra].
  now apply Qle_bool_iff.
Qed.


Lemma py_max_0_nonneg (x : Q) : (0 <= py_max 0 x)%Q.
Proof.
  unfold py_max. destruct (Qle_bool x 0) eqn:E; [lra|].
  assert (~ (x <= 0)%Q) by (rewrite <- Qle_bool_iff; congruence). lra.
Qed.

Lemma py_max_0_le (x s : Q) : (x <= s)%Q -> (0 <= s)%Q -> (py_max 0 x <= s)%Q.
Proof. intros Hx Hs. unfold py_max. now destruct (Qle_bool x 0). Qed.

Lemma round_half_even_bounds (y : Q) :
  (Qfloor y <= round_half_even y <= Qfloor y + 1)%Z.
Proof.
  unfold round_half_even.
  destruct (y - inject_Z (Qfloor y) ?= 1 # 2)%Q; [|lia|lia].
  destruct (Z.even (Qfloor y)); lia.
Qed.

(** Rounding to nearest never reverses two amounts. *)
Lemma round_half_even_monotone (x y : Q) :
  (x <= y)%Q -> (round_half_even x <= round_half_even y)%Z.
Proof.
  intros Hxy.
  pose proof (Qfloor_resp_le x y Hxy) as Hf.
  destruct (Z.eq_dec (Qfloor x) (Qfloor y)) as [E|NE].
  - unfold round_half_even. rewrite E.
    destruct (Qcompare_spec (x - inject_Z (Qfloor y)) (1 # 2)) as [Hx|Hx|Hx];
      destruct (Qcompare_spec (y - inject_Z (Qfloor y)) (1 # 2)) as [Hy|Hy|Hy];
      try destruct (Z.even (Qfloor y)); try lia; exfalso; lra.
  - pose proof (round_half_even_bounds x). pose proof (round_half_even_bounds y).
    lia.
Qed.

Lemma py_round2_monotone (x y : Q) : (x <= y)%Q -> (py_round2 x <= py_round2 y)%Q.
Proof.
  intros Hxy. unfold py_round2. apply Qred_le.
  unfold Qle; simpl.
  apply Z.mul_le_mono_nonneg_r; [lia|].
  apply round_half_even_monotone. lra.
Qed.

Lemma py_round2_0 : py_round2 0 = 0%Q.
Proof. reflexivity. Qed.

(** ** Bounds on the discount *)


(** A percentage of at most 100 never exceeds the subtotal, and a flat
    value does not when it is at most the subtotal. *)
Lemma uncapped_discount_le (subtotal : Q) (cpn : Coupon) (value : Q) :
  (0 <= subtotal)%Q ->
  (if String.eqb (coupon_discount_type cpn) "percent"
   then (value <= 100)%Q else (value <= subtotal)%Q) ->
  (uncapped_discount subtotal cpn value <= subtotal)%Q.
Proof.
  intros Hs. unfold uncapped_discount.
  destruct (coupon_discount_type cpn =? "percent"); [|trivial].
  intros Hv.
  assert (subtotal * value <= subtotal * 100)%Q as H
      by (rewrite !(Qmult_comm subtotal); now apply Qmult_le_compat_r).
  apply Qle_shift_div_r; lra.
Qed.

Lemma coupon_discount_uncapped (subtotal : Q) (cpn : Coupon)
    (value ceiling : Q) :
  dict_get (coupon_value cpn) 0%Q = Some value ->
  dict_get (coupon_max_discount cpn) subtotal = Some ceiling ->
  coupon_discount subtotal cpn
  = Return (py_min (uncapped_discount subtotal cpn value) ceiling).
Proof.
  intros Hv Hm.
  rewrite (coupon_discount_formula subtotal cpn value ceiling Hv Hm).
  unfold uncapped_discount.
  now destruct (coupon_discount_type cpn =? "percent").
Qed.


(** The conditions are the exact ones: for a coupon whose value is a
    number at least 0 and whose ceiling is a number, the discount lies
    between 0 and the subtotal only if the subtotal and the ceiling are
    not negative and the ceiling or the discount before the ceiling is at
    most the subtotal. *)
Lemma coupon_discount_within_only_if (subtotal : Q) (cpn : Coupon)
    (value ceiling d : Q) :
  dict_get (coupon_value cpn) 0%Q = Some value ->
  dict_get (coupon_max_discount cpn) subtotal = Some ceiling ->
  coupon_discount subtotal cpn = Return d ->
  (0 <= d <= subtotal)%Q ->
  (0 <= subtotal)%Q /\ (0 <= ceiling)%Q /\
  ((ceiling <= subtotal)%Q \/
   (uncapped_discount subtotal cpn value <= subtotal)%Q).
Proof.
  intros Hv Hm Hd [Hd0 Hd1].
  rewrite (coupon_discount_uncapped subtotal cpn value ceiling Hv Hm) in Hd.
  injection Hd as <-.
  pose proof (py_min_le_r (uncapped_discount subtotal cpn value) ceiling).
  split; [lra|]. split; [lra|].
  unfold py_min in Hd1.
  destruct (Qle_bool (uncapped_discount subtotal cpn value) ceiling);
    [now right | now left].
Qed.




Example scenario_save10 :
  map (fun o => (order_total_amount o, order_discount_amount o,
                 order_final_amount o))
      (db_order (snd (checkout 1%N 2%N 3%N "u1" (ex_payload "cod")
                        ex_store_save10)))
  = [(250%Q, 20%Q, 230%Q)].
Proof. reflexivity. Qed.


(** ** Order amounts *)

(** *** Rounding to 2 decimals *)

(** [round_half_even] returns the nearest integer, and the even one at a
    tie. *)
Lemma round_half_even_nearest (y : Q) :
  (Qabs (inject_Z (round_half_even y) - y) <= 1 # 2)%Q /\
  ((Qabs (inject_Z (round_half_even y) - y) == 1 # 2)%Q ->
   Z.even (round_half_even y) = true).
Proof.
  pose proof (Qfloor_le y) as Hlo. pose proof (Qlt_floor y) as Hhi.
  rewrite inject_Z_plus in Hhi.
  change (inject_Z 1) with 1%Q in Hhi.
  unfold round_half_even.
  destruct (Qcompare_spec (y - inject_Z (Qfloor y)) (1 # 2)) as [E|L|G].
  - destruct (Z.even (Qfloor y)) eqn:Ev.
    + split; [apply Qabs_Qle_condition; lra | intros _; exact Ev].
    + rewrite inject_Z_plus. change (inject_Z 1) with 1%Q.
      split; [apply Qabs_Qle_condition; lra|].
      intros _. rewrite Z.even_add, Ev. reflexivity.
  - split; [apply Qabs_Qle_condition; lra|].
    intros H. exfalso. revert H. apply Qabs_case; intros; lra.
  - rewrite inject_Z_plus. change (inject_Z 1) with 1%Q.
    split; [apply Qabs_Qle_condition; lra|].
    intros H. exfalso. revert H. apply Qabs_case; intros; lra.
Qed.

Lemma round2_rounds_to (x : B64.float) : rounds_to x (B64.round2 x).
Proof.
  destruct x as [s|s| |s m e]; try reflexivity.
  cbn [rounds_to B64.round2].
  exists (round_half_even (B64.value_of m e * 100)).
  destruct (round_half_even_nearest (B64.value_of m e * 100)) as [H1 H2].
  split; [exact H1|]. split; [exact H2|reflexivity].
Qed.

(** Two integers within one half of the same number, each even if it is at
    exactly one half, are equal. *)
Lemma nearest_even_unique (y : Q) (j k : Z) :
  (Qabs (inject_Z j - y) <= 1 # 2)%Q ->
  ((Qabs (inject_Z j - y) == 1 # 2)%Q -> Z.even j = true) ->
  (Qabs (inject_Z k - y) <= 1 # 2)%Q ->
  ((Qabs (inject_Z k - y) == 1 # 2)%Q -> Z.even k = true) ->
  j = k.
Proof.
  intros Hj Ej Hk Ek.
  apply Qabs_Qle_condition in Hj. apply Qabs_Qle_condition in Hk.
  assert (inject_Z (j - k) <= inject_Z 1)%Q as H1
      by (unfold Z.sub; rewrite inject_Z_plus, inject_Z_opp;
          change (inject_Z 1) with 1%Q; lra).
  assert (inject_Z (k - j) <= inject_Z 1)%Q as H2
      by (unfold Z.sub; rewrite inject_Z_plus, inject_Z_opp;
          change (inject_Z 1) with 1%Q; lra).
  rewrite <- Zle_Qle in H1, H2.
  destruct (Z.eq_dec j k) as [|NE]; [assumption|exfalso].
  assert (j = k + 1 \/ k = j + 1)%Z as Hjk by lia.
  destruct Hjk as [Hjk|Hjk]; subst.
  - rewrite inject_Z_plus in *. change (inject_Z 1) with 1%Q in *.
    assert (y == inject_Z k + (1 # 2))%Q as Hy by lra.
    assert (Z.even (k + 1) = true) as E1.
    { apply Ej. rewrite Hy. apply Qabs_case; intros; lra. }
    assert (Z.even k = true) as E2.
    { apply Ek. rewrite Hy. apply Qabs_case; intros; lra. }
    rewrite Z.even_add, E2 in E1. discriminate.
  - rewrite inject_Z_plus in *. change (inject_Z 1) with 1%Q in *.
    assert (y == inject_Z j + (1 # 2))%Q as Hy by lra.
    assert (Z.even (j + 1) = true) as E1.
    { apply Ek. rewrite Hy. apply Qabs_case; intros; lra. }
    assert (Z.even j = true) as E2.
    { apply Ej. rewrite Hy. apply Qabs_case; intros; lra. }
    rewrite Z.even_add, E2 in E1. discriminate.
Qed.

Lemma rounds_to_round2 (x y : B64.float) : rounds_to x y -> y = B64.round2 x.
Proof.
  destruct x as [s|s| |s m e]; cbn [rounds_to B64.round2]; try (intros ->; reflexivity).
  intros (k & H1 & H2 & ->).
  destruct (round_half_even_nearest (B64.value_of m e * 100)) as [H3 H4].
  now rewrite (nearest_even_unique _ _ _ H1 H2 H3 H4).
Qed.

(** *** Signs of doubles *)

Lemma shr_1_nonneg (mrs : shr_record) :
  (0 <= shr_m mrs)%Z -> (0 <= shr_m (shr_1 mrs))%Z.
Proof.
  destruct mrs as [m r s]. destruct m as [|[p|p|]|p]; cbn; lia.
Qed.

Lemma iter_pos_shr_1_nonneg (p : positive) (mrs : shr_record) :
  (0 <= shr_m mrs)%Z -> (0 <= shr_m (iter_pos shr_1 p mrs))%Z.
Proof.
  revert mrs. induction p as [p IH|p IH|]; intros mrs H; cbn [iter_pos].
  - apply IH, IH, shr_1_nonneg, H.
  - apply IH, IH, H.
  - apply shr_1_nonneg, H.
Qed.

Lemma shr_fexp_nonneg (m e : Z) (l : location) :
  (0 <= m)%Z -> (0 <= shr_m (fst (shr_fexp B64.prec B64.emax m e l)))%Z.
Proof.
  intros H. unfold shr_fexp, shr.
  assert (0 <= shr_m (shr_record_of_loc m l))%Z as H0
      by (destruct l as [|[]]; exact H).
  destruct (fexp B64.prec B64.emax (Zdigits2 m + e) - e)%Z; cbn [fst];
    [exact H0 | now apply iter_pos_shr_1_nonneg | exact H0].
Qed.

Lemma round_nearest_even_nonneg (m : Z) (l : location) :
  (0 <= m)%Z -> (0 <= round_nearest_even m l)%Z.
Proof.
  intros H. destruct l as [|[]]; cbn; try destruct (Z.even m); lia.
Qed.

Lemma binary_round_aux_sign (s : bool) (m e : Z) (l : location) :
  (0 <= m)%Z ->
  has_sign s (binary_round_aux B64.prec B64.emax s m e l) = true.
Proof.
  intros H. unfold binary_round_aux.
  pose proof (shr_fexp_nonneg m e l H) as H1.
  destruct (shr_fexp B64.prec B64.emax m e l) as [mrs' e'].
  cbn [fst] in H1.
  pose proof (shr_fexp_nonneg _ e' loc_Exact
                (round_nearest_even_nonneg _ (loc_of_shr_record mrs') H1)) as H2.
  destruct (shr_fexp B64.prec B64.emax
              (round_nearest_even (shr_m mrs') (loc_of_shr_record mrs')) e'
              loc_Exact) as [mrs'' e''].
  cbn [fst] in H2.
  destruct (shr_m mrs'') as [|p|p]; [| |lia].
  - cbn. apply eqb_reflx.
  - destruct (e'' <=? B64.emax - B64.prec)%Z; cbn; apply eqb_reflx.
Qed.

Lemma nearest_sign (s : bool) (n : Z) (d : positive) :
  has_sign s (B64.nearest s n d) = true.
Proof.
  unfold B64.nearest. destruct n as [|n|n]; try (cbn; apply eqb_reflx).
  destruct (SFdiv_core_binary B64.prec B64.emax (Z.pos n) 0 (Z.pos d) 0)
    as [[m e] l] eqn:E.
  apply binary_round_aux_sign.
  unfold SFdiv_core_binary in E.
  match type of E with
  | (let '(q, r) := Z.div_eucl ?a ?b in _) = _ =>
      assert (0 <= a)%Z as Ha;
      [| pose proof (Z.div_pos a b Ha eq_refl) as Hq; unfold Z.div in Hq;
         destruct (Z.div_eucl a b) as [q r]; cbn [fst] in Hq;
         injection E as <- _ _; exact Hq]
  end.
  match goal with
  | |- (0 <= match ?s with _ => _ end)%Z => destruct s
  end; try lia.
  apply Z.shiftl_nonneg. lia.
Qed.

Lemma round2_sign (s : bool) (x : B64.float) :
  has_sign s x = true -> has_sign s (B64.round2 x) = true.
Proof.
  destruct x as [s'|s'| |s' m e]; cbn [B64.round2]; try (intros H; exact H).
  cbn [has_sign]. intros H. apply eqb_prop in H. subst s'. apply nearest_sign.
Qed.

Lemma py_max_zero_not_negative (y : B64.float) :
  not_negative (B64.py_max B64.zero y) = true.
Proof. destruct y as [[]|[]| |[] m e]; reflexivity. Qed.

Lemma py_max_zero_cases (y : B64.float) :
  (B64.lt B64.zero y = false -> B64.py_max B64.zero y = B64.zero) /\
  (B64.lt B64.zero y = true -> B64.py_max B64.zero y = y).
Proof.
  unfold B64.py_max. destruct (B64.lt B64.zero y); split; congruence.
Qed.

(** *** The stored amounts *)

Lemma line_totals_each (items : list B64.CartItem) (totals : list B64.float) :
  B64.line_totals items = Return totals -> Forall2 line_total_of items totals.
Proof.
  revert totals. induction items as [|it rest IH]; intros totals; cbn [B64.line_totals].
  - intros H. injection H as <-. constructor.
  - destruct (B64.of_int (B64.item_quantity it)) as [q|e] eqn:Eq; [|discriminate].
    destruct (B64.line_totals rest) as [ts|e]; [|discriminate].
    intros H. injection H as <-.
    constructor; [|now apply IH].
    exists q. split; [exact Eq|reflexivity].
Qed.

Lemma b64_checkout_returns (py_sum : list B64.float -> B64.float)
    tracking_oid order_oid note_oid user_id data st resp st' :
  B64.checkout py_sum tracking_oid order_oid note_oid user_id data st
  = (Return resp, st') ->
  exists cart totals discount,
    B64.find_cart user_id st = Some cart /\
    B64.cart_items cart <> [] /\
    B64.line_totals (B64.cart_items cart) = Return totals /\
    B64.cart_discount st cart (py_sum totals) = Return discount /\
    resp = mkCheckoutResponse (oid_str order_oid)
             (tracking_code_of tracking_oid)
             (payment_of (payload_payment_method data)) /\
    st' = B64.mkStore (B64.db_product st) (B64.db_coupon st)
            (update_one (B64.by_user_id user_id) B64.clear_cart (B64.db_cart st))
            (insert_one
               (B64.order_doc_of tracking_oid order_oid user_id data cart
                  (py_sum totals) discount)
               (B64.db_order st))
            (insert_one (notification_of note_oid order_oid user_id)
               (B64.db_notification st)).
Proof.
  unfold B64.checkout, B64.subtotal_of.
  destruct (B64.find_cart user_id st) as [cart|]; [|discriminate].
  destruct (B64.cart_items cart) as [|it rest] eqn:Eitems; [discriminate|].
  cbv iota. rewrite <- Eitems.
  destruct (B64.line_totals (B64.cart_items cart)) as [totals|e] eqn:Et;
    [|discriminate].
  destruct (B64.cart_discount st cart (py_sum totals)) as [discount|e] eqn:Ed;
    [|discriminate].
  intros H. injection H as <- <-.
  exists cart, totals, discount.
  split; [reflexivity|]. split; [rewrite Eitems; discriminate|].
  split; [exact Et|]. split; [exact Ed|].
  split; reflexivity.
Qed.

(** C4 (order amounts), as claimed: one item at 1.006 with a flat coupon
    of 0.004 is stored with total 1.01, discount 0.0 and final amount 1.0,
    since the final amount is rounded from 1.006 - 0.004; the maximum of 0
    and the stored total minus the stored discount is 1.01, not the stored
    final amount. *)
Theorem C4_final_not_from_stored_amounts :
  exists ord,
    B64.db_order
      (snd (B64.checkout B64.sum_left_to_right 1%N 2%N 3%N "u1"
              (ex_payload "cod") ex_b64_small_flat)) = [ord] /\
    amounts_of ord
    = (d_1_01, B64.zero, d_1) /\
    B64.py_max B64.zero
      (B64.sub (B64.order_total_amount ord) (B64.order_discount_amount ord))
    = d_1_01 /\
    B64.order_final_amount ord
    <> B64.round2
         (B64.py_max B64.zero
            (B64.sub (B64.order_total_amount ord)
               (B64.order_discount_amount ord))).
Proof.
  eexists. split; [vm_compute; reflexivity|].
  split; [vm_compute; reflexivity|].
  split; [vm_compute; reflexivity|].
  vm_compute. discriminate.
Qed.

(** C4 (order amounts), amended: a checkout that returns has stored one
    new order with the items of the cart.  For [subtotal], the [sum] of the
    products [price * quantity] of these stored items, and [discount], the
    discount of the cart on it, the stored [total_amount],
    [discount_amount] and [final_amount] are [subtotal], [discount] and
    [max(0, subtotal - discount)], each rounded to 2 decimals on its own,
    so the final amount is not computed from the two stored amounts.  The
    final amount is never negative, [-0.0] or NaN; it is [0.0] unless
    [subtotal - discount] is above 0.  The product collection plays no
    part: with any other catalog the same order is stored. *)
Theorem C4_order_amounts_stored (py_sum : list B64.float -> B64.float)
    tracking_oid order_oid note_oid user_id data st resp st' :
  B64.checkout py_sum tracking_oid order_oid note_oid user_id data st
  = (Return resp, st') ->
  exists cart totals discount ord,
    B64.find_cart user_id st = Some cart /\
    Forall2 line_total_of (B64.cart_items cart) totals /\
    B64.cart_discount st cart (py_sum totals) = Return discount /\
    B64.db_order st' = insert_one ord (B64.db_order st) /\
    resp_order_id resp = oid_str (B64.order__id ord) /\
    B64.order_items ord = B64.cart_items cart /\
    rounds_to (py_sum totals) (B64.order_total_amount ord) /\
    rounds_to discount (B64.order_discount_amount ord) /\
    rounds_to (B64.py_max B64.zero (B64.sub (py_sum totals) discount))
      (B64.order_final_amount ord) /\
    not_negative (B64.order_final_amount ord) = true /\
    (B64.lt B64.zero (B64.sub (py_sum totals) discount) = false ->
     B64.order_final_amount ord = B64.zero) /\
    (B64.lt B64.zero (B64.sub (py_sum totals) discount) = true ->
     rounds_to (B64.sub (py_sum totals) discount)
       (B64.order_final_amount ord)) /\
    forall catalog,
      B64.checkout py_sum tracking_oid order_oid note_oid user_id data
        (B64.set_products catalog st)
      = (Return resp, B64.set_products catalog st').
Proof.
  intros H. pose proof H as H0. apply b64_checkout_returns in H.
  destruct H as (cart & totals & d & Hcart & Hitems & Htotals & Hd & -> & ->).
  exists cart, totals, d. eexists.
  split; [exact Hcart|].
  split; [now apply line_totals_each|].
  split; [exact Hd|].
  split; [reflexivity|]. split; [reflexivity|]. split; [reflexivity|].
  cbn [B64.order_doc_of B64.order_total_amount B64.order_discount_amount
       B64.order_final_amount].
  split; [apply round2_rounds_to|]. split; [apply round2_rounds_to|].
  split; [apply round2_rounds_to|].
  split; [apply round2_sign, py_max_zero_not_negative|].
  destruct (py_max_zero_cases (B64.sub (py_sum totals) d)) as [Hle Hgt].
  split; [intros Hc; now rewrite (Hle Hc)|].
  split; [intros Hc; rewrite (Hgt Hc); apply round2_rounds_to|].
  intros catalog. unfold B64.checkout, B64.subtotal_of.
  change (B64.find_cart user_id (B64.set_products catalog st))
    with (B64.find_cart user_id st).
  rewrite Hcart.
  destruct (B64.cart_items cart) as [|it rest] eqn:E; [contradiction|].
  rewrite Htotals.
  change (B64.cart_discount (B64.set_products catalog st) cart (py_sum totals))
    with (B64.cart_discount st cart (py_sum totals)).
  rewrite Hd. unfold B64.order_doc_of. rewrite E. reflexivity.
Qed.

(** The amended C4 on one item at 10.50 with 5 percent off, stored as
    10.5, 0.53 and 9.97 (the discount computed, the double 0.525, lies
    above the decimal of that name), and on a cart of 250 with a flat
    coupon of 500, stored with the final amount 0.0; with either sum. *)
Lemma C4_order_amounts_stored_witness :
  (exists cart totals discount ord,
      B64.find_cart "u1" ex_b64_five_percent = Some cart /\
      Forall2 line_total_of (B64.cart_items cart) totals /\
      B64.cart_discount ex_b64_five_percent cart
        (B64.sum_left_to_right totals) = Return discount /\
      B64.db_order
        (snd (B64.checkout B64.sum_left_to_right 1%N 2%N 3%N "u1"
                (ex_payload "cod") ex_b64_five_percent))
      = insert_one ord (B64.db_order ex_b64_five_percent) /\
      resp_order_id
        (mkCheckoutResponse (oid_str 2%N) (tracking_code_of 1%N)
           (payment_of "cod"))
      = oid_str (B64.order__id ord) /\
      B64.order_items ord = B64.cart_items cart /\
      rounds_to (B64.sum_left_to_right totals) (B64.order_total_amount ord) /\
      rounds_to discount (B64.order_discount_amount ord) /\
      rounds_to
        (B64.py_max B64.zero
           (B64.sub (B64.sum_left_to_right totals) discount))
        (B64.order_final_amount ord) /\
      not_negative (B64.order_final_amount ord) = true /\
      (B64.lt B64.zero (B64.sub (B64.sum_left_to_right totals) discount)
       = false ->
       B64.order_final_amount ord = B64.zero) /\
      (B64.lt B64.zero (B64.sub (B64.sum_left_to_right totals) discount)
       = true ->
       rounds_to (B64.sub (B64.sum_left_to_right totals) discount)
         (B64.order_final_amount ord)) /\
      forall catalog,
        B64.checkout B64.sum_left_to_right 1%N 2%N 3%N "u1"
          (ex_payload "cod") (B64.set_products catalog ex_b64_five_percent)
        = (Return
             (mkCheckoutResponse (oid_str 2%N) (tracking_code_of 1%N)
                (payment_of "cod")),
           B64.set_products catalog
             (snd (B64.checkout B64.sum_left_to_right 1%N 2%N 3%N "u1"
                     (ex_payload "cod") ex_b64_five_percent)))) /\
  map amounts_of
    (B64.db_order
       (snd (B64.checkout B64.sum_left_to_right 1%N 2%N 3%N "u1"
               (ex_payload "cod") ex_b64_five_percent)))
  = [(d_10_50, d_0_53, d_9_97)] /\
  map amounts_of
    (B64.db_order
       (snd (B64.checkout B64.sum_left_to_right 1%N 2%N 3%N "u1"
               (ex_payload "cod") ex_b64_flat500)))
  = [(d_250, d_500, B64.zero)] /\
  map amounts_of
    (B64.db_order
       (snd (B64.checkout B64.sum_compensated 1%N 2%N 3%N "u1"
               (ex_payload "cod") ex_b64_five_percent)))
  = [(d_10_50, d_0_53, d_9_97)] /\
  map amounts_of
    (B64.db_order
       (snd (B64.checkout B64.sum_compensated 1%N 2%N 3%N "u1"
               (ex_payload "cod") ex_b64_flat500)))
  = [(d_250, d_500, B64.zero)].
Proof.
  split; [|repeat split; vm_compute; reflexivity].
  apply (C4_order_amounts_stored B64.sum_left_to_right 1%N 2%N 3%N "u1"
           (ex_payload "cod") ex_b64_five_percent).
  vm_compute. reflexivity.
Defined.

(** *** Doubles of the examples *)

(** The decimal literals are the doubles named after them. *)
Example decimal_literals :
  B64.nearest false 1050 100 = d_10_50 /\
  B64.nearest false 525 1000 = d_0_525 /\
  B64.nearest false 53 100 = d_0_53 /\
  B64.nearest false 997 100 = d_9_97 /\
  B64.nearest false 1006 1000 = d_1_006 /\
  B64.nearest false 4 1000 = d_0_004 /\
  B64.nearest false 101 100 = d_1_01 /\
  B64.nearest false 2675 1000 = d_2_675 /\
  B64.nearest false 267 100 = d_2_67 /\
  B64.nearest false 1 10 = d_0_1 /\
  B64.nearest true 1 1000 = d_minus_0_001 /\
  B64.hundred = d_100 /\
  B64.of_int 250 = Return d_250.
Proof. vm_compute. repeat split. Qed.

(** The doubles of the examples are canonical: each is a value a Python
    [float] can hold. *)
Example example_doubles_are_doubles :
  forallb (valid_binary B64.prec B64.emax)
    [d_10_50; d_0_525; d_0_53; d_9_97; d_1_006; d_0_004; d_1_01; d_1; d_5;
     d_50; d_100; d_250; d_500; d_1000; d_0_125; d_0_12; d_0_375; d_0_38;
     d_minus_0_001; d_2_675; d_2_67; d_0_1; d_0_9999999999999999]
  = true.
Proof. reflexivity. Qed.

(** [round(2.675, 2)] is 2.67, the double 2.675 lying below the decimal
    of that name; a tie goes to the even hundredth; the sign of a value
    rounded to zero is kept. *)
Example round2_examples :
  B64.round2 d_2_675 = d_2_67 /\
  B64.round2 d_0_125 = d_0_12 /\
  B64.round2 d_0_375 = d_0_38 /\
  B64.round2 d_0_525 = d_0_53 /\
  B64.round2 d_minus_0_001 = S754_zero true /\
  B64.round2 (S754_infinity false) = S754_infinity false /\
  B64.round2 S754_nan = S754_nan.
Proof. vm_compute. repeat split. Qed.

(** Ten additions of 0.1 from left to right do not reach 1.0; the
    compensated sum does.  On one element the two sums agree. *)
Example sum_of_tenths :
  B64.sum_left_to_right (repeat d_0_1 10) = d_0_9999999999999999 /\
  B64.sum_compensated (repeat d_0_1 10) = d_1.
Proof. vm_compute. split; reflexivity. Qed.

Lemma sum_of_one (x : B64.float) :
  B64.sum_left_to_right [x] = B64.add B64.zero x /\
  B64.sum_compensated [x] = B64.add B64.zero x.
Proof. split; reflexivity. Qed.

(** Where the two embeddings part: 5 percent of 10.50 is 0.525 in exact
    arithmetic, rounded to the even hundredth 0.52, while the double the
    code computes lies above the decimal 0.525 and is rounded to 0.53. *)
Example exact_and_double_discount :
  py_round2 (10.5 * 5 / 100) = (13 # 25)%Q /\
  B64.div (B64.mul d_10_50 d_5) B64.hundred = d_0_525 /\
  B64.round2 d_0_525 = d_0_53.
Proof. vm_compute. repeat split. Qed.

(** *** Bounds on the discount, on doubles *)

(** The order of the doubles, as [SFcompare] decides it, is transitive. *)
Lemma lt_trans (a b c : B64.float) :
  B64.lt a b = true -> B64.lt b c = true -> B64.lt a c = true.
Proof.
  unfold B64.lt, SFltb.
  destruct a as [sa|sa| |sa ma ea], b as [sb|sb| |sb mb eb],
           c as [sc|sc| |sc mc ec];
    try destruct sa; try destruct sb; try destruct sc; cbn;
    try congruence.
  - destruct (Z.compare_spec ea eb), (Z.compare_spec eb ec),
             (Z.compare_spec ea ec); try congruence; try lia.
    subst. rewrite !Pos.compare_cont_spec. cbn [Pos.switch_Eq].
    destruct (Pos.compare_spec ma mb), (Pos.compare_spec mb mc),
             (Pos.compare_spec ma mc); cbn; try congruence; try lia.
  - destruct (Z.compare_spec ea eb), (Z.compare_spec eb ec),
             (Z.compare_spec ea ec); try congruence; try lia.
    subst. rewrite !Pos.compare_cont_spec. cbn [Pos.switch_Eq].
    destruct (Pos.compare_spec ma mb), (Pos.compare_spec mb mc),
             (Pos.compare_spec ma mc); cbn; try congruence; try lia.
Qed.

Lemma lt_false_trans (a b c : B64.float) :
  is_nan b = false ->
  B64.lt a b = false -> B64.lt b c = false -> B64.lt a c = false.
Proof.
  unfold B64.lt, SFltb.
  destruct a as [sa|sa| |sa ma ea], b as [sb|sb| |sb mb eb],
           c as [sc|sc| |sc mc ec];
    try destruct sa; try destruct sb; try destruct sc; cbn;
    try congruence.
  - destruct (Z.compare_spec ea eb), (Z.compare_spec eb ec),
             (Z.compare_spec ea ec); try congruence; try lia.
    subst. rewrite !Pos.compare_cont_spec. cbn [Pos.switch_Eq].
    destruct (Pos.compare_spec ma mb), (Pos.compare_spec mb mc),
             (Pos.compare_spec ma mc); cbn; try congruence; try lia.
  - destruct (Z.compare_spec ea eb), (Z.compare_spec eb ec),
             (Z.compare_spec ea ec); try congruence; try lia.
    subst. rewrite !Pos.compare_cont_spec. cbn [Pos.switch_Eq].
    destruct (Pos.compare_spec ma mb), (Pos.compare_spec mb mc),
             (Pos.compare_spec ma mc); cbn; try congruence; try lia.
Qed.

Lemma has_sign_not_below_zero (x : B64.float) :
  has_sign false x = true -> B64.lt x B64.zero = false.
Proof. destruct x as [[]|[]| |[] m e]; cbn; congruence. Qed.

Lemma mul_not_below_zero (a b : B64.float) :
  B64.lt a B64.zero = false -> B64.lt b B64.zero = false ->
  B64.lt (B64.mul a b) B64.zero = false.
Proof.
  destruct a as [sa|sa| |sa ma ea], b as [sb|sb| |sb mb eb];
    try destruct sa; try destruct sb; cbn; try congruence.
  intros _ _. apply has_sign_not_below_zero.
  apply (binary_round_aux_sign false). lia.
Qed.

Lemma div_not_below_zero (a : B64.float) (m : positive) (e : Z) :
  B64.lt a B64.zero = false ->
  B64.lt (B64.div a (S754_finite false m e)) B64.zero = false.
Proof.
  destruct a as [sa|sa| |sa ma ea]; try destruct sa; cbn; try congruence.
  intros _. apply has_sign_not_below_zero.
  unfold B64.div, SFdiv.
  destruct (SFdiv_core_binary B64.prec B64.emax (Z.pos ma) ea (Z.pos m) e)
    as [[mz ez] lz] eqn:E.
  apply (binary_round_aux_sign false).
  unfold SFdiv_core_binary in E.
  match type of E with
  | (let '(q, r) := Z.div_eucl ?a ?b in _) = _ =>
      assert (0 <= a)%Z as Ha;
      [| pose proof (Z.div_pos a b Ha eq_refl) as Hq; unfold Z.div in Hq;
         destruct (Z.div_eucl a b) as [q r]; cbn [fst] in Hq;
         injection E as <- _ _; exact Hq]
  end.
  match goal with
  | |- (0 <= match ?s with _ => _ end)%Z => destruct s
  end; try lia.
  apply Z.shiftl_nonneg. lia.
Qed.

Lemma uncapped_discount_b64_not_below_zero (subtotal : B64.float)
    (cpn : B64.Coupon) (value : B64.float) :
  B64.lt subtotal B64.zero = false -> B64.lt value B64.zero = false ->
  B64.lt (uncapped_discount_b64 subtotal cpn value) B64.zero = false.
Proof.
  intros Hs Hv. unfold uncapped_discount_b64.
  destruct (B64.coupon_discount_type cpn =? "percent"); [|exact Hv].
  apply div_not_below_zero, mul_not_below_zero; assumption.
Qed.

Lemma coupon_discount_b64_within (subtotal : B64.float) (cpn : B64.Coupon) :
  B64.lt subtotal B64.zero = false -> coupon_within_b64 subtotal cpn ->
  exists d,
    B64.coupon_discount subtotal cpn = Return d /\
    B64.lt d B64.zero = false /\ B64.lt subtotal d = false.
Proof.
  intros Hs (value & ceiling & Hv & Hv0 & Hm & Hm0 & Hnan & Hle).
  pose proof (uncapped_discount_b64_not_below_zero subtotal cpn value Hs Hv0)
    as Hu.
  exists (B64.py_min (uncapped_discount_b64 subtotal cpn value) ceiling).
  split.
  - unfold B64.coupon_discount, uncapped_discount_b64. rewrite Hv, Hm.
    now destruct (B64.coupon_discount_type cpn =? "percent").
  - unfold B64.py_min.
    destruct (B64.lt ceiling (uncapped_discount_b64 subtotal cpn value))
      eqn:Hcu.
    + split; [exact Hm0|].
      destruct Hle as [Hle|Hle]; [exact Hle|].
      destruct (B64.lt subtotal ceiling) eqn:Hsc; [|reflexivity].
      rewrite (lt_trans _ _ _ Hsc Hcu) in Hle. discriminate.
    + split; [exact Hu|].
      destruct Hle as [Hle|Hle]; [|exact Hle].
      exact (lt_false_trans _ _ _ Hnan Hle Hcu).
Qed.

Lemma cart_discount_b64_within (st : B64.store) (cart : B64.Cart)
    (subtotal : B64.float) :
  B64.lt subtotal B64.zero = false ->
  (forall code cpn,
      B64.cart_coupon_code cart = Some code ->
      B64.find_active_coupon code st = Some cpn ->
      coupon_within_b64 subtotal cpn) ->
  exists d,
    B64.cart_discount st cart subtotal = Return d /\
    B64.lt d B64.zero = false /\ B64.lt subtotal d = false.
Proof.
  intros Hs Hcpn. unfold B64.cart_discount.
  destruct (truthy_str (B64.cart_coupon_code cart));
    [|exists B64.zero; split; [reflexivity|split; [reflexivity|exact Hs]]].
  destruct (B64.cart_coupon_code cart) as [code|];
    [|exists B64.zero; split; [reflexivity|split; [reflexivity|exact Hs]]].
  destruct (B64.find_active_coupon code st) as [cpn|] eqn:Hfind;
    [|exists B64.zero; split; [reflexivity|split; [reflexivity|exact Hs]]].
  apply coupon_discount_b64_within; [exact Hs|].
  now apply (Hcpn code cpn).
Qed.

(** ** Empty carts *)

(** C5 (empty cart): when the user has no cart, or a cart without items,
    the checkout raises the 400 error "Cart is empty" and leaves the whole
    store, orders included, as it was. *)
Theorem C5_empty_cart_rejected
    tracking_oid order_oid note_oid user_id data st :
  (forall cart, find_cart user_id st = Some cart -> cart_items cart = []) ->
  checkout tracking_oid order_oid note_oid user_id data st
  = (Raise (HTTPException 400 "Cart is empty"), st).
Proof.
  intros H. rewrite checkout_unfold.
  destruct (find_cart user_id st) as [cart|]; [|reflexivity].
  now rewrite (H cart eq_refl).
Qed.

(** C5 on an empty cart and on a user without a cart. *)
Lemma C5_empty_cart_rejected_witness :
  checkout 1%N 2%N 3%N "u1" (ex_payload "cod") ex_store_empty_cart
  = (Raise (HTTPException 400 "Cart is empty"), ex_store_empty_cart) /\
  checkout 1%N 2%N 3%N "nobody" (ex_payload "cod") ex_store_empty_cart
  = (Raise (HTTPException 400 "Cart is empty"), ex_store_empty_cart).
Proof.
  split.
  - apply (C5_empty_cart_rejected 1%N 2%N 3%N "u1" (ex_payload "cod")
             ex_store_empty_cart).
    intros cart H. vm_compute in H. injection H as <-. reflexivity.
  - apply (C5_empty_cart_rejected 1%N 2%N 3%N "nobody" (ex_payload "cod")
             ex_store_empty_cart).
    intros cart H. vm_compute in H. discriminate H.
Defined.

(** ** The cart after a checkout *)

Lemma clear_cart_keeps_user (user_id : string) (c : Cart) :
  by_user_id user_id c = true -> by_user_id user_id (clear_cart c) = true.
Proof. intros H. exact H. Qed.

(** C6 (cart reset): after a checkout that returns, the cart of the user
    is the document it was before (same [_id], same user), with an empty
    item list and no coupon code; no cart document was added or removed. *)
Theorem C6_checkout_resets_cart
    tracking_oid order_oid note_oid user_id data st resp st' :
  checkout tracking_oid order_oid note_oid user_id data st = (Return resp, st') ->
  exists before after,
    find_cart user_id st = Some before /\
    find_cart user_id st' = Some after /\
    cart_items after = [] /\
    cart_coupon_code after = None /\
    cart__id after = cart__id before /\
    cart_user_id after = cart_user_id before /\
    List.length (db_cart st') = List.length (db_cart st).
Proof.
  intros H. apply checkout_returns in H.
  destruct H as (cart & d & Hcart & _ & _ & _ & ->).
  exists cart, (clear_cart cart).
  split; [exact Hcart|].
  split.
  - unfold find_cart, store_after_checkout; simpl.
    rewrite find_one_update_one by apply clear_cart_keeps_user.
    unfold find_cart in Hcart. now rewrite Hcart.
  - repeat split. simpl. apply update_one_length.
Qed.

(** C6 on the scenario of the specification. *)
Lemma C6_checkout_resets_cart_witness :
  exists before after,
    find_cart "u1" ex_store_save10 = Some before /\
    find_cart "u1" (snd (checkout 1%N 2%N 3%N "u1" (ex_payload "cod")
                           ex_store_save10)) = Some after /\
    cart_items after = [] /\
    cart_coupon_code after = None /\
    cart__id after = cart__id before /\
    cart_user_id after = cart_user_id before /\
    List.length (db_cart (snd (checkout 1%N 2%N 3%N "u1" (ex_payload "cod")
                                 ex_store_save10)))
    = List.length (db_cart ex_store_save10).
Proof.
  apply (C6_checkout_resets_cart 1%N 2%N 3%N "u1" (ex_payload "cod")
           ex_store_save10
           (mkCheckoutResponse (oid_str 2%N) (tracking_code_of 1%N)
              (payment_of "cod"))).
  reflexivity.
Defined.

(** ** Coupons on the cart *)

Lemma apply_coupon_unknown (user_id code : string) (st : store) :
  find_active_coupon code st = None ->
  apply_coupon user_id code st
  = (Raise (HTTPException 404 "Invalid coupon"), st).
Proof. intros H. unfold apply_coupon, bind, gets. now rewrite H. Qed.

Lemma apply_coupon_known (user_id code : string) (st : store) (cpn : Coupon) :
  find_active_coupon code st = Some cpn ->
  apply_coupon user_id code st
  = (Return tt,
     set_carts (update_one (by_user_id user_id) (with_coupon_code (Some code)))
               st).
Proof. intros H. unfold apply_coupon, bind, gets. now rewrite H. Qed.

(** The 404 is raised exactly when no active coupon has the code. *)
Lemma apply_coupon_raises_iff (user_id code : string) (st : store) :
  (exists e, fst (apply_coupon user_id code st) = Raise e) <->
  find_active_coupon code st = None.
Proof.
  split.
  - intros [e He]. destruct (find_active_coupon code st) as [cpn|] eqn:E;
      [|reflexivity].
    rewrite (apply_coupon_known _ _ _ _ E) in He. discriminate.
  - intros E. rewrite (apply_coupon_unknown _ _ _ E). simpl. eauto.
Qed.

(** With a cart document, the code of an active coupon is stored on it. *)
Lemma apply_coupon_stores_code (user_id code : string) (st : store)
    (cpn : Coupon) (cart : Cart) :
  find_active_coupon code st = Some cpn ->
  find_cart user_id st = Some cart ->
  exists st',
    apply_coupon user_id code st = (Return tt, st') /\
    find_cart user_id st' = Some (with_coupon_code (Some code) cart).
Proof.
  intros Hc Hcart. eexists. split; [exact (apply_coupon_known _ _ _ _ Hc)|].
  unfold find_cart, set_carts; simpl.
  rewrite find_one_update_one by (intros d Hd; exact Hd).
  unfold find_cart in Hcart. now rewrite Hcart.
Qed.

(** Without a cart document nothing is written. *)
Lemma apply_coupon_without_cart (user_id code : string) (st : store)
    (cpn : Coupon) :
  find_active_coupon code st = Some cpn ->
  find_cart user_id st = None ->
  db_cart (snd (apply_coupon user_id code st)) = db_cart st.
Proof.
  intros Hc Hcart. rewrite (apply_coupon_known _ _ _ _ Hc). simpl.
  now apply update_one_no_match.
Qed.

(** C8 (apply_coupon): for a user without a cart document and the code of
    an active coupon, [apply_coupon] answers [ok] and stores nothing: the
    store is unchanged, and the cart that [get_cart] then creates carries
    no coupon code.  ([add_to_cart] writes with [upsert=True]; this update
    does not.) *)
Theorem C8_coupon_lost_without_cart :
  find_active_coupon "SAVE10" ex_store_no_cart = Some ex_coupon_save10 /\
  find_cart "u1" ex_store_no_cart = None /\
  apply_coupon "u1" "SAVE10" ex_store_no_cart = (Return tt, ex_store_no_cart) /\
  fst (get_cart 5%N "u1" (snd (apply_coupon "u1" "SAVE10" ex_store_no_cart)))
  = Return (mkCart 5%N "u1" [] None None).
Proof. repeat split; reflexivity. Qed.

(** ** Tracking codes *)

Lemma hex_str_length (k : nat) (n : N) : String.length (hex_str k n) = k.
Proof. induction k as [|k IH]; simpl; congruence. Qed.

Lemma hex_digit_cases (P : ascii -> Prop) :
  (forall i : nat, (i < 16)%nat -> P (hex_digit (N.of_nat i))) ->
  forall d : N, (d < 16)%N -> P (hex_digit d).
Proof.
  intros H d Hd. rewrite <- (N2Nat.id d). apply H. lia.
Qed.

Lemma hex_digit_lower_hex (d : N) :
  (d < 16)%N -> is_lower_hex (hex_digit d) = true.
Proof.
  revert d. apply (hex_digit_cases (fun c => is_lower_hex c = true)).
  intros i Hi.
  do 16 (destruct i as [|i]; [reflexivity|]). lia.
Qed.

Lemma upper_hex_digit_alnum (d : N) :
  (d < 16)%N -> is_upper_alnum (upper_ascii (hex_digit d)) = true.
Proof.
  revert d.
  apply (hex_digit_cases (fun c => is_upper_alnum (upper_ascii c) = true)).
  intros i Hi.
  do 16 (destruct i as [|i]; [reflexivity|]). lia.
Qed.

Lemma hex_str_upper_to_alnum (k : nat) (n : N) :
  all_chars upper_to_alnum (hex_str k n) = true.
Proof.
  induction k as [|k IH]; simpl; [reflexivity|].
  rewrite IH, andb_true_r. apply upper_hex_digit_alnum.
  apply N.mod_lt. discriminate.
Qed.

Lemma hex_str_lower_hex (k : nat) (n : N) :
  all_chars is_lower_hex (hex_str k n) = true.
Proof.
  induction k as [|k IH]; simpl; [reflexivity|].
  rewrite IH, andb_true_r. apply hex_digit_lower_hex.
  apply N.mod_lt. discriminate.
Qed.

Lemma prefix_slice_length (m : nat) (s : string) :
  String.length (prefix_slice m s) = Nat.min m (String.length s).
Proof.
  unfold prefix_slice. revert s.
  induction m as [|m IH]; intros s; simpl.
  - now destruct s.
  - destruct s as [|c s]; simpl; [reflexivity|]. now rewrite IH.
Qed.

Lemma prefix_slice_all_chars (p : ascii -> bool) (m : nat) (s : string) :
  all_chars p s = true -> all_chars p (prefix_slice m s) = true.
Proof.
  unfold prefix_slice. revert s.
  induction m as [|m IH]; intros s; simpl.
  - now destruct s.
  - destruct s as [|c s]; simpl; [reflexivity|].
    intros H. apply andb_true_iff in H as [Hc Hs].
    now rewrite Hc, (IH s Hs).
Qed.

Lemma upper_length (s : string) : String.length (upper s) = String.length s.
Proof. induction s as [|c s IH]; simpl; congruence. Qed.

Lemma upper_all_chars (s : string) :
  all_chars upper_to_alnum s = true -> all_chars is_upper_alnum (upper s) = true.
Proof.
  induction s as [|c s IH]; simpl; [reflexivity|].
  intros H. apply andb_true_iff in H as [Hc Hs].
  unfold upper_to_alnum in Hc. now rewrite Hc, (IH Hs).
Qed.

Lemma tracking_code_length (o : ObjectId) :
  String.length (tracking_code_of o) = 8%nat.
Proof.
  unfold tracking_code_of, oid_str.
  now rewrite upper_length, prefix_slice_length, hex_str_length.
Qed.

Lemma tracking_code_upper_alnum (o : ObjectId) :
  all_chars is_upper_alnum (tracking_code_of o) = true.
Proof.
  unfold tracking_code_of, oid_str.
  apply upper_all_chars, prefix_slice_all_chars, hex_str_upper_to_alnum.
Qed.

Lemma track_order_unfold (code : string) (st : store) :
  track_order code st
  = match find_one (by_tracking_code code) (db_order st) with
    | Some o => (Return o, st)
    | None => (Raise (HTTPException 404 "Order not found"), st)
    end.
Proof.
  unfold track_order, bind, gets.
  now destruct (find_one (by_tracking_code code) (db_order st)).
Qed.

Lemma find_one_none_iff {A} (filt : A -> bool) (coll : list A) :
  find_one filt coll = None <-> forall x, In x coll -> filt x = false.
Proof.
  split.
  - intros H x Hx. exact (find_none filt coll H x Hx).
  - intros H. unfold find_one. induction coll as [|d rest IH]; [reflexivity|].
    simpl. rewrite (H d (or_introl eq_refl)).
    apply IH. intros x Hx. apply H. now right.
Qed.

Lemma no_order_has_code (code : string) (orders : list Order) :
  (forall o, In o orders -> order_tracking_code o <> code) ->
  find_one (by_tracking_code code) orders = None.
Proof.
  intros H. apply find_one_none_iff. intros o Ho.
  unfold by_tracking_code. apply String.eqb_neq. now apply H.
Qed.

(** C7, as stated, fails: the tracking code is the first 8 digits of an
    ObjectId, its timestamp in seconds, and nothing checks that it is new.
    Two checkouts within one second store two orders under the code
    [65A1B2C3]; tracking the code of the second order returns the first. *)
Lemma C7_second_order_not_tracked :
  let st1 := snd (checkout ex_oid_a 101%N 102%N "u1" (ex_payload "cod")
                    ex_store_two_carts) in
  let run2 := checkout ex_oid_b 201%N 202%N "u2" (ex_payload "cod") st1 in
  fst run2
  = Return (mkCheckoutResponse (oid_str 201%N) "65A1B2C3" (payment_of "cod")) /\
  map (fun o => (order__id o, order_user_id o, order_tracking_code o))
      (db_order (snd run2))
  = [(101%N, "u1", "65A1B2C3"); (201%N, "u2", "65A1B2C3")] /\
  exists o, track_order "65A1B2C3" (snd run2) = (Return o, snd run2) /\
            order__id o = 101%N /\ order_user_id o = "u1" /\
            oid_str (order__id o) <> oid_str 201%N.
Proof.
  split; [reflexivity|]. split; [reflexivity|].
  eexists. split; [reflexivity|].
  split; [reflexivity|]. split; [reflexivity|].
  vm_compute. discriminate.
Qed.

(** C7 (tracking code), amended: the tracking code of every checkout that
    returns, fresh or not, has exactly 8 characters, each an upper-case
    letter or a digit; the checkout stores one order under that code, and
    when no order stored before carries the code, tracking it afterwards
    returns that order; and tracking a code that no order carries raises
    the 404 error "Order not found". *)
Theorem C7_tracking_code_round_trip
    tracking_oid order_oid note_oid user_id data st resp st' :
  checkout tracking_oid order_oid note_oid user_id data st = (Return resp, st') ->
  String.length (resp_tracking_code resp) = 8%nat /\
  all_chars is_upper_alnum (resp_tracking_code resp) = true /\
  (exists ord,
      db_order st' = insert_one ord (db_order st) /\
      oid_str (order__id ord) = resp_order_id resp /\
      order_tracking_code ord = resp_tracking_code resp /\
      ((forall o, In o (db_order st) ->
                  order_tracking_code o <> resp_tracking_code resp) ->
       track_order (resp_tracking_code resp) st' = (Return ord, st'))) /\
  (forall code st0,
      (forall o, In o (db_order st0) -> order_tracking_code o <> code) ->
      track_order code st0
      = (Raise (HTTPException 404 "Order not found"), st0)).
Proof.
  intros H. apply checkout_returns in H.
  destruct H as (cart & d & _ & _ & _ & -> & ->).
  cbn [resp_tracking_code resp_order_id] in *.
  split; [apply tracking_code_length|].
  split; [apply tracking_code_upper_alnum|].
  split.
  - eexists. split; [reflexivity|]. split; [reflexivity|].
    split; [reflexivity|].
    intros Hnew. rewrite track_order_unfold. simpl.
    rewrite find_one_insert_one, (no_order_has_code _ _ Hnew).
    unfold by_tracking_code, order_doc_of.
    cbn [order_tracking_code]. now rewrite String.eqb_refl.
  - intros code st0 Hnone. rewrite track_order_unfold.
    now rewrite (no_order_has_code _ _ Hnone).
Qed.

(** The amended C7 after an earlier order of [u1] under the code
    [65A1B2C3]: a checkout of [u2] one second later is stored under
    [65A1B2C4] and tracked; a checkout of [u2] within the same second gets
    the code [65A1B2C3] again, of the same form. *)
Lemma C7_tracking_code_round_trip_witness :
  let st1 := snd (checkout ex_oid_a 101%N 102%N "u1" (ex_payload "cod")
                    ex_store_two_carts) in
  let later := checkout ex_oid_later 201%N 202%N "u2" (ex_payload "cod") st1 in
  let same := checkout ex_oid_b 201%N 202%N "u2" (ex_payload "cod") st1 in
  map order_tracking_code (db_order st1) = ["65A1B2C3"] /\
  (exists ord,
      db_order (snd later) = insert_one ord (db_order st1) /\
      oid_str (order__id ord) = oid_str 201%N /\
      order_tracking_code ord = "65A1B2C4" /\
      String.length (order_tracking_code ord) = 8%nat /\
      all_chars is_upper_alnum (order_tracking_code ord) = true /\
      track_order "65A1B2C4" (snd later) = (Return ord, snd later)) /\
  (exists ord,
      db_order (snd same) = insert_one ord (db_order st1) /\
      order_tracking_code ord = "65A1B2C3" /\
      String.length (order_tracking_code ord) = 8%nat /\
      all_chars is_upper_alnum (order_tracking_code ord) = true) /\
  track_order "00000000" st1
  = (Raise (HTTPException 404 "Order not found"), st1).
Proof.
  intros st1 later same.
  split; [reflexivity|].
  split; [|split].
  - destruct (C7_tracking_code_round_trip ex_oid_later 201%N 202%N "u2"
                (ex_payload "cod") st1
                (mkCheckoutResponse (oid_str 201%N) "65A1B2C4"
                   (payment_of "cod")) (snd later) eq_refl)
      as (Hlen & Halnum & (ord & Horders & Hid & Hcode & Htrack) & _).
    exists ord. cbn [resp_tracking_code resp_order_id] in *.
    split; [exact Horders|]. split; [exact Hid|]. split; [exact Hcode|].
    rewrite Hcode. split; [exact Hlen|]. split; [exact Halnum|].
    apply Htrack. intros o [<-|[]]. vm_compute. discriminate.
  - destruct (C7_tracking_code_round_trip ex_oid_b 201%N 202%N "u2"
                (ex_payload "cod") st1
                (mkCheckoutResponse (oid_str 201%N) "65A1B2C3"
                   (payment_of "cod")) (snd same) eq_refl)
      as (Hlen & Halnum & (ord & Horders & _ & Hcode & _) & _).
    exists ord. cbn [resp_tracking_code] in *.
    split; [exact Horders|]. split; [exact Hcode|].
    rewrite Hcode. split; [exact Hlen | exact Halnum].
  - destruct (C7_tracking_code_round_trip ex_oid_a 101%N 102%N "u1"
                (ex_payload "cod") ex_store_two_carts
                (mkCheckoutResponse (oid_str 101%N) "65A1B2C3"
                   (payment_of "cod")) st1 eq_refl)
      as (_ & _ & _ & H404).
    apply H404. intros o [<-|[]]. vm_compute. discriminate.
Defined.

(** ** Adding to the cart *)

Section CollectionInvariants.
Context {A : Type}.
Variables (P : A -> Prop) (filt : A -> bool) (patch : A -> A).

Lemma Forall_update_one (coll : list A) :
  Forall P coll ->
  (forall d, In d coll -> filt d = true -> P d -> P (patch d)) ->
  Forall P (update_one filt patch coll).
Proof.
  induction coll as [|d rest IH]; simpl; intros Hall Hpatch; [constructor|].
  inversion Hall as [|? ? Hd Hrest]; subst.
  destruct (filt d) eqn:E.
  - constructor; [|assumption]. apply Hpatch; auto.
  - constructor; [assumption|]. apply IH; [assumption|].
    intros x Hx. apply Hpatch. now right.
Qed.

Lemma Forall_insert_one (d : A) (coll : list A) :
  Forall P coll -> P d -> Forall P (insert_one d coll).
Proof.
  intros Hall Hd. unfold insert_one. apply Forall_app. split; [assumption|].
  now constructor.
Qed.

Lemma Forall_update_one_upsert (fresh : A) (coll : list A) :
  Forall P coll ->
  (forall d, In d coll -> filt d = true -> P d -> P (patch d)) ->
  (find_one filt coll = None -> P fresh) ->
  Forall P (update_one_upsert filt patch fresh coll).
Proof.
  intros Hall Hpatch Hfresh. unfold update_one_upsert.
  destruct (find_one filt coll) eqn:E.
  - now apply Forall_update_one.
  - apply (Forall_insert_one fresh coll Hall). now apply Hfresh.
Qed.

Lemma find_one_update_one_upsert (fresh : A) (coll : list A) :
  (forall d, filt d = true -> filt (patch d) = true) ->
  filt fresh = true ->
  find_one filt (update_one_upsert filt patch fresh coll)
  = Some (match find_one filt coll with
          | Some d => patch d
          | None => fresh
          end).
Proof.
  intros Hkeep Hfresh. unfold update_one_upsert.
  destruct (find_one filt coll) as [d|] eqn:E.
  - rewrite find_one_update_one by assumption. now rewrite E.
  - change (coll ++ [fresh])%list with (insert_one fresh coll).
    rewrite find_one_insert_one, E. now rewrite Hfresh.
Qed.

Lemma find_one_update_one_upsert_other (other : A -> bool) (fresh : A)
    (coll : list A) :
  (forall d, filt d = true -> other d = false) ->
  (forall d, filt d = true -> other (patch d) = false) ->
  other fresh = false ->
  find_one other (update_one_upsert filt patch fresh coll)
  = find_one other coll.
Proof.
  intros H1 H2 H3. unfold update_one_upsert.
  destruct (find_one filt coll) as [d|] eqn:E.
  - now apply find_one_update_one_other.
  - change (coll ++ [fresh])%list with (insert_one fresh coll).
    rewrite find_one_insert_one, H3. now destruct (find_one other coll).
Qed.
End CollectionInvariants.

Lemma set_quantity_ids (product_id : string) (q : Z) (items : list CartItem) :
  map item_product_id (fst (set_quantity product_id q items))
  = map item_product_id items.
Proof.
  induction items as [|it rest IH]; simpl; [reflexivity|].
  destruct (item_product_id it =? product_id); simpl; [reflexivity|].
  destruct (set_quantity product_id q rest) as [rest' found]; simpl in *.
  now rewrite IH.
Qed.

Lemma set_quantity_found (product_id : string) (q : Z) (items : list CartItem) :
  snd (set_quantity product_id q items) = true <->
  In product_id (map item_product_id items).
Proof.
  induction items as [|it rest IH]; simpl; [split; [discriminate|tauto]|].
  destruct (String.eqb_spec (item_product_id it) product_id) as [E|NE]; simpl.
  - split; auto.
  - destruct (set_quantity product_id q rest) as [rest' found]; simpl in *.
    rewrite IH. split; [tauto|]. intros [H|H]; [contradiction | assumption].
Qed.

Lemma set_quantity_not_found (product_id : string) (q : Z)
    (items : list CartItem) :
  snd (set_quantity product_id q items) = false ->
  fst (set_quantity product_id q items) = items.
Proof.
  induction items as [|it rest IH]; simpl; [reflexivity|].
  destruct (item_product_id it =? product_id); simpl; [discriminate|].
  destruct (set_quantity product_id q rest) as [rest' found]; simpl in *.
  intros H. now rewrite IH.
Qed.

(** The loop changes the first item of the product and nothing else. *)
Lemma set_quantity_split (product_id : string) (q : Z) (items : list CartItem) :
  In product_id (map item_product_id items) ->
  exists before it after,
    items = (before ++ it :: after)%list /\
    item_product_id it = product_id /\
    ~ In product_id (map item_product_id before) /\
    set_quantity product_id q items
    = ((before ++ with_quantity q it :: after)%list, true).
Proof.
  induction items as [|x rest IH]; simpl; [tauto|].
  intros Hin.
  destruct (String.eqb_spec (item_product_id x) product_id) as [E|NE].
  - exists [], x, rest. simpl. auto.
  - destruct Hin as [Hin|Hin]; [contradiction|].
    destruct (IH Hin) as (before & it & after & -> & Hit & Hbefore & Hset).
    exists (x :: before), it, after. rewrite Hset. simpl.
    repeat split; try assumption.
    intros [H|H]; [contradiction | now apply Hbefore].
Qed.

Lemma add_to_cart_unfold fresh user_id upd st :
  add_to_cart fresh user_id upd st =
  match oid_parse (upd_product_id upd) with
  | Raise e => (Raise e, st)
  | Return oid =>
      match find_one (by_product_id oid) (db_product st) with
      | None => (Raise (HTTPException 404 "Product not found"), st)
      | Some prod =>
          let items := match find_cart user_id st with
                       | Some c => cart_items c
                       | None => []
                       end in
          let write items2 :=
            (Return tt,
             set_carts
               (update_one_upsert (by_user_id user_id) (with_items items2)
                  (mkCart fresh user_id items2 None None)) st) in
          if snd (set_quantity (upd_product_id upd) (upd_quantity upd) items)
          then write (fst (set_quantity (upd_product_id upd)
                             (upd_quantity upd) items))
          else match item_of_product upd prod with
               | Raise e => (Raise e, st)
               | Return it => write (items ++ [it])%list
               end
      end
  end.
Proof.
  unfold add_to_cart, bind, gets, lift, modify, ret.
  destruct (oid_parse (upd_product_id upd)) as [oid|e]; [|reflexivity].
  destruct (find_one (by_product_id oid) (db_product st)) as [prod|];
    [|reflexivity].
  cbv zeta.
  destruct (set_quantity (upd_product_id upd) (upd_quantity upd)
              match find_cart user_id st with
              | Some c => cart_items c
              | None => []
              end) as [items1 found] eqn:E.
  destruct found; simpl; [reflexivity|].
  destruct (item_of_product upd prod) as [it|e]; [|reflexivity].
  pose proof (set_quantity_not_found (upd_product_id upd) (upd_quantity upd)
                match find_cart user_id st with
                | Some c => cart_items c
                | None => []
                end) as H.
  rewrite E in H. simpl in H. now rewrite (H eq_refl).
Qed.

(** ** Reachable stores *)

Lemma resolves_insert_one (p : Product) (products : list Product)
    (product_id : string) :
  resolves products product_id ->
  resolves (insert_one p products) product_id.
Proof.
  intros (oid & prod & Hparse & Hfind). exists oid, prod.
  split; [assumption|]. now rewrite find_one_insert_one, Hfind.
Qed.

Lemma cart_ok_insert_one (p : Product) (products : list Product) (c : Cart) :
  cart_ok products c -> cart_ok (insert_one p products) c.
Proof.
  intros [Hnd Hres]. split; [assumption|].
  eapply Forall_impl; [|exact Hres].
  intros it. apply resolves_insert_one.
Qed.

Lemma cart_ok_no_items (products : list Product) (c : Cart) :
  cart_items c = [] -> cart_ok products c.
Proof. intros H. unfold cart_ok. rewrite H. split; constructor. Qed.

(** Dropping items keeps the product ids of a cart distinct. *)
Lemma filter_items_distinct (keep : CartItem -> bool) (items : list CartItem) :
  NoDup (map item_product_id items) ->
  NoDup (map item_product_id (filter keep items)).
Proof.
  intros Hnd. induction items as [|it rest IH]; simpl; [constructor|].
  simpl in Hnd. apply NoDup_cons_iff in Hnd as [Hfresh Hrest].
  destruct (keep it); simpl; [|now apply IH].
  apply NoDup_cons; [|now apply IH].
  rewrite in_map_iff. intros (other & Hid & Hother).
  apply filter_In in Hother as [Hother _].
  apply Hfresh. rewrite <- Hid. now apply in_map.
Qed.

Lemma NoDup_app_one {B} (l : list B) (b : B) :
  NoDup l -> ~ In b l -> NoDup (l ++ [b]).
Proof.
  induction l as [|x l IH]; simpl; intros Hnd Hb.
  - constructor; [tauto | constructor].
  - inversion Hnd as [|? ? Hx Hl]; subst. constructor.
    + rewrite in_app_iff. simpl. intros [H|[H|[]]]; [tauto|]. subst. tauto.
    + apply IH; tauto.
Qed.

Lemma find_cart_ok (user_id : string) (st : store) (c : Cart) :
  carts_ok st -> find_cart user_id st = Some c -> cart_ok (db_product st) c.
Proof.
  intros Hok Hfind. apply find_one_some in Hfind as [Hin _].
  unfold carts_ok in Hok. rewrite Forall_forall in Hok. now apply Hok.
Qed.

Lemma get_cart_carts_ok fresh user_id st :
  carts_ok st -> carts_ok (snd (get_cart fresh user_id st)).
Proof.
  intros Hok. unfold get_cart, bind, gets, ret, raise, create_document, modify.
  destruct (find_cart user_id st) as [c|]; simpl; [assumption|].
  match goal with
  | |- context [find_cart user_id ?s] =>
      assert (carts_ok s) as Hok'
        by (apply Forall_insert_one; [exact Hok | now apply cart_ok_no_items]);
      destruct (find_cart user_id s); exact Hok'
  end.
Qed.

Lemma add_to_cart_carts_ok fresh user_id upd st :
  carts_ok st -> carts_ok (snd (add_to_cart fresh user_id upd st)).
Proof.
  intros Hok. rewrite add_to_cart_unfold.
  destruct (oid_parse (upd_product_id upd)) as [oid|e] eqn:Hparse;
    [|assumption].
  destruct (find_one (by_product_id oid) (db_product st)) as [prod|] eqn:Hprod;
    [|assumption].
  cbv zeta.
  set (items := match find_cart user_id st with
                | Some c => cart_items c
                | None => []
                end).
  assert (cart_ok (db_product st) (mkCart fresh user_id items None None))
    as [Hnd Hres].
  { unfold items. destruct (find_cart user_id st) as [c|] eqn:Hc.
    - exact (find_cart_ok _ _ _ Hok Hc).
    - now apply cart_ok_no_items. }
  simpl in Hnd, Hres.
  assert (forall items2,
             NoDup (map item_product_id items2) ->
             Forall (fun it => resolves (db_product st) (item_product_id it))
                    items2 ->
             carts_ok
               (set_carts
                  (update_one_upsert (by_user_id user_id) (with_items items2)
                     (mkCart fresh user_id items2 None None)) st)) as Hwrite.
  { intros items2 Hnd2 Hres2. unfold carts_ok, set_carts; simpl.
    apply Forall_update_one_upsert; [exact Hok | |]; intros; now split. }
  destruct (snd (set_quantity (upd_product_id upd) (upd_quantity upd) items))
    eqn:Hfound.
  - simpl. apply Hwrite.
    + now rewrite set_quantity_ids.
    + apply Forall_forall. intros it Hit.
      rewrite Forall_forall in Hres.
      assert (In (item_product_id it) (map item_product_id items)) as Hid.
      { rewrite <- (set_quantity_ids (upd_product_id upd) (upd_quantity upd)).
        now apply in_map. }
      apply in_map_iff in Hid as (it0 & Hid & Hit0).
      rewrite <- Hid. now apply Hres.
  - unfold item_of_product.
    destruct (py_float (dict_get (product_price prod) 0%Q)) as [price|e];
      [|assumption].
    simpl. apply Hwrite.
    + rewrite map_app. simpl. apply NoDup_app_one; [assumption|].
      intros Hin. apply set_quantity_found with (q := upd_quantity upd) in Hin.
      congruence.
    + apply Forall_app. split; [assumption|].
      constructor; [|constructor]. simpl. now exists oid, prod.
Qed.

Lemma remove_from_cart_carts_ok user_id upd st :
  carts_ok st -> carts_ok (snd (remove_from_cart user_id upd st)).
Proof.
  intros Hok. unfold remove_from_cart, bind, gets, ret, modify.
  destruct (find_cart user_id st) as [c|] eqn:Hc; simpl; [|assumption].
  destruct (find_cart_ok _ _ _ Hok Hc) as [Hnd Hres].
  unfold carts_ok, set_carts; simpl.
  apply Forall_update_one; [exact Hok|].
  intros d _ _ _. split; simpl.
  - now apply filter_items_distinct.
  - apply Forall_forall. intros it Hit. apply filter_In in Hit as [Hit _].
    rewrite Forall_forall in Hres. now apply Hres.
Qed.

Lemma apply_coupon_carts_ok user_id code st :
  carts_ok st -> carts_ok (snd (apply_coupon user_id code st)).
Proof.
  intros Hok. unfold apply_coupon, bind, gets, raise, modify.
  destruct (find_active_coupon code st); simpl; [|assumption].
  unfold carts_ok, set_carts; simpl.
  apply Forall_update_one; [exact Hok|].
  intros d _ _ Hd. exact Hd.
Qed.

Lemma checkout_carts_ok tracking_oid order_oid note_oid user_id data st :
  carts_ok st ->
  carts_ok (snd (checkout tracking_oid order_oid note_oid user_id data st)).
Proof.
  intros Hok. rewrite checkout_unfold.
  destruct (find_cart user_id st) as [cart|]; [|assumption].
  destruct (cart_items cart); [assumption|].
  destruct (cart_discount st cart _); [|assumption].
  unfold carts_ok; simpl.
  apply Forall_update_one; [exact Hok|].
  intros d _ _ _. now apply cart_ok_no_items.
Qed.

Lemma step_carts_ok (st st' : store) : step st st' -> carts_ok st -> carts_ok st'.
Proof.
  intros Hstep Hok. destruct Hstep.
  - now apply get_cart_carts_ok.
  - now apply add_to_cart_carts_ok.
  - now apply remove_from_cart_carts_ok.
  - now apply apply_coupon_carts_ok.
  - now apply checkout_carts_ok.
  - unfold carts_ok; simpl.
    eapply Forall_impl; [|exact Hok]. intros c. apply cart_ok_insert_one.
  - exact Hok.
Qed.

(** In every reachable store, every cart lists each product once and only
    products of the catalog. *)
Lemma reachable_carts_ok (st : store) : reachable st -> carts_ok st.
Proof.
  induction 1 as [|st st' _ IH Hstep]; [constructor|].
  exact (step_carts_ok st st' Hstep IH).
Qed.

Lemma by_user_id_refl fresh user_id items a c :
  by_user_id user_id (mkCart fresh user_id items a c) = true.
Proof. unfold by_user_id; simpl. apply String.eqb_refl. Qed.

Lemma by_user_id_other (user_id other : string) (c : Cart) :
  other <> user_id -> by_user_id user_id c = true -> by_user_id other c = false.
Proof.
  unfold by_user_id. intros Hne H. apply String.eqb_eq in H.
  apply String.eqb_neq. congruence.
Qed.

(** The cart of the user after the write at the end of [add_to_cart]. *)
Lemma find_cart_after_write fresh user_id items2 st :
  exists c,
    find_cart user_id
      (set_carts
         (update_one_upsert (by_user_id user_id) (with_items items2)
            (mkCart fresh user_id items2 None None)) st) = Some c /\
    cart_items c = items2.
Proof.
  unfold find_cart, set_carts; simpl.
  rewrite find_one_update_one_upsert;
    [| intros d Hd; exact Hd | apply by_user_id_refl].
  eexists. split; [reflexivity|].
  now destruct (find_one (by_user_id user_id) (db_cart st)).
Qed.

(** After an [add_to_cart] that returns, the cart holds the product. *)
Lemma add_to_cart_returns_item fresh user_id upd st st' :
  add_to_cart fresh user_id upd st = (Return tt, st') ->
  exists c, find_cart user_id st' = Some c /\
            In (upd_product_id upd) (map item_product_id (cart_items c)).
Proof.
  rewrite add_to_cart_unfold.
  destruct (oid_parse (upd_product_id upd)) as [oid|e]; [|discriminate].
  destruct (find_one (by_product_id oid) (db_product st)) as [prod|];
    [|discriminate].
  cbv zeta.
  set (items := match find_cart user_id st with
                | Some c => cart_items c
                | None => []
                end).
  destruct (snd (set_quantity (upd_product_id upd) (upd_quantity upd) items))
    eqn:Hfound.
  - intros H. injection H as <-.
    destruct (find_cart_after_write fresh user_id
                (fst (set_quantity (upd_product_id upd) (upd_quantity upd)
                        items)) st) as (c & Hc & Hitems).
    exists c. split; [exact Hc|].
    rewrite Hitems, set_quantity_ids.
    now apply (set_quantity_found _ (upd_quantity upd)).
  - unfold item_of_product.
    destruct (py_float (dict_get (product_price prod) 0%Q)) as [price|e];
      [|discriminate].
    intros H. injection H as <-.
    match goal with
    | |- context [update_one_upsert _ (with_items ?i2)] =>
        destruct (find_cart_after_write fresh user_id i2 st)
          as (c & Hc & Hitems)
    end.
    exists c. split; [exact Hc|].
    rewrite Hitems, map_app, in_app_iff. right. simpl. now left.
Qed.

Lemma filter_none {A} (p : A -> bool) (l : list A) :
  (forall x, In x l -> p x = false) -> filter p l = [].
Proof.
  induction l as [|x l IH]; simpl; intros H; [reflexivity|].
  rewrite (H x (or_introl eq_refl)). apply IH. intros y Hy. apply H. now right.
Qed.

Lemma filter_single (product_id : string) (before after : list CartItem)
    (it : CartItem) :
  item_product_id it = product_id ->
  ~ In product_id (map item_product_id (before ++ after)) ->
  filter (has_product product_id) (before ++ it :: after) = [it].
Proof.
  intros Hit Hnot.
  assert (forall x, In x (before ++ after) -> has_product product_id x = false)
    as Hother.
  { intros x Hx. unfold has_product. apply String.eqb_neq. intros E.
    apply Hnot. rewrite <- E. now apply in_map. }
  rewrite filter_app. simpl.
  rewrite (filter_none _ before), (filter_none _ after).
  - unfold has_product. rewrite Hit, String.eqb_refl. reflexivity.
  - intros x Hx. apply Hother. apply in_app_iff. now right.
  - intros x Hx. apply Hother. apply in_app_iff. now left.
Qed.

(** Setting the quantity of a product that the cart of the user already
    holds, in a store where the product is in the catalog and the cart
    lists it once. *)
Lemma add_to_cart_existing fresh user_id product_id quantity st cart :
  cart_ok (db_product st) cart ->
  find_cart user_id st = Some cart ->
  In product_id (map item_product_id (cart_items cart)) ->
  exists before it after,
    cart_items cart = (before ++ it :: after)%list /\
    item_product_id it = product_id /\
    ~ In product_id (map item_product_id (before ++ after)) /\
    add_to_cart fresh user_id (mkCartUpdate product_id quantity) st
    = (Return tt,
       set_carts
         (update_one (by_user_id user_id)
            (with_items (before ++ with_quantity quantity it :: after)))
         st).
Proof.
  intros [Hnd Hres] Hcart Hin.
  destruct (set_quantity_split product_id quantity (cart_items cart) Hin)
    as (before & it & after & Hitems & Hit & _ & Hset).
  exists before, it, after.
  split; [exact Hitems|]. split; [exact Hit|].
  split.
  - rewrite Hitems, map_app in Hnd. simpl in Hnd.
    apply NoDup_remove_2 in Hnd. now rewrite map_app, <- Hit.
  - rewrite Forall_forall in Hres.
    assert (In it (cart_items cart)) as Hit_in
        by (rewrite Hitems; apply in_elt).
    destruct (Hres it Hit_in) as (oid & prod & Hparse & Hprod).
    rewrite Hit in Hparse.
    rewrite add_to_cart_unfold. cbn [upd_product_id upd_quantity].
    rewrite Hparse, Hprod, Hcart. cbv zeta. rewrite Hset. simpl.
    unfold set_carts, update_one_upsert. unfold find_cart in Hcart.
    now rewrite Hcart.
Qed.

(** C9 (add_item on a product already in the cart): in every reachable
    store, [add_to_cart] for a product that the cart of the user holds
    returns, and afterwards the cart is the same document with the same
    items in the same order, except that the item of the product has the
    given quantity (its title, price and image are kept); the product has
    exactly one item; the carts of other users and the other collections
    are unchanged.  Adding a product with quantity 3 and then with quantity
    5 leaves exactly one item for it, at quantity 5. *)
Theorem C9_add_existing_replaces_quantity user_id product_id st :
  reachable st ->
  (forall fresh quantity cart,
      find_cart user_id st = Some cart ->
      In product_id (map item_product_id (cart_items cart)) ->
      exists before it after st',
        cart_items cart = (before ++ it :: after)%list /\
        item_product_id it = product_id /\
        add_to_cart fresh user_id (mkCartUpdate product_id quantity) st
        = (Return tt, st') /\
        let it' := mkCartItem product_id (item_title it) (item_price it)
                     quantity (item_image_url it) in
        find_cart user_id st'
        = Some (mkCart (cart__id cart) (cart_user_id cart)
                  (before ++ it' :: after) (cart_area_pincode cart)
                  (cart_coupon_code cart)) /\
        filter (has_product product_id) (before ++ it' :: after) = [it'] /\
        (forall other, other <> user_id ->
                       find_cart other st' = find_cart other st) /\
        List.length (db_cart st') = List.length (db_cart st) /\
        db_product st' = db_product st /\
        db_coupon st' = db_coupon st /\
        db_order st' = db_order st /\
        db_notification st' = db_notification st) /\
  (forall fresh1 fresh2 st1,
      add_to_cart fresh1 user_id (mkCartUpdate product_id 3) st
      = (Return tt, st1) ->
      exists st2 cart2 it,
        add_to_cart fresh2 user_id (mkCartUpdate product_id 5) st1
        = (Return tt, st2) /\
        find_cart user_id st2 = Some cart2 /\
        filter (has_product product_id) (cart_items cart2) = [it] /\
        item_quantity it = 5%Z).
Proof.
  assert (forall st0, reachable st0 ->
            forall fresh quantity cart,
              find_cart user_id st0 = Some cart ->
              In product_id (map item_product_id (cart_items cart)) ->
              exists before it after st',
                cart_items cart = (before ++ it :: after)%list /\
                item_product_id it = product_id /\
                add_to_cart fresh user_id (mkCartUpdate product_id quantity) st0
                = (Return tt, st') /\
                let it' := mkCartItem product_id (item_title it) (item_price it)
                             quantity (item_image_url it) in
                find_cart user_id st'
                = Some (mkCart (cart__id cart) (cart_user_id cart)
                          (before ++ it' :: after) (cart_area_pincode cart)
                          (cart_coupon_code cart)) /\
                filter (has_product product_id) (before ++ it' :: after) = [it'] /\
                (forall other, other <> user_id ->
                               find_cart other st' = find_cart other st0) /\
                List.length (db_cart st') = List.length (db_cart st0) /\
                db_product st' = db_product st0 /\
                db_coupon st' = db_coupon st0 /\
                db_order st' = db_order st0 /\
                db_notification st' = db_notification st0) as Hset.
  { intros st0 Hreach fresh quantity cart Hcart Hin.
    pose proof (find_cart_ok _ _ _ (reachable_carts_ok st0 Hreach) Hcart) as Hok.
    destruct (add_to_cart_existing fresh user_id product_id quantity st0 cart
                Hok Hcart Hin)
      as (before & it & after & Hitems & Hit & Hnot & Hadd).
    exists before, it, after. eexists.
    split; [exact Hitems|]. split; [exact Hit|]. split; [exact Hadd|].
    cbv zeta. split.
    - unfold find_cart, set_carts; simpl.
      rewrite find_one_update_one by (intros d Hd; exact Hd).
      unfold find_cart in Hcart. rewrite Hcart. simpl.
      unfold with_items, with_quantity. now rewrite Hit.
    - split; [now apply filter_single|].
      split.
      + intros other Hne. unfold find_cart, set_carts; simpl.
        apply find_one_update_one_other; intros d Hd;
          now apply (by_user_id_other user_id).
      + repeat split. simpl. apply update_one_length. }
  intros Hreach. split; [exact (Hset st Hreach)|].
  intros fresh1 fresh2 st1 Hadd1.
  assert (reachable st1) as Hreach1.
  { replace st1
      with (snd (add_to_cart fresh1 user_id (mkCartUpdate product_id 3) st))
      by now rewrite Hadd1.
    eapply reachable_step; [exact Hreach | constructor]. }
  destruct (add_to_cart_returns_item _ _ _ _ _ Hadd1) as (c1 & Hc1 & Hin1).
  destruct (Hset st1 Hreach1 fresh2 5%Z c1 Hc1 Hin1)
    as (before & it & after & st2 & _ & _ & Hadd2 & Hc2 & Hone & _).
  exists st2. eexists. eexists.
  split; [exact Hadd2|]. split; [exact Hc2|].
  split; [exact Hone | reflexivity].
Qed.

Lemma ex_store_catalog_reachable : reachable ex_store_catalog.
Proof.
  eapply reachable_step; [apply reachable_empty|].
  apply step_admin_create_product.
Qed.

Lemma ex_store_three_reachable : reachable ex_store_three.
Proof.
  eapply reachable_step; [apply ex_store_catalog_reachable|].
  apply step_add_to_cart.
Qed.

Example ex_store_three_cart :
  db_cart ex_store_three = [mkCart 17%N "u1" [ex_item 250 3] None None].
Proof. reflexivity. Qed.

(** C9 on the cart that holds the product at quantity 3, and on the two
    requests, 3 then 5, from the bare catalog. *)
Lemma C9_add_existing_replaces_quantity_witness :
  (exists before it after st',
      [ex_item 250 3] = (before ++ it :: after)%list /\
      item_product_id it = ex_product_id /\
      add_to_cart 18%N "u1" (mkCartUpdate ex_product_id 5) ex_store_three
      = (Return tt, st') /\
      let it' := mkCartItem ex_product_id (item_title it) (item_price it) 5
                   (item_image_url it) in
      find_cart "u1" st'
      = Some (mkCart 17%N "u1" (before ++ it' :: after) None None) /\
      filter (has_product ex_product_id) (before ++ it' :: after) = [it'] /\
      (forall other, other <> "u1" ->
                     find_cart other st' = find_cart other ex_store_three) /\
      List.length (db_cart st') = List.length (db_cart ex_store_three) /\
      db_product st' = db_product ex_store_three /\
      db_coupon st' = db_coupon ex_store_three /\
      db_order st' = db_order ex_store_three /\
      db_notification st' = db_notification ex_store_three) /\
  (exists st2 cart2 it,
      add_to_cart 18%N "u1" (mkCartUpdate ex_product_id 5) ex_store_three
      = (Return tt, st2) /\
      find_cart "u1" st2 = Some cart2 /\
      filter (has_product ex_product_id) (cart_items cart2) = [it] /\
      item_quantity it = 5%Z).
Proof.
  split.
  - apply (proj1 (C9_add_existing_replaces_quantity "u1" ex_product_id
                    ex_store_three ex_store_three_reachable)
             18%N 5%Z (mkCart 17%N "u1" [ex_item 250 3] None None)).
    + reflexivity.
    + simpl. left. reflexivity.
  - apply (proj2 (C9_add_existing_replaces_quantity "u1" ex_product_id
                    ex_store_catalog ex_store_catalog_reachable)
             17%N 18%N ex_store_three).
    reflexivity.
Defined.

(** ** Quantities of stored items *)

(** What [add_to_cart] stores for a product that the cart does not hold is
    the quantity of the request, whatever it is. *)
Lemma add_to_cart_stores_quantity fresh user_id (quantity : Z) :
  db_cart (snd (add_to_cart fresh user_id
                  (mkCartUpdate ex_product_id quantity) ex_store_catalog))
  = [mkCart fresh user_id [ex_item 250 quantity] None None].
Proof. reflexivity. Qed.

(** C10 (quantity of stored items): [add_to_cart] takes the quantity of
    the request as it comes, a [CartUpdate] whose [quantity] is any
    integer, and writes it without passing through the [CartItem] schema,
    which asks for a quantity of at least 1.  After
    [admin_create_product] and one [add_to_cart] with quantity 0, the store
    is reachable and holds a cart item of quantity 0. *)
Theorem C10_zero_quantity_stored :
  reachable ex_store_zero /\
  add_to_cart 17%N "u1" (mkCartUpdate ex_product_id 0) ex_store_catalog
  = (Return tt, ex_store_zero) /\
  db_cart ex_store_zero = [mkCart 17%N "u1" [ex_item 250 0] None None] /\
  exists c it,
    In c (db_cart ex_store_zero) /\ In it (cart_items c) /\
    ~ (1 <= item_quantity it)%Z.
Proof.
  split.
  { eapply reachable_step; [apply ex_store_catalog_reachable|].
    apply step_add_to_cart. }
  split; [reflexivity|]. split; [reflexivity|].
  exists (mkCart 17%N "u1" [ex_item 250 0] None None), (ex_item 250 0).
  split; [now left|]. split; [now left|]. simpl. lia.
Qed.

(** * Further properties of the cart endpoints *)

(** ** get_cart *)

Lemma get_cart_unfold fresh user_id st :
  get_cart fresh user_id st
  = match find_cart user_id st with
    | Some c => (Return c, st)
    | None =>
        (Return (mkCart fresh user_id [] None None),
         set_carts (insert_one (mkCart fresh user_id [] None None)) st)
    end.
Proof.
  unfold get_cart, bind, gets, ret, raise, create_document, modify.
  destruct (find_cart user_id st) as [c|] eqn:E; [reflexivity|].
  unfold find_cart, set_carts in *; simpl.
  rewrite find_one_insert_one, E, by_user_id_refl. reflexivity.
Qed.

Lemma find_cart_user (user_id : string) (st : store) (c : Cart) :
  find_cart user_id st = Some c -> cart_user_id c = user_id.
Proof.
  intros H. apply find_one_some in H as [_ H]. now apply String.eqb_eq.
Qed.

(** [get_cart] never raises.  It answers with the cart of the user, which
    is afterwards the cart that a lookup finds: the stored one, the store
    being left as it was, or, for a user without a cart, a new document
    with no items and no coupon code, inserted after the existing carts.
    The carts of other users and the other collections are not touched. *)
Theorem get_cart_finds_or_creates fresh user_id st :
  exists c st',
    get_cart fresh user_id st = (Return c, st') /\
    cart_user_id c = user_id /\
    find_cart user_id st' = Some c /\
    match find_cart user_id st with
    | Some stored => c = stored /\ st' = st
    | None => c = mkCart fresh user_id [] None None /\
              db_cart st' = (db_cart st ++ [c])%list
    end /\
    (forall other, other <> user_id ->
                   find_cart other st' = find_cart other st) /\
    db_product st' = db_product st /\
    db_coupon st' = db_coupon st /\
    db_order st' = db_order st /\
    db_notification st' = db_notification st.
Proof.
  rewrite get_cart_unfold.
  destruct (find_cart user_id st) as [stored|] eqn:E.
  - exists stored, st. repeat split; try assumption; try reflexivity.
    now apply (find_cart_user user_id st).
  - eexists. eexists. split; [reflexivity|].
    split; [reflexivity|].
    split.
    { unfold find_cart, set_carts in *; simpl.
      now rewrite find_one_insert_one, E, by_user_id_refl. }
    split; [split; reflexivity|].
    split; [|repeat split].
    intros other Hne. unfold find_cart, set_carts; simpl.
    rewrite find_one_insert_one.
    destruct (find_one (by_user_id other) (db_cart st)); [reflexivity|].
    unfold by_user_id; simpl.
    destruct (String.eqb_spec user_id other); [congruence | reflexivity].
Qed.

(** A second [get_cart] for the same user answers as the first did and
    writes nothing: at most one cart is created, whatever identifier the
    second call would have used. *)
Theorem get_cart_twice fresh1 fresh2 user_id st :
  get_cart fresh2 user_id (snd (get_cart fresh1 user_id st))
  = (fst (get_cart fresh1 user_id st), snd (get_cart fresh1 user_id st)).
Proof.
  rewrite (get_cart_unfold fresh1).
  destruct (find_cart user_id st) as [stored|] eqn:E; simpl.
  - rewrite get_cart_unfold, E. reflexivity.
  - rewrite get_cart_unfold.
    unfold find_cart, set_carts in *; simpl.
    rewrite find_one_insert_one, E, by_user_id_refl. reflexivity.
Qed.

(** ** add_to_cart: rejections and new items *)

(** When no product of the catalog has the identifier that [product_id]
    spells, [add_to_cart] raises and writes nothing: [InvalidId] when the
    string is not an ObjectId at all, the 404 error "Product not found"
    otherwise. *)
Theorem add_to_cart_rejects_unknown_product fresh user_id upd st :
  (forall oid p, oid_parse (upd_product_id upd) = Return oid ->
                 In p (db_product st) -> product__id p <> oid) ->
  add_to_cart fresh user_id upd st
  = (Raise match oid_parse (upd_product_id upd) with
           | Return _ => HTTPException 404 "Product not found"
           | Raise e => e
           end, st).
Proof.
  intros Hnone. rewrite add_to_cart_unfold.
  destruct (oid_parse (upd_product_id upd)) as [oid|e]; [|reflexivity].
  assert (find_one (by_product_id oid) (db_product st) = None) as ->;
    [|reflexivity].
  apply find_one_none_iff. intros p Hp. unfold by_product_id.
  apply N.eqb_neq. now apply (Hnone oid).
Qed.

(** The identifiers of the example: a string that is no ObjectId, one
    that spells an ObjectId the catalog does not have, and the first 22
    digits of the example product followed by two spaces, which
    [ObjectId] accepts as an id of 11 bytes. *)
Lemma add_to_cart_rejects_unknown_product_witness :
  add_to_cart 17%N "u1" (mkCartUpdate "chicken" 1) ex_store_plain
  = (Raise InvalidId, ex_store_plain) /\
  add_to_cart 17%N "u1" (mkCartUpdate "000000000000000000000001" 1)
    ex_store_plain
  = (Raise (HTTPException 404 "Product not found"), ex_store_plain) /\
  add_to_cart 17%N "u1" (mkCartUpdate "65a1b2c3d4e5f60718293a  " 1)
    ex_store_plain
  = (Raise (HTTPException 404 "Product not found"), ex_store_plain).
Proof.
  split; [|split].
  - apply (add_to_cart_rejects_unknown_product 17%N "u1"
             (mkCartUpdate "chicken" 1) ex_store_plain).
    intros oid p H. vm_compute in H. discriminate H.
  - apply (add_to_cart_rejects_unknown_product 17%N "u1"
             (mkCartUpdate "000000000000000000000001" 1) ex_store_plain).
    intros oid p H Hp. vm_compute in H. injection H as <-.
    destruct Hp as [<-|[]]. vm_compute. discriminate.
  - apply (add_to_cart_rejects_unknown_product 17%N "u1"
             (mkCartUpdate "65a1b2c3d4e5f60718293a  " 1) ex_store_plain).
    intros oid p H Hp. vm_compute in H. injection H as <-.
    destruct Hp as [<-|[]]. vm_compute. discriminate.
Defined.

(** The write of [add_to_cart] for a product that the cart does not hold. *)
Lemma add_to_cart_absent fresh user_id upd st oid prod price :
  oid_parse (upd_product_id upd) = Return oid ->
  find_one (by_product_id oid) (db_product st) = Some prod ->
  dict_get (product_price prod) 0%Q = Some price ->
  let items := match find_cart user_id st with
               | Some c => cart_items c
               | None => []
               end in
  ~ In (upd_product_id upd) (map item_product_id items) ->
  let items2 :=
    (items ++ [mkCartItem (upd_product_id upd) (product_title prod) price
                 (upd_quantity upd) (product_image_url prod)])%list in
  add_to_cart fresh user_id upd st
  = (Return tt,
     set_carts
       (update_one_upsert (by_user_id user_id) (with_items items2)
          (mkCart fresh user_id items2 None None)) st).
Proof.
  intros Hparse Hprod Hprice items Hnew items2.
  rewrite add_to_cart_unfold, Hparse, Hprod. cbv zeta. fold items.
  destruct (snd (set_quantity (upd_product_id upd) (upd_quantity upd) items))
    eqn:Hfound.
  - apply set_quantity_found in Hfound. contradiction.
  - unfold item_of_product. rewrite Hprice. reflexivity.
Qed.

(** For a product of the catalog that the cart of the user does not hold,
    [add_to_cart] returns and the cart afterwards holds the former items in
    their order followed by one new item: the given [product_id] and
    quantity with the title, price (0 when the product has no [price] key)
    and image of the product.  A user without a cart gets a new cart
    document (the upsert); an existing cart keeps its [_id] and coupon
    code.  Nothing else is written. *)
Theorem add_to_cart_appends_new_item fresh user_id upd st oid prod price :
  oid_parse (upd_product_id upd) = Return oid ->
  find_one (by_product_id oid) (db_product st) = Some prod ->
  dict_get (product_price prod) 0%Q = Some price ->
  (forall c, find_cart user_id st = Some c ->
             ~ In (upd_product_id upd) (map item_product_id (cart_items c))) ->
  let it := mkCartItem (upd_product_id upd) (product_title prod) price
              (upd_quantity upd) (product_image_url prod) in
  exists st' c',
    add_to_cart fresh user_id upd st = (Return tt, st') /\
    find_cart user_id st' = Some c' /\
    match find_cart user_id st with
    | Some c =>
        c' = mkCart (cart__id c) (cart_user_id c) (cart_items c ++ [it])
               (cart_area_pincode c) (cart_coupon_code c) /\
        List.length (db_cart st') = List.length (db_cart st)
    | None =>
        c' = mkCart fresh user_id [it] None None /\
        db_cart st' = (db_cart st ++ [c'])%list
    end /\
    (forall other, other <> user_id ->
                   find_cart other st' = find_cart other st) /\
    db_product st' = db_product st /\
    db_coupon st' = db_coupon st /\
    db_order st' = db_order st /\
    db_notification st' = db_notification st.
Proof.
  intros Hparse Hprod Hprice Hnew it.
  pose proof (add_to_cart_absent fresh user_id upd st oid prod price
                Hparse Hprod Hprice) as Hadd.
  cbv zeta in Hadd. fold it in Hadd.
  destruct (find_cart user_id st) as [c|] eqn:Hc.
  - specialize (Hadd (Hnew c eq_refl)).
    eexists. exists (with_items (cart_items c ++ [it]) c).
    split; [exact Hadd|].
    unfold find_cart in Hc.
    split.
    { unfold find_cart, set_carts; simpl.
      rewrite find_one_update_one_upsert;
        [now rewrite Hc | intros d Hd; exact Hd | apply by_user_id_refl]. }
    split.
    { split; [reflexivity|]. unfold set_carts, update_one_upsert; simpl.
      rewrite Hc. apply update_one_length. }
    split; [|repeat split].
    intros other Hne. unfold find_cart, set_carts; simpl.
    apply find_one_update_one_upsert_other.
    + intros d Hd. now apply (by_user_id_other user_id).
    + intros d Hd. now apply (by_user_id_other user_id).
    + apply (by_user_id_other user_id); [assumption | apply by_user_id_refl].
  - assert (~ In (upd_product_id upd) (map item_product_id [])) as Hnil
        by (simpl; tauto).
    specialize (Hadd Hnil). simpl in Hadd.
    eexists. exists (mkCart fresh user_id [it] None None).
    split; [exact Hadd|].
    unfold find_cart in Hc.
    split.
    { unfold find_cart, set_carts; simpl.
      rewrite find_one_update_one_upsert;
        [now rewrite Hc | intros d Hd; exact Hd | apply by_user_id_refl]. }
    split.
    { split; [reflexivity|]. unfold set_carts, update_one_upsert; simpl.
      now rewrite Hc. }
    split; [|repeat split].
    intros other Hne. unfold find_cart, set_carts; simpl.
    apply find_one_update_one_upsert_other.
    + intros d Hd. now apply (by_user_id_other user_id).
    + intros d Hd. now apply (by_user_id_other user_id).
    + apply (by_user_id_other user_id); [assumption | apply by_user_id_refl].
Qed.

(** A first item for a user without a cart, in the bare catalog. *)
Lemma add_to_cart_appends_new_item_witness :
  let it := mkCartItem ex_product_id (Some "Chicken Breast") 250%Q 2
              (Some "breast.png") in
  exists st' c',
    add_to_cart 17%N "u1" (mkCartUpdate ex_product_id 2) ex_store_catalog
    = (Return tt, st') /\
    find_cart "u1" st' = Some c' /\
    match find_cart "u1" ex_store_catalog with
    | Some c =>
        c' = mkCart (cart__id c) (cart_user_id c) (cart_items c ++ [it])
               (cart_area_pincode c) (cart_coupon_code c) /\
        List.length (db_cart st') = List.length (db_cart ex_store_catalog)
    | None =>
        c' = mkCart 17%N "u1" [it] None None /\
        db_cart st' = (db_cart ex_store_catalog ++ [c'])%list
    end /\
    (forall other, other <> "u1" ->
                   find_cart other st' = find_cart other ex_store_catalog) /\
    db_product st' = db_product ex_store_catalog /\
    db_coupon st' = db_coupon ex_store_catalog /\
    db_order st' = db_order ex_store_catalog /\
    db_notification st' = db_notification ex_store_catalog.
Proof.
  apply (add_to_cart_appends_new_item 17%N "u1"
           (mkCartUpdate ex_product_id 2) ex_store_catalog
           ex_product_oid ex_product 250%Q).
  - reflexivity.
  - reflexivity.
  - reflexivity.
  - intros c H. vm_compute in H. discriminate H.
Defined.

(** The product of an item is looked up through the ObjectId that its
    [product_id] spells, in either letter case, but an item is recognised
    by the string: two different spellings of one identifier give one
    product two items in a cart. *)
Theorem add_to_cart_two_spellings
    fresh1 fresh2 user_id s1 s2 q1 q2 st oid prod price :
  oid_parse s1 = Return oid ->
  oid_parse s2 = Return oid ->
  s1 <> s2 ->
  find_one (by_product_id oid) (db_product st) = Some prod ->
  dict_get (product_price prod) 0%Q = Some price ->
  find_cart user_id st = None ->
  exists st1 st2,
    add_to_cart fresh1 user_id (mkCartUpdate s1 q1) st = (Return tt, st1) /\
    add_to_cart fresh2 user_id (mkCartUpdate s2 q2) st1 = (Return tt, st2) /\
    find_cart user_id st2
    = Some (mkCart fresh1 user_id
              [mkCartItem s1 (product_title prod) price q1
                 (product_image_url prod);
               mkCartItem s2 (product_title prod) price q2
                 (product_image_url prod)] None None).
Proof.
  intros Hs1 Hs2 Hne Hprod Hprice Hnone.
  pose proof (add_to_cart_absent fresh1 user_id (mkCartUpdate s1 q1) st oid
                prod price Hs1 Hprod Hprice) as H1.
  cbv zeta in H1. rewrite Hnone in H1. simpl in H1.
  specialize (H1 (fun F => F)).
  match type of H1 with _ = (_, ?s) => set (st1 := s) in * end.
  exists st1. eexists. split; [exact H1|].
  assert (find_cart user_id st1
          = Some (mkCart fresh1 user_id
                    [mkCartItem s1 (product_title prod) price q1
                       (product_image_url prod)] None None)) as Hc1.
  { unfold st1, find_cart, set_carts; simpl.
    unfold find_cart in Hnone.
    rewrite find_one_update_one_upsert;
      [now rewrite Hnone | intros d Hd; exact Hd | apply by_user_id_refl]. }
  assert (find_one (by_product_id oid) (db_product st1) = Some prod)
    as Hprod1 by exact Hprod.
  clearbody st1.
  pose proof (add_to_cart_absent fresh2 user_id (mkCartUpdate s2 q2) st1 oid
                prod price Hs2 Hprod1 Hprice) as H2.
  cbv zeta in H2. rewrite Hc1 in H2. simpl in H2.
  assert (~ (s1 = s2 \/ False)) as Hnot by (intros [E|[]]; contradiction).
  specialize (H2 Hnot).
  split; [exact H2|].
  unfold find_cart, set_carts; simpl.
  unfold find_cart in Hc1.
  rewrite find_one_update_one_upsert;
    [now rewrite Hc1 | intros d Hd; exact Hd | apply by_user_id_refl].
Qed.

(** The identifier of the example product in lower and in upper case. *)
Lemma add_to_cart_two_spellings_witness :
  exists st1 st2,
    add_to_cart 17%N "u1" (mkCartUpdate "65a1b2c3d4e5f60718293a4b" 1)
      ex_store_catalog = (Return tt, st1) /\
    add_to_cart 18%N "u1" (mkCartUpdate "65A1B2C3D4E5F60718293A4B" 2) st1
    = (Return tt, st2) /\
    find_cart "u1" st2
    = Some (mkCart 17%N "u1"
              [mkCartItem "65a1b2c3d4e5f60718293a4b" (Some "Chicken Breast")
                 250%Q 1 (Some "breast.png");
               mkCartItem "65A1B2C3D4E5F60718293A4B" (Some "Chicken Breast")
                 250%Q 2 (Some "breast.png")] None None).
Proof.
  apply (add_to_cart_two_spellings 17%N 18%N "u1"
           "65a1b2c3d4e5f60718293a4b" "65A1B2C3D4E5F60718293A4B" 1 2
           ex_store_catalog ex_product_oid ex_product 250%Q).
  - reflexivity.
  - reflexivity.
  - discriminate.
  - reflexivity.
  - reflexivity.
  - reflexivity.
Defined.

(** ** remove_from_cart *)

Lemma update_one_same {A} (filt : A -> bool) (patch : A -> A) (coll : list A) :
  (forall d, find_one filt coll = Some d -> patch d = d) ->
  update_one filt patch coll = coll.
Proof.
  unfold find_one. induction coll as [|x rest IH]; simpl; [reflexivity|].
  destruct (filt x); intros H.
  - now rewrite (H x eq_refl).
  - now rewrite (IH H).
Qed.

Lemma update_one_twice {A} (filt : A -> bool) (p1 p2 : A -> A) (coll : list A) :
  (forall d, filt d = true -> filt (p1 d) = true) ->
  update_one filt p2 (update_one filt p1 coll)
  = update_one filt (fun d => p2 (p1 d)) coll.
Proof.
  intros Hkeep. induction coll as [|x rest IH]; simpl; [reflexivity|].
  destruct (filt x) eqn:E; simpl.
  - now rewrite (Hkeep x E).
  - now rewrite E, IH.
Qed.

Lemma with_items_same (c : Cart) : with_items (cart_items c) c = c.
Proof. now destruct c. Qed.

Lemma set_carts_same (st : store) (carts : list Cart) :
  carts = db_cart st -> set_carts (fun _ => carts) st = st.
Proof. intros ->. now destruct st. Qed.

Lemma without_product_absent (product_id : string) (items : list CartItem) :
  ~ In product_id (map item_product_id items) ->
  filter (fun it => negb (item_product_id it =? product_id)) items = items.
Proof.
  induction items as [|it rest IH]; simpl; intros H; [reflexivity|].
  destruct (String.eqb_spec (item_product_id it) product_id) as [E|NE]; simpl.
  - exfalso. apply H. now left.
  - rewrite IH; [reflexivity|]. intros Hin. apply H. now right.
Qed.

Lemma without_product_gone (product_id : string) (items : list CartItem) :
  ~ In product_id
      (map item_product_id
         (filter (fun it => negb (item_product_id it =? product_id)) items)).
Proof.
  rewrite in_map_iff. intros (it & Hid & Hin).
  apply filter_In in Hin as [_ Hkeep].
  rewrite Hid, String.eqb_refl in Hkeep. discriminate.
Qed.

Lemma remove_from_cart_unfold user_id upd st :
  remove_from_cart user_id upd st
  = (Return tt,
     match find_cart user_id st with
     | None => st
     | Some c =>
         set_carts
           (update_one (by_user_id user_id)
              (with_items
                 (filter (fun it => negb (item_product_id it
                                          =? upd_product_id upd))
                    (cart_items c)))) st
     end).
Proof.
  unfold remove_from_cart, bind, gets, ret, modify.
  now destruct (find_cart user_id st).
Qed.

(** [remove_from_cart] always answers [ok].  Without a cart it writes
    nothing.  With a cart, the cart afterwards is the same document (same
    [_id], pincode and coupon code) holding the items of the other
    products, in their order, and no item of the product; the quantity of
    the request plays no part.  The carts of other users and the other
    collections are not touched. *)
Theorem remove_from_cart_drops_product user_id upd st :
  exists st',
    remove_from_cart user_id upd st = (Return tt, st') /\
    match find_cart user_id st with
    | None => st' = st
    | Some c =>
        find_cart user_id st'
        = Some (mkCart (cart__id c) (cart_user_id c)
                  (filter (fun it => negb (has_product (upd_product_id upd) it))
                     (cart_items c))
                  (cart_area_pincode c) (cart_coupon_code c))
    end /\
    (forall c', find_cart user_id st' = Some c' ->
                ~ In (upd_product_id upd) (map item_product_id (cart_items c'))) /\
    (forall q, snd (remove_from_cart user_id
                      (mkCartUpdate (upd_product_id upd) q) st) = st') /\
    (forall other, other <> user_id ->
                   find_cart other st' = find_cart other st) /\
    List.length (db_cart st') = List.length (db_cart st) /\
    db_product st' = db_product st /\
    db_coupon st' = db_coupon st /\
    db_order st' = db_order st /\
    db_notification st' = db_notification st.
Proof.
  rewrite remove_from_cart_unfold. eexists. split; [reflexivity|].
  destruct (find_cart user_id st) as [c|] eqn:Hc.
  - assert (find_cart user_id
              (set_carts
                 (update_one (by_user_id user_id)
                    (with_items
                       (filter (fun it => negb (item_product_id it
                                                =? upd_product_id upd))
                          (cart_items c)))) st)
            = Some (with_items
                      (filter (fun it => negb (item_product_id it
                                               =? upd_product_id upd))
                         (cart_items c)) c)) as Hafter.
    { unfold find_cart, set_carts in *; simpl.
      rewrite find_one_update_one by (intros d Hd; exact Hd).
      now rewrite Hc. }
    split; [exact Hafter|].
    split.
    { intros c' Hc'. rewrite Hafter in Hc'. injection Hc' as <-.
      apply without_product_gone. }
    split.
    { intros q. rewrite remove_from_cart_unfold, Hc. reflexivity. }
    split.
    { intros other Hne. unfold find_cart, set_carts; simpl.
      apply find_one_update_one_other; intros d Hd;
        now apply (by_user_id_other user_id). }
    repeat split. simpl. apply update_one_length.
  - split; [reflexivity|].
    split; [intros c' Hc'; congruence|].
    split; [|repeat split].
    intros q. rewrite remove_from_cart_unfold, Hc. reflexivity.
Qed.

(** Removing a product that the cart of the user does not hold, or for a
    user without a cart, leaves the whole store as it was; so a removal
    repeated changes nothing more. *)
Theorem remove_from_cart_absent_is_noop user_id upd st :
  ((forall c, find_cart user_id st = Some c ->
              ~ In (upd_product_id upd) (map item_product_id (cart_items c))) ->
   remove_from_cart user_id upd st = (Return tt, st)) /\
  remove_from_cart user_id upd (snd (remove_from_cart user_id upd st))
  = (Return tt, snd (remove_from_cart user_id upd st)).
Proof.
  assert (forall st0,
            (forall c, find_cart user_id st0 = Some c ->
                       ~ In (upd_product_id upd)
                            (map item_product_id (cart_items c))) ->
            remove_from_cart user_id upd st0 = (Return tt, st0)) as Hnoop.
  { intros st0 Habsent. rewrite remove_from_cart_unfold.
    destruct (find_cart user_id st0) as [c|] eqn:Hc; [|reflexivity].
    rewrite (without_product_absent _ _ (Habsent c eq_refl)).
    f_equal. unfold set_carts.
    rewrite update_one_same.
    - now destruct st0.
    - intros d Hd. unfold find_cart in Hc. rewrite Hc in Hd.
      injection Hd as <-. apply with_items_same. }
  split; [apply Hnoop|].
  apply Hnoop. intros c Hc.
  rewrite remove_from_cart_unfold in Hc. simpl in Hc.
  destruct (find_cart user_id st) as [c0|] eqn:Hc0; [|congruence].
  unfold find_cart, set_carts in Hc, Hc0; simpl in Hc.
  rewrite find_one_update_one in Hc by (intros d Hd; exact Hd).
  rewrite Hc0 in Hc. injection Hc as <-. apply without_product_gone.
Qed.

(** The cart of [u1] holds the example product only. *)
Lemma remove_from_cart_absent_is_noop_witness :
  remove_from_cart "u1" (mkCartUpdate "000000000000000000000001" 1)
    ex_store_plain = (Return tt, ex_store_plain) /\
  remove_from_cart "u1" (mkCartUpdate ex_product_id 1)
    (snd (remove_from_cart "u1" (mkCartUpdate ex_product_id 1) ex_store_plain))
  = (Return tt,
     snd (remove_from_cart "u1" (mkCartUpdate ex_product_id 1) ex_store_plain)).
Proof.
  split.
  - apply (proj1 (remove_from_cart_absent_is_noop "u1"
                    (mkCartUpdate "000000000000000000000001" 1)
                    ex_store_plain)).
    intros c H. vm_compute in H. injection H as <-.
    simpl. intros [H|[]]. discriminate H.
  - apply (proj2 (remove_from_cart_absent_is_noop "u1"
                    (mkCartUpdate ex_product_id 1) ex_store_plain)).
Defined.

(** Adding a product that an existing cart does not hold and then
    removing it gives back the store as it was before the two requests. *)
Theorem add_then_remove_restores_store
    fresh user_id product_id q q' st c st1 :
  find_cart user_id st = Some c ->
  ~ In product_id (map item_product_id (cart_items c)) ->
  add_to_cart fresh user_id (mkCartUpdate product_id q) st = (Return tt, st1) ->
  remove_from_cart user_id (mkCartUpdate product_id q') st1 = (Return tt, st).
Proof.
  intros Hc Hnew Hadd.
  rewrite add_to_cart_unfold in Hadd. cbn [upd_product_id upd_quantity] in Hadd.
  destruct (oid_parse product_id) as [oid|e]; [|discriminate].
  destruct (find_one (by_product_id oid) (db_product st)) as [prod|];
    [|discriminate].
  cbv zeta in Hadd. rewrite Hc in Hadd.
  destruct (snd (set_quantity product_id q (cart_items c))) eqn:Hfound.
  { apply set_quantity_found in Hfound. contradiction. }
  unfold item_of_product in Hadd.
  destruct (py_float (dict_get (product_price prod) 0%Q)) as [price|e];
    [|discriminate].
  cbn [upd_product_id upd_quantity] in Hadd.
  injection Hadd as <-.
  unfold find_cart in Hc.
  rewrite remove_from_cart_unfold. cbn [upd_product_id].
  unfold find_cart, set_carts, update_one_upsert; simpl. rewrite Hc.
  rewrite find_one_update_one by (intros d Hd; exact Hd).
  rewrite Hc. simpl.
  rewrite update_one_twice by (intros d Hd; exact Hd).
  rewrite filter_app. simpl. rewrite String.eqb_refl. simpl.
  rewrite app_nil_r, (without_product_absent _ _ Hnew).
  rewrite update_one_same.
  - now destruct st.
  - intros d Hd. rewrite Hc in Hd. injection Hd as <-. now destruct c.
Qed.

(** Eggs added to the cart of [u1] and removed again. *)
Lemma add_then_remove_restores_store_witness :
  remove_from_cart "u1" (mkCartUpdate "000000000000000000000001" 7)
    (snd (add_to_cart 18%N "u1" (mkCartUpdate "000000000000000000000001" 4)
            ex_store_two_products))
  = (Return tt, ex_store_two_products).
Proof.
  apply (add_then_remove_restores_store 18%N "u1" "000000000000000000000001"
           4 7 ex_store_two_products (ex_cart [ex_item 250 1] None)).
  - reflexivity.
  - simpl. intros [H|[]]. discriminate H.
  - reflexivity.
Defined.

(** ** One cart per user *)

Lemma update_one_user_ids (filt : Cart -> bool) (patch : Cart -> Cart)
    (carts : list Cart) :
  (forall c, cart_user_id (patch c) = cart_user_id c) ->
  map cart_user_id (update_one filt patch carts) = map cart_user_id carts.
Proof.
  intros Hkeep. induction carts as [|c rest IH]; simpl; [reflexivity|].
  destruct (filt c); simpl; [now rewrite Hkeep | now rewrite IH].
Qed.

Lemma no_cart_no_user_id (user_id : string) (st : store) :
  find_cart user_id st = None -> ~ In user_id (map cart_user_id (db_cart st)).
Proof.
  intros Hnone Hin. apply in_map_iff in Hin as (c & Hc & Hin).
  unfold find_cart in Hnone.
  pose proof (proj1 (find_one_none_iff _ _) Hnone c Hin) as H.
  unfold by_user_id in H. rewrite Hc, String.eqb_refl in H. discriminate.
Qed.

Lemma insert_cart_user_ids (c : Cart) (st : store) :
  NoDup (map cart_user_id (db_cart st)) ->
  find_cart (cart_user_id c) st = None ->
  NoDup (map cart_user_id (insert_one c (db_cart st))).
Proof.
  intros Hnd Hnone. unfold insert_one. rewrite map_app. simpl.
  apply NoDup_app_one; [assumption | now apply no_cart_no_user_id].
Qed.

Lemma step_one_cart_per_user (st st' : store) :
  step st st' ->
  NoDup (map cart_user_id (db_cart st)) ->
  NoDup (map cart_user_id (db_cart st')).
Proof.
  intros Hstep Hnd. destruct Hstep.
  - rewrite get_cart_unfold.
    destruct (find_cart user_id st) eqn:E; [assumption|].
    now apply (insert_cart_user_ids (mkCart fresh user_id [] None None)).
  - rewrite add_to_cart_unfold.
    destruct (oid_parse (upd_product_id upd)); [|assumption].
    destruct (find_one (by_product_id a) (db_product st)); [|assumption].
    cbv zeta.
    assert (forall items2,
               NoDup (map cart_user_id
                        (update_one_upsert (by_user_id user_id)
                           (with_items items2)
                           (mkCart fresh user_id items2 None None)
                           (db_cart st)))) as Hwrite.
    { intros items2. unfold update_one_upsert.
      destruct (find_one (by_user_id user_id) (db_cart st)) eqn:E.
      - now rewrite update_one_user_ids.
      - now apply (insert_cart_user_ids
                     (mkCart fresh user_id items2 None None)). }
    destruct (snd (set_quantity _ _ _)); [apply Hwrite|].
    destruct (item_of_product upd p); [apply Hwrite | assumption].
  - rewrite remove_from_cart_unfold.
    destruct (find_cart user_id st); [|assumption].
    simpl. now rewrite update_one_user_ids.
  - unfold apply_coupon, bind, gets, raise, modify.
    destruct (find_active_coupon code st); [|assumption].
    simpl. now rewrite update_one_user_ids.
  - rewrite checkout_unfold.
    destruct (find_cart user_id st) as [cart|]; [|assumption].
    destruct (cart_items cart); [assumption|].
    destruct (cart_discount st cart _); [|assumption].
    simpl. now rewrite update_one_user_ids.
  - exact Hnd.
  - exact Hnd.
Qed.

Lemma same_user_same_cart (carts : list Cart) (c d : Cart) :
  NoDup (map cart_user_id carts) ->
  In c carts -> In d carts -> cart_user_id c = cart_user_id d -> c = d.
Proof.
  induction carts as [|x rest IH]; simpl; intros Hnd Hc Hd Heq; [tauto|].
  apply NoDup_cons_iff in Hnd as [Hx Hrest].
  destruct Hc as [<-|Hc], Hd as [<-|Hd]; try reflexivity.
  - exfalso. apply Hx. rewrite Heq. now apply in_map.
  - exfalso. apply Hx. rewrite <- Heq. now apply in_map.
  - now apply IH.
Qed.

(** In every store reachable through the endpoints, no two cart documents
    have the same [user_id], so every stored cart is the one that a lookup
    by its user finds. *)
Theorem reachable_one_cart_per_user (st : store) :
  reachable st ->
  NoDup (map cart_user_id (db_cart st)) /\
  forall c, In c (db_cart st) -> find_cart (cart_user_id c) st = Some c.
Proof.
  intros Hreach.
  assert (NoDup (map cart_user_id (db_cart st))) as Hnd.
  { induction Hreach as [|st st' _ IH Hstep]; [constructor|].
    exact (step_one_cart_per_user st st' Hstep IH). }
  split; [exact Hnd|].
  intros c Hc. unfold find_cart.
  destruct (find_one (by_user_id (cart_user_id c)) (db_cart st)) as [d|] eqn:E.
  - apply find_one_some in E as [Hd Hu].
    apply String.eqb_eq in Hu.
    now rewrite (same_user_same_cart (db_cart st) d c Hnd Hd Hc Hu).
  - pose proof (proj1 (find_one_none_iff _ _) E c Hc) as H.
    unfold by_user_id in H. rewrite String.eqb_refl in H. discriminate.
Qed.

(** The store after one product and one [add_to_cart]. *)
Lemma reachable_one_cart_per_user_witness :
  NoDup (map cart_user_id (db_cart ex_store_three)) /\
  forall c, In c (db_cart ex_store_three) ->
            find_cart (cart_user_id c) ex_store_three = Some c.
Proof.
  apply (reachable_one_cart_per_user ex_store_three).
  eapply reachable_step;
    [eapply reachable_step; [apply reachable_empty|] |].
  - apply step_admin_create_product.
  - apply (step_add_to_cart 17%N "u1" (mkCartUpdate ex_product_id 3)).
Defined.

(** * Further properties of coupons and checkout *)

(** ** apply_coupon *)

Lemma find_active_coupon_none (code : string) (st : store) :
  find_active_coupon code st = None <->
  forall cpn, In cpn (db_coupon st) -> coupon_code_of cpn = code ->
              coupon_active cpn = false.
Proof.
  unfold find_active_coupon. rewrite find_one_none_iff.
  unfold by_active_code. split; intros H cpn Hin.
  - intros Hcode. specialize (H cpn Hin).
    rewrite Hcode, String.eqb_refl in H. simpl in H.
    now destruct (coupon_active cpn).
  - destruct (String.eqb_spec (coupon_code_of cpn) code) as [E|NE];
      [|reflexivity].
    rewrite (H cpn Hin E). reflexivity.
Qed.

Lemma find_active_coupon_some (code : string) (st : store) (cpn : Coupon) :
  find_active_coupon code st = Some cpn ->
  In cpn (db_coupon st) /\ coupon_code_of cpn = code /\
  coupon_active cpn = true.
Proof.
  intros H. apply find_one_some in H as [Hin H].
  unfold by_active_code in H. apply andb_true_iff in H as [Hc Ha].
  apply String.eqb_eq in Hc. split; [assumption|]. split; [assumption|].
  now destruct (coupon_active cpn).
Qed.

(** What [apply_coupon] does, in full.  Either no stored coupon has the
    code with [active = true] (the code is unknown, or every coupon that
    has it is inactive): the 404 error "Invalid coupon" is raised and
    nothing is written.  Or one has: the answer is [ok], the cart of the
    user, when there is one, is the same document with the code as its
    coupon code, replacing whatever code it had, and when there is none
    nothing is written; the items of the cart, the carts of other users and
    the other collections are never touched. *)
Theorem apply_coupon_outcome user_id code st :
  ((forall cpn, In cpn (db_coupon st) -> coupon_code_of cpn = code ->
                coupon_active cpn = false) /\
   apply_coupon user_id code st
   = (Raise (HTTPException 404 "Invalid coupon"), st))
  \/
  ((exists cpn, In cpn (db_coupon st) /\ coupon_code_of cpn = code /\
                coupon_active cpn = true) /\
   exists st',
     apply_coupon user_id code st = (Return tt, st') /\
     match find_cart user_id st with
     | Some c =>
         find_cart user_id st'
         = Some (mkCart (cart__id c) (cart_user_id c) (cart_items c)
                   (cart_area_pincode c) (Some code))
     | None => st' = st
     end /\
     (forall other, other <> user_id ->
                    find_cart other st' = find_cart other st) /\
     List.length (db_cart st') = List.length (db_cart st) /\
     db_product st' = db_product st /\
     db_coupon st' = db_coupon st /\
     db_order st' = db_order st /\
     db_notification st' = db_notification st).
Proof.
  destruct (find_active_coupon code st) as [cpn|] eqn:E.
  - right. split.
    { exists cpn. now apply find_active_coupon_some. }
    rewrite (apply_coupon_known user_id code st cpn E).
    eexists. split; [reflexivity|].
    split.
    { destruct (find_cart user_id st) as [c|] eqn:Hc.
      - unfold find_cart, set_carts in *; simpl.
        rewrite find_one_update_one by (intros d Hd; exact Hd).
        now rewrite Hc.
      - unfold set_carts. unfold find_cart in Hc.
        rewrite (update_one_no_match _ _ _ Hc). now destruct st. }
    split.
    { intros other Hne. unfold find_cart, set_carts; simpl.
      apply find_one_update_one_other; intros d Hd;
        now apply (by_user_id_other user_id). }
    repeat split. simpl. apply update_one_length.
  - left. split.
    + now apply find_active_coupon_none.
    + now apply apply_coupon_unknown.
Qed.

(** ** Checkout without an applicable coupon *)

Lemma round_half_even_Qeq (x y : Q) :
  (x == y)%Q -> round_half_even x = round_half_even y.
Proof.
  intros E. unfold round_half_even.
  rewrite (Qfloor_comp x y E).
  assert ((x - inject_Z (Qfloor y) ?= 1 # 2)%Q
          = (y - inject_Z (Qfloor y) ?= 1 # 2)%Q) as ->; [|reflexivity].
  apply Qcompare_comp; [now rewrite E | reflexivity].
Qed.

Lemma py_round2_Qeq (x y : Q) : (x == y)%Q -> py_round2 x = py_round2 y.
Proof.
  intros E. unfold py_round2.
  rewrite (round_half_even_Qeq (x * 100) (y * 100)); [reflexivity|].
  now rewrite E.
Qed.

Lemma cart_discount_no_coupon (st : store) (cart : Cart) (subtotal : Q) :
  (forall code, cart_coupon_code cart = Some code -> code <> "" ->
                find_active_coupon code st = None) ->
  cart_discount st cart subtotal = Return 0%Q.
Proof.
  intros H. unfold cart_discount.
  destruct (cart_coupon_code cart) as [code|]; [|reflexivity].
  destruct code as [|ch code']; [reflexivity|].
  simpl. rewrite (H _ eq_refl); [reflexivity | discriminate].
Qed.

(** A cart whose coupon code is absent, empty, or names no active coupon
    any more (the coupon was deactivated after it was applied) checks out
    without error and without discount: [discount_amount] is 0 and, for a
    subtotal that is not negative, [final_amount] is [total_amount]. *)
Theorem checkout_without_active_coupon
    tracking_oid order_oid note_oid user_id data st cart :
  find_cart user_id st = Some cart ->
  cart_items cart <> [] ->
  (forall code, cart_coupon_code cart = Some code -> code <> "" ->
                find_active_coupon code st = None) ->
  exists resp st' ord,
    checkout tracking_oid order_oid note_oid user_id data st
    = (Return resp, st') /\
    db_order st' = insert_one ord (db_order st) /\
    order_discount_amount ord = 0%Q /\
    ((0 <= subtotal_of (cart_items cart))%Q ->
     order_final_amount ord = order_total_amount ord).
Proof.
  intros Hcart Hitems Hnone.
  pose proof (cart_discount_no_coupon st cart (subtotal_of (cart_items cart))
                Hnone) as Hd.
  rewrite checkout_unfold, Hcart.
  destruct (cart_items cart) as [|it rest] eqn:E; [contradiction|].
  rewrite Hd. cbv zeta.
  eexists. eexists. eexists. split; [reflexivity|].
  split; [reflexivity|]. split; [reflexivity|].
  intros Hs. unfold order_doc_of; simpl. rewrite E.
  apply py_round2_Qeq. unfold py_max.
  destruct (Qle_bool (subtotal_of (it :: rest) - 0) 0) eqn:Hle;
    [|ring].
  apply Qle_bool_iff in Hle. lra.
Qed.

(** The scenario of the specification with the coupon deactivated. *)
Lemma checkout_without_active_coupon_witness :
  exists resp st' ord,
    checkout 1%N 2%N 3%N "u1" (ex_payload "cod") ex_store_inactive_coupon
    = (Return resp, st') /\
    db_order st' = insert_one ord (db_order ex_store_inactive_coupon) /\
    order_discount_amount ord = 0%Q /\
    ((0 <= subtotal_of (cart_items ex_cart_save10))%Q ->
     order_final_amount ord = order_total_amount ord).
Proof.
  apply (checkout_without_active_coupon 1%N 2%N 3%N "u1" (ex_payload "cod")
           ex_store_inactive_coupon ex_cart_save10).
  - reflexivity.
  - discriminate.
  - intros code Hcode _. injection Hcode as <-. reflexivity.
Defined.

(** ** min_amount *)

Lemma find_with_min_amount (m : Coupon -> Q) (code : string)
    (coupons : list Coupon) :
  find_one (by_active_code code)
    (map (fun c => with_min_amount (m c) c) coupons)
  = option_map (fun c => with_min_amount (m c) c)
      (find_one (by_active_code code) coupons).
Proof.
  unfold find_one. induction coupons as [|c rest IH]; simpl; [reflexivity|].
  change (by_active_code code (with_min_amount (m c) c))
    with (by_active_code code c).
  now destruct (by_active_code code c).
Qed.

(** The [min_amount] of a coupon is never read: whatever minimum amounts
    the stored coupons carry, a checkout answers the same and writes the
    same order, cart and notification. *)
Theorem checkout_ignores_min_amount
    tracking_oid order_oid note_oid user_id data st (m : Coupon -> Q) :
  let reprice := set_coupons (map (fun c => with_min_amount (m c) c)) in
  checkout tracking_oid order_oid note_oid user_id data (reprice st)
  = (fst (checkout tracking_oid order_oid note_oid user_id data st),
     reprice (snd (checkout tracking_oid order_oid note_oid user_id data st))).
Proof.
  intros reprice. rewrite !checkout_unfold.
  change (find_cart user_id (reprice st)) with (find_cart user_id st).
  destruct (find_cart user_id st) as [cart|]; [|reflexivity].
  destruct (cart_items cart) as [|it rest]; [reflexivity|].
  assert (cart_discount (reprice st) cart (subtotal_of (it :: rest))
          = cart_discount st cart (subtotal_of (it :: rest))) as ->.
  { unfold cart_discount.
    destruct (truthy_str (cart_coupon_code cart)); [|reflexivity].
    destruct (cart_coupon_code cart) as [code|]; [|reflexivity].
    unfold find_active_coupon, reprice; simpl.
    rewrite find_with_min_amount.
    now destruct (find_one (by_active_code code) (db_coupon st)). }
  now destruct (cart_discount st cart (subtotal_of (it :: rest))).
Qed.

(** ** What a checkout writes *)

(** A checkout that returns has written these and nothing else: one
    order, after the existing ones, for the user, with the items of the
    cart, the address and pincode of the request, status [placed] and the
    identifier that is answered; one notification, after the existing
    ones, for the user, unread, of type [order], whose message quotes that
    identifier; and the cleared cart.  Products, coupons and the carts of
    other users are as before. *)
Theorem checkout_writes_order_and_notification
    tracking_oid order_oid note_oid user_id data st resp st' :
  checkout tracking_oid order_oid note_oid user_id data st = (Return resp, st') ->
  exists cart ord note,
    find_cart user_id st = Some cart /\
    db_order st' = (db_order st ++ [ord])%list /\
    order__id ord = order_oid /\
    resp_order_id resp = oid_str order_oid /\
    order_user_id ord = user_id /\
    order_items ord = cart_items cart /\
    order_address ord = payload_address data /\
    order_area_pincode ord = payload_area_pincode data /\
    order_status ord = "placed" /\
    order_tracking_code ord = resp_tracking_code resp /\
    db_notification st' = (db_notification st ++ [note])%list /\
    note = mkNotification note_oid user_id "Order Placed"
             ("Your order #" ++ resp_order_id resp ++ " has been placed.")
             "order" false /\
    (forall other, other <> user_id ->
                   find_cart other st' = find_cart other st) /\
    db_product st' = db_product st /\
    db_coupon st' = db_coupon st.
Proof.
  intros H. apply checkout_returns in H.
  destruct H as (cart & d & Hcart & _ & _ & -> & ->).
  exists cart. eexists. eexists.
  split; [exact Hcart|].
  repeat (split; [reflexivity|]).
  split; [|split; reflexivity].
  intros other Hne. unfold find_cart; simpl.
  apply find_one_update_one_other; intros c Hc;
    now apply (by_user_id_other user_id).
Qed.

(** After a checkout that returns, a second checkout of the same user,
    whatever its request, raises the 400 error "Cart is empty" and writes
    nothing: one cart is ordered once. *)
Theorem checkout_twice_is_rejected
    tracking_oid order_oid note_oid tracking_oid2 order_oid2 note_oid2
    user_id data data2 st resp st' :
  checkout tracking_oid order_oid note_oid user_id data st = (Return resp, st') ->
  checkout tracking_oid2 order_oid2 note_oid2 user_id data2 st'
  = (Raise (HTTPException 400 "Cart is empty"), st').
Proof.
  intros H. apply checkout_returns in H.
  destruct H as (cart & d & Hcart & _ & _ & _ & ->).
  rewrite checkout_unfold.
  assert (find_cart user_id
            (store_after_checkout note_oid user_id
               (order_doc_of tracking_oid order_oid user_id data cart d) st)
          = Some (clear_cart cart)) as ->; [|reflexivity].
  unfold find_cart, store_after_checkout in *; simpl.
  rewrite find_one_update_one by apply clear_cart_keeps_user.
  now rewrite Hcart.
Qed.

(** The stored [final_amount] is never negative, and it is 0 as soon as
    the discount reaches the subtotal. *)
Theorem checkout_final_amount_floor
    tracking_oid order_oid note_oid user_id data st resp st' :
  checkout tracking_oid order_oid note_oid user_id data st = (Return resp, st') ->
  exists cart discount ord,
    find_cart user_id st = Some cart /\
    cart_discount st cart (subtotal_of (cart_items cart)) = Return discount /\
    db_order st' = (db_order st ++ [ord])%list /\
    (0 <= order_final_amount ord)%Q /\
    ((subtotal_of (cart_items cart) <= discount)%Q ->
     order_final_amount ord = 0%Q).
Proof.
  intros H. apply checkout_returns in H.
  destruct H as (cart & d & Hcart & _ & Hd & _ & ->).
  exists cart, d. eexists.
  split; [exact Hcart|]. split; [exact Hd|]. split; [reflexivity|].
  unfold order_doc_of; simpl. split.
  - rewrite <- py_round2_0. apply py_round2_monotone, py_max_0_nonneg.
  - intros Hle. unfold py_max.
    destruct (Qle_bool (subtotal_of (cart_items cart) - d) 0) eqn:E;
      [reflexivity|].
    assert (~ (subtotal_of (cart_items cart) - d <= 0)%Q) as Hn
        by (rewrite <- Qle_bool_iff; congruence).
    exfalso. apply Hn. lra.
Qed.

(** The scenario of the specification. *)
Lemma checkout_writes_order_and_notification_witness :
  exists cart ord note,
    find_cart "u1" ex_store_save10 = Some cart /\
    db_order (snd (checkout 1%N 2%N 3%N "u1" (ex_payload "cod")
                     ex_store_save10))
    = (db_order ex_store_save10 ++ [ord])%list /\
    order__id ord = 2%N /\
    oid_str 2%N = oid_str 2%N /\
    order_user_id ord = "u1" /\
    order_items ord = cart_items cart /\
    order_address ord = payload_address (ex_payload "cod") /\
    order_area_pincode ord = payload_area_pincode (ex_payload "cod") /\
    order_status ord = "placed" /\
    order_tracking_code ord = tracking_code_of 1%N /\
    db_notification (snd (checkout 1%N 2%N 3%N "u1" (ex_payload "cod")
                            ex_store_save10))
    = (db_notification ex_store_save10 ++ [note])%list /\
    note = mkNotification 3%N "u1" "Order Placed"
             ("Your order #" ++ oid_str 2%N ++ " has been placed.")
             "order" false /\
    (forall other, other <> "u1" ->
                   find_cart other
                     (snd (checkout 1%N 2%N 3%N "u1" (ex_payload "cod")
                             ex_store_save10))
                   = find_cart other ex_store_save10) /\
    db_product (snd (checkout 1%N 2%N 3%N "u1" (ex_payload "cod")
                       ex_store_save10)) = db_product ex_store_save10 /\
    db_coupon (snd (checkout 1%N 2%N 3%N "u1" (ex_payload "cod")
                      ex_store_save10)) = db_coupon ex_store_save10.
Proof.
  apply (checkout_writes_order_and_notification 1%N 2%N 3%N "u1"
           (ex_payload "cod") ex_store_save10
           (mkCheckoutResponse (oid_str 2%N) (tracking_code_of 1%N)
              (payment_of "cod"))).
  reflexivity.
Defined.

(** The scenario of the specification, checked out twice. *)
Lemma checkout_twice_is_rejected_witness :
  checkout 4%N 5%N 6%N "u1" (ex_payload "online")
    (snd (checkout 1%N 2%N 3%N "u1" (ex_payload "cod") ex_store_save10))
  = (Raise (HTTPException 400 "Cart is empty"),
     snd (checkout 1%N 2%N 3%N "u1" (ex_payload "cod") ex_store_save10)).
Proof.
  apply (checkout_twice_is_rejected 1%N 2%N 3%N 4%N 5%N 6%N "u1"
           (ex_payload "cod") (ex_payload "online") ex_store_save10
           (mkCheckoutResponse (oid_str 2%N) (tracking_code_of 1%N)
              (payment_of "cod"))).
  reflexivity.
Defined.

(** The flat coupon of 500 on a cart worth 250. *)
Lemma checkout_final_amount_floor_witness :
  exists cart discount ord,
    find_cart "u1" ex_store_flat500 = Some cart /\
    cart_discount ex_store_flat500 cart (subtotal_of (cart_items cart))
    = Return discount /\
    db_order (snd (checkout 1%N 2%N 3%N "u1" (ex_payload "cod")
                     ex_store_flat500))
    = (db_order ex_store_flat500 ++ [ord])%list /\
    (0 <= order_final_amount ord)%Q /\
    ((subtotal_of (cart_items cart) <= discount)%Q ->
     order_final_amount ord = 0%Q).
Proof.
  apply (checkout_final_amount_floor 1%N 2%N 3%N "u1" (ex_payload "cod")
           ex_store_flat500
           (mkCheckoutResponse (oid_str 2%N) (tracking_code_of 1%N)
              (payment_of "cod"))).
  reflexivity.
Defined.

(** ** Orders and notifications over time *)

Lemma payment_of_method_provider (pm : string) :
  payment_method_of (payment_of pm) = "COD" /\
  payment_provider (payment_of pm) = None
  \/
  payment_method_of (payment_of pm) = "ONLINE" /\
  payment_provider (payment_of pm) = Some "razorpay".
Proof.
  unfold payment_of; simpl.
  destruct (upper pm =? "COD"); [left | right]; split; reflexivity.
Qed.

Lemma order_doc_of_placed tracking_oid order_oid user_id data cart d :
  cart_items cart <> [] ->
  order_placed (order_doc_of tracking_oid order_oid user_id data cart d).
Proof.
  intros Hitems. unfold order_placed, order_doc_of.
  cbn [order_items order_status order_tracking_code order_final_amount
       order_payment].
  split; [assumption|]. split; [reflexivity|].
  split; [apply tracking_code_length|].
  split; [apply tracking_code_upper_alnum|].
  split; [|apply payment_of_method_provider].
  rewrite <- py_round2_0. apply py_round2_monotone, py_max_0_nonneg.
Qed.

(** One call appends at most one order, then one notification with it,
    and leaves the stored ones alone. *)
Lemma step_orders_notifications (st st' : store) :
  step st st' ->
  exists orders notes,
    db_order st' = (db_order st ++ orders)%list /\
    db_notification st' = (db_notification st ++ notes)%list /\
    List.length notes = List.length orders /\
    Forall order_placed orders.
Proof.
  assert (exists orders notes,
             db_order st = (db_order st ++ orders)%list /\
             db_notification st = (db_notification st ++ notes)%list /\
             List.length notes = List.length orders /\
             Forall order_placed orders) as Hsame.
  { exists [], []. rewrite !app_nil_r. repeat split. constructor. }
  intros Hstep. destruct Hstep.
  - rewrite get_cart_unfold. now destruct (find_cart user_id st).
  - rewrite add_to_cart_unfold.
    destruct (oid_parse (upd_product_id upd)); [|assumption].
    destruct (find_one (by_product_id a) (db_product st)); [|assumption].
    cbv zeta. destruct (snd (set_quantity _ _ _)); [assumption|].
    now destruct (item_of_product upd p).
  - rewrite remove_from_cart_unfold. now destruct (find_cart user_id st).
  - unfold apply_coupon, bind, gets, raise, modify.
    now destruct (find_active_coupon code st).
  - rewrite checkout_unfold.
    destruct (find_cart user_id st) as [cart|]; [|assumption].
    destruct (cart_items cart) as [|it rest] eqn:E; [assumption|].
    destruct (cart_discount st cart _) as [d|e]; [|assumption].
    cbv zeta. simpl. eexists [_], [_].
    split; [reflexivity|]. split; [reflexivity|]. split; [reflexivity|].
    constructor; [|constructor].
    apply order_doc_of_placed. rewrite E. discriminate.
  - assumption.
  - assumption.
Qed.

(** Orders and notifications are only ever appended: over any sequence
    of endpoint calls the orders and notifications stored at the start are
    still there, unchanged and in their order, followed by the new ones,
    one notification for each new order. *)
Theorem steps_append_orders (st st' : store) :
  steps st st' ->
  exists orders notes,
    db_order st' = (db_order st ++ orders)%list /\
    db_notification st' = (db_notification st ++ notes)%list /\
    List.length notes = List.length orders.
Proof.
  induction 1 as [st|st st1 st2 _ IH Hstep].
  - exists [], []. rewrite !app_nil_r. repeat split.
  - destruct IH as (os & ns & Ho & Hn & Hlen).
    destruct (step_orders_notifications st1 st2 Hstep)
      as (os' & ns' & Ho' & Hn' & Hlen' & _).
    exists (os ++ os')%list, (ns ++ ns')%list.
    rewrite Ho', Hn', Ho, Hn, !app_assoc, !length_app.
    repeat split. congruence.
Qed.

(** From the store with one order of [u1]: a checkout of [u2]. *)
Lemma steps_append_orders_witness :
  let st1 := snd (checkout ex_oid_a 101%N 102%N "u1" (ex_payload "cod")
                    ex_store_two_carts) in
  let st2 := snd (checkout ex_oid_b 201%N 202%N "u2" (ex_payload "cod") st1) in
  exists orders notes,
    db_order st2 = (db_order st1 ++ orders)%list /\
    db_notification st2 = (db_notification st1 ++ notes)%list /\
    List.length notes = List.length orders.
Proof.
  intros st1 st2. apply (steps_append_orders st1 st2).
  eapply steps_more; [apply steps_none|].
  apply (step_checkout ex_oid_b 201%N 202%N "u2" (ex_payload "cod") st1).
Defined.

(** In every store reachable through the endpoints there are as many
    notifications as orders, and every order has items, the status
    [placed], a tracking code of 8 upper-case letters or digits, a final
    amount that is not negative, and a payment that is either COD without
    provider or ONLINE with provider razorpay. *)
Theorem reachable_orders_placed (st : store) :
  reachable st ->
  Forall order_placed (db_order st) /\
  List.length (db_notification st) = List.length (db_order st).
Proof.
  induction 1 as [|st st' _ [IHo IHn] Hstep].
  - split; [constructor | reflexivity].
  - destruct (step_orders_notifications st st' Hstep)
      as (os & ns & -> & -> & Hlen & Hplaced).
    split.
    + apply Forall_app. now split.
    + rewrite !length_app. congruence.
Qed.

(** One product, one [add_to_cart] and one checkout. *)
Lemma reachable_orders_placed_witness :
  let st := snd (checkout 1%N 2%N 3%N "u1" (ex_payload "razorpay")
                   ex_store_three) in
  Forall order_placed (db_order st) /\
  List.length (db_notification st) = List.length (db_order st).
Proof.
  intros st. apply (reachable_orders_placed st).
  eapply reachable_step; [apply ex_store_three_reachable|].
  apply (step_checkout 1%N 2%N 3%N "u1" (ex_payload "razorpay")).
Defined.

(** ** track_order *)

Lemma find_one_split {A} (filt : A -> bool) (coll : list A) (x : A) :
  find_one filt coll = Some x ->
  exists before after,
    coll = (before ++ x :: after)%list /\
    filt x = true /\
    forall y, In y before -> filt y = false.
Proof.
  unfold find_one. induction coll as [|d rest IH]; simpl; [discriminate|].
  destruct (filt d) eqn:E.
  - intros H. injection H as <-. exists [], rest.
    split; [reflexivity|]. split; [assumption | intros y []].
  - intros H. destruct (IH H) as (before & after & -> & Hx & Hb).
    exists (d :: before), after. simpl. repeat split; try assumption.
    intros y [<-|Hy]; [assumption | now apply Hb].
Qed.

(** [track_order] never writes.  It answers with the oldest stored order
    that carries exactly the given code, and raises the 404 error "Order
    not found" only when no stored order carries it. *)
Theorem track_order_oldest_match (code : string) (st : store) :
  (exists o before after,
      track_order code st = (Return o, st) /\
      db_order st = (before ++ o :: after)%list /\
      order_tracking_code o = code /\
      forall y, In y before -> order_tracking_code y <> code)
  \/
  (track_order code st = (Raise (HTTPException 404 "Order not found"), st) /\
   forall y, In y (db_order st) -> order_tracking_code y <> code).
Proof.
  rewrite track_order_unfold.
  destruct (find_one (by_tracking_code code) (db_order st)) as [o|] eqn:E.
  - left. destruct (find_one_split _ _ _ E) as (before & after & Hs & Ho & Hb).
    exists o, before, after. split; [reflexivity|]. split; [exact Hs|].
    split; [now apply String.eqb_eq|].
    intros y Hy. apply String.eqb_neq. now apply Hb.
  - right. split; [reflexivity|].
    intros y Hy. apply String.eqb_neq.
    exact (proj1 (find_one_none_iff _ _) E y Hy).
Qed.

(** ** Tracking codes and timestamps *)

Lemma prefix_slice_hex_str (m j : nat) (n : N) :
  prefix_slice m (hex_str (m + j) n)
  = hex_str m (n / 16 ^ N.of_nat j)%N.
Proof.
  unfold prefix_slice. induction m as [|m IH]; simpl.
  - now destruct (hex_str j n).
  - rewrite IH. f_equal. f_equal.
    rewrite N.Div0.div_div.
    rewrite <- N.pow_add_r.
    now replace (N.of_nat j + N.of_nat m)%N with (N.of_nat (m + j)) by lia.
Qed.

(** The tracking code is cut from the first four bytes of the ObjectId,
    its timestamp in seconds: two ObjectIds that agree above their low 64
    bits give the same tracking code. *)
Theorem tracking_code_of_timestamp (o o' : ObjectId) :
  (o / 2 ^ 64 = o' / 2 ^ 64)%N ->
  tracking_code_of o = tracking_code_of o'.
Proof.
  intros H. unfold tracking_code_of, oid_str.
  change 24%nat with (8 + 16)%nat.
  rewrite !prefix_slice_hex_str.
  change (16 ^ N.of_nat 16)%N with (2 ^ 64)%N.
  now rewrite H.
Qed.

(** The two ObjectIds of the example, generated in the same second. *)
Lemma tracking_code_of_timestamp_witness :
  tracking_code_of ex_oid_a = tracking_code_of ex_oid_b.
Proof.
  apply (tracking_code_of_timestamp ex_oid_a ex_oid_b). reflexivity.
Defined.

(** * ObjectIdStr *)

Lemma hex_value_digit (d : N) : (d < 16)%N -> hex_value (hex_digit d) = Some d.
Proof.
  intros Hd. rewrite <- (N2Nat.id d).
  assert (N.to_nat d < 16)%nat as Hi by lia.
  revert Hi. generalize (N.to_nat d) as i. intros i Hi.
  do 16 (destruct i as [|i]; [reflexivity|]). lia.
Qed.

(** A hexadecimal digit is one character, and no whitespace. *)
Lemma hex_value_plain (c : ascii) (d : N) :
  hex_value c = Some d ->
  is_space c = false /\
  ((128 <=? nat_of_ascii c)%nat && (nat_of_ascii c <=? 191)%nat) = false.
Proof.
  destruct c as [[] [] [] [] [] [] [] []]; vm_compute; intros H;
    try discriminate H; split; reflexivity.
Qed.

Lemma is_space_plain (c : ascii) :
  is_space c = true ->
  ((128 <=? nat_of_ascii c)%nat && (nat_of_ascii c <=? 191)%nat) = false.
Proof.
  destruct c as [[] [] [] [] [] [] [] []]; vm_compute; intros H;
    try discriminate H; reflexivity.
Qed.

Lemma hex_value_lower (c : ascii) (d : N) :
  hex_value c = Some d -> (d < 16)%N /\ hex_digit d = lower_ascii c.
Proof.
  destruct c as [[] [] [] [] [] [] [] []]; vm_compute; intros H;
    try discriminate H; injection H as <-; split; reflexivity.
Qed.

Lemma hex_value_is_hex_char (c : ascii) :
  is_hex_char c
  = (match hex_value c with Some _ => true | None => false end).
Proof. destruct c as [[] [] [] [] [] [] [] []]; reflexivity. Qed.

Lemma byte_of_digits (top bot : N) :
  (top < 16)%N -> (bot < 16)%N ->
  (((16 * top + bot) / 16) mod 16 = top /\ (16 * top + bot) mod 16 = bot)%N.
Proof.
  intros Ht Hb. split.
  - rewrite N.mul_comm, N.div_add_l by lia.
    rewrite (N.div_small bot 16 Hb), N.add_0_r. now apply N.mod_small.
  - rewrite N.add_comm, N.mul_comm, N.Div0.mod_add. now apply N.mod_small.
Qed.

(** The bytes of a string of digits, and their number. *)
Lemma fromhex_hex_str (k : nat) (n : N) :
  exists bytes,
    fromhex (hex_str (k + k) n) = Some bytes /\
    List.length bytes = k /\
    forall acc,
      fold_left (fun a b => (256 * a + b)%N) bytes acc
      = (acc * 256 ^ N.of_nat k + n mod 256 ^ N.of_nat k)%N.
Proof.
  induction k as [|k (bytes & Hfrom & Hlen & Hval)].
  - exists []. split; [reflexivity|]. split; [reflexivity|].
    intros acc. simpl. rewrite N.mod_1_r. lia.
  - replace (S k + S k)%nat with (S (S (k + k))) by lia.
    cbn [hex_str fromhex].
    set (top := ((n / 16 ^ N.of_nat (S (k + k))) mod 16)%N).
    set (bot := ((n / 16 ^ N.of_nat (k + k)) mod 16)%N).
    assert (top < 16)%N as Htop by (apply N.mod_lt; discriminate).
    assert (bot < 16)%N as Hbot by (apply N.mod_lt; discriminate).
    destruct (hex_value_plain _ _ (hex_value_digit top Htop)) as [-> _].
    rewrite (hex_value_digit top Htop), (hex_value_digit bot Hbot), Hfrom.
    eexists. split; [reflexivity|]. split; [simpl; now rewrite Hlen|].
    intros acc. cbn [fold_left]. rewrite Hval.
    assert (16 ^ N.of_nat (k + k) = 256 ^ N.of_nat k)%N as Hpow.
    { rewrite Nat2N.inj_add, N.pow_add_r, <- N.pow_mul_l. reflexivity. }
    rewrite Nat2N.inj_succ, N.pow_succ_r'.
    rewrite (N.mul_comm 256 (256 ^ N.of_nat k)).
    rewrite (N.Div0.mod_mul_r n (256 ^ N.of_nat k) 256).
    assert ((n / 256 ^ N.of_nat k) mod 256 = 16 * top + bot)%N as ->.
    { assert (forall M, M mod 256 = 16 * ((M / 16) mod 16) + M mod 16)%N
        as Hbyte.
      { intros M. change 256%N with (16 * 16)%N.
        rewrite N.Div0.mod_mul_r. lia. }
      unfold top, bot.
      rewrite Nat2N.inj_succ, N.pow_succ_r', Hpow.
      rewrite (N.mul_comm 16 (256 ^ N.of_nat k)), <- N.Div0.div_div.
      apply Hbyte. }
    lia.
Qed.

Lemma char_count_hex_str (k : nat) (n : N) : char_count (hex_str k n) = k.
Proof.
  induction k as [|k IH]; cbn [hex_str char_count]; [reflexivity|].
  assert (((n / 16 ^ N.of_nat k) mod 16) < 16)%N as Hd
      by (apply N.mod_lt; discriminate).
  destruct (hex_value_plain _ _ (hex_value_digit _ Hd)) as [_ ->].
  now rewrite IH.
Qed.

(** Reading back a printed ObjectId gives the number that was printed. *)
Lemma oid_parse_oid_str (o : ObjectId) :
  oid_parse (oid_str o) = Return (o mod 2 ^ 96)%N.
Proof.
  unfold oid_parse, ObjectId_binary, oid_str.
  rewrite char_count_hex_str. simpl Nat.eqb. cbv iota.
  destruct (fromhex_hex_str 12 o) as (bytes & Hfrom & Hlen & Hval).
  change (12 + 12)%nat with 24%nat in Hfrom. rewrite Hfrom.
  unfold oid_of_bytes, bytes_value. rewrite Hlen, Hval. reflexivity.
Qed.

Lemma lower_length (s : string) : String.length (lower s) = String.length s.
Proof. induction s as [|c s IH]; simpl; congruence. Qed.

Lemma lower_ascii_fixed (c : ascii) :
  is_lower_hex c = true -> is_hex_char c = true /\ lower_ascii c = c.
Proof.
  destruct c as [[] [] [] [] [] [] [] []]; vm_compute; intros H;
    try discriminate H; split; reflexivity.
Qed.

Lemma lower_hex_fixed (s : string) :
  all_chars is_lower_hex s = true ->
  all_chars is_hex_char s = true /\ lower s = s.
Proof.
  induction s as [|c s IH]; simpl; [split; reflexivity|].
  intros H. apply andb_true_iff in H as [Hc Hs].
  destruct (lower_ascii_fixed c Hc) as [Hc1 Hc2].
  destruct (IH Hs) as [Hs1 Hs2].
  now rewrite Hc1, Hs1, Hc2, Hs2.
Qed.

(** On a string of digits only, the bytes print as the string in lower
    case. *)
Lemma fromhex_digits (k : nat) (s : string) :
  String.length s = (k + k)%nat ->
  all_chars is_hex_char s = true ->
  char_count s = (k + k)%nat /\
  exists bytes, fromhex s = Some bytes /\ hexlify bytes = lower s.
Proof.
  revert s. induction k as [|k IH]; intros s Hlen Hall.
  - destruct s; [|discriminate]. split; [reflexivity|]. now exists [].
  - replace (S k + S k)%nat with (S (S (k + k))) in * by lia.
    destruct s as [|c1 [|c2 rest]]; try discriminate.
    cbn [all_chars] in Hall.
    apply andb_true_iff in Hall as [H1 Hall].
    apply andb_true_iff in Hall as [H2 Hall].
    rewrite hex_value_is_hex_char in H1, H2.
    destruct (hex_value c1) as [top|] eqn:E1; [|discriminate].
    destruct (hex_value c2) as [bot|] eqn:E2; [|discriminate].
    destruct (hex_value_plain c1 top E1) as [Hs1 Hc1].
    destruct (hex_value_plain c2 bot E2) as [_ Hc2].
    destruct (hex_value_lower c1 top E1) as [Ht Hl1].
    destruct (hex_value_lower c2 bot E2) as [Hb Hl2].
    assert (String.length rest = (k + k)%nat) as Hrest
        by (simpl in Hlen; lia).
    destruct (IH rest Hrest Hall) as (Hcount & bytes & Hfrom & Hhex).
    split.
    + cbn [char_count]. now rewrite Hc1, Hc2, Hcount.
    + cbn [fromhex]. rewrite Hs1, E1, E2, Hfrom.
      eexists. split; [reflexivity|].
      cbn [hexlify lower].
      destruct (byte_of_digits top bot Ht Hb) as [-> ->].
      now rewrite Hl1, Hl2, Hhex.
Qed.

Lemma hexlify_lower_hex (bytes : list N) :
  all_chars is_lower_hex (hexlify bytes) = true /\
  String.length (hexlify bytes) = (List.length bytes + List.length bytes)%nat.
Proof.
  induction bytes as [|b rest [IH1 IH2]]; [split; reflexivity|].
  cbn [hexlify all_chars String.length List.length].
  rewrite !hex_digit_lower_hex by (apply N.mod_lt; discriminate).
  rewrite IH1, IH2. split; [reflexivity | lia].
Qed.

(** Every byte takes two characters of the string, and a string that
    [bytes.fromhex] reads has one-byte characters only. *)
Lemma fromhex_length (n : nat) :
  forall s bytes,
    (String.length s <= n)%nat ->
    fromhex s = Some bytes ->
    (List.length bytes + List.length bytes <= String.length s)%nat /\
    char_count s = String.length s.
Proof.
  induction n as [n IH] using lt_wf_ind.
  intros s bytes Hn Hfrom.
  destruct s as [|c rest]; cbn [fromhex] in Hfrom.
  - injection Hfrom as <-. split; reflexivity.
  - destruct (is_space c) eqn:Hsp.
    + cbn [String.length] in Hn.
      destruct (IH (String.length rest) ltac:(lia) rest bytes
                  (Nat.le_refl _) Hfrom) as [Hlen Hcount].
      cbn [char_count String.length].
      rewrite (is_space_plain c Hsp), Hcount. split; lia.
    + destruct (hex_value c) as [top|] eqn:E1; [|discriminate].
      destruct rest as [|c' rest']; [discriminate|].
      destruct (hex_value c') as [bot|] eqn:E2; [|discriminate].
      destruct (fromhex rest') as [bytes'|] eqn:Hrest; [|discriminate].
      injection Hfrom as <-.
      cbn [String.length] in Hn.
      destruct (IH (String.length rest') ltac:(lia) rest' bytes'
                  (Nat.le_refl _) Hrest) as [Hlen Hcount].
      destruct (hex_value_plain c top E1) as [_ Hc1].
      destruct (hex_value_plain c' bot E2) as [_ Hc2].
      cbn [char_count String.length List.length].
      rewrite Hc1, Hc2, Hcount. split; lia.
Qed.

Lemma ObjectIdStr_validate_digits (v : string) :
  String.length v = 24%nat ->
  all_chars is_hex_char v = true ->
  ObjectIdStr_validate v = Ok (lower v).
Proof.
  intros Hlen Hall.
  destruct (fromhex_digits 12 v Hlen Hall) as (Hcount & bytes & Hfrom & Hhex).
  unfold ObjectIdStr_validate, ObjectId_binary.
  rewrite Hcount, Hfrom. simpl. now rewrite Hhex.
Qed.

(** [ObjectIdStr.validate] raises [ValueError("Invalid ObjectId")] for
    every string that does not have 24 characters.  A string of 24
    hexadecimal digits, in either letter case, is answered in lower case.
    Whatever is answered consists of lower-case hexadecimal digits, at most
    24 of them (fewer when the string had whitespace), and an answer of 24
    digits is accepted again unchanged.  Every printed ObjectId is
    answered unchanged. *)
Theorem ObjectIdStr_validate_normalises (v : string) :
  (char_count v <> 24%nat ->
   ObjectIdStr_validate v = Err (ValueError "Invalid ObjectId")) /\
  (String.length v = 24%nat -> all_chars is_hex_char v = true ->
   ObjectIdStr_validate v = Ok (lower v)) /\
  (forall t, ObjectIdStr_validate v = Ok t ->
             all_chars is_lower_hex t = true /\
             (String.length t <= 24)%nat /\
             (String.length t = 24%nat -> ObjectIdStr_validate t = Ok t)) /\
  (forall o, ObjectIdStr_validate (oid_str o) = Ok (oid_str o)).
Proof.
  split.
  { intros Hlen. unfold ObjectIdStr_validate, ObjectId_binary.
    now destruct (Nat.eqb_spec (char_count v) 24). }
  split; [apply ObjectIdStr_validate_digits|].
  split.
  - intros t H. unfold ObjectIdStr_validate, ObjectId_binary in H.
    destruct (Nat.eqb_spec (char_count v) 24) as [Hcount|Hcount];
      [|discriminate].
    destruct (fromhex v) as [bytes|] eqn:Hfrom; [|discriminate].
    injection H as <-.
    destruct (hexlify_lower_hex bytes) as [Hlow Hlen].
    destruct (fromhex_length _ v bytes (Nat.le_refl _) Hfrom) as [Hb Hc].
    split; [exact Hlow|]. split; [lia|].
    intros H24. destruct (lower_hex_fixed _ Hlow) as [Hhex Hfix].
    rewrite (ObjectIdStr_validate_digits _ H24 Hhex). now rewrite Hfix.
  - intros o.
    destruct (lower_hex_fixed _ (hex_str_lower_hex 24 o)) as [Hhex Hfix].
    unfold oid_str.
    rewrite (ObjectIdStr_validate_digits _ (hex_str_length 24 o) Hhex).
    now rewrite Hfix.
Qed.

(** With whitespace in front of a byte the string is accepted and the
    answer is shorter; with whitespace inside a byte it is refused. *)
Example ObjectIdStr_validate_whitespace :
  ObjectIdStr_validate "65a1b2c3d4e5f60718293a  "
  = Ok "65a1b2c3d4e5f60718293a" /\
  ObjectIdStr_validate "65 A1b2c3d4e5f60718293a "
  = Ok "65a1b2c3d4e5f60718293a" /\
  ObjectIdStr_validate "6 5a1b2c3d4e5f60718293a "
  = Err (ValueError "Invalid ObjectId") /\
  ObjectIdStr_validate "65a1b2c3d4e5f60718293a4b"
  = Ok "65a1b2c3d4e5f60718293a4b".
Proof. repeat split; reflexivity. Qed.

(** ** From the catalog to the cart *)

(** The identifier that [admin_create_product] answers is a [product_id]
    that [add_to_cart] accepts: when the new product has an ObjectId of 12
    bytes that no stored product has, and a price that is a number or
    absent, adding it to a cart that does not hold it returns and leaves,
    as last item of the cart, the given quantity of the product with its
    title, price and image. *)
Theorem created_product_can_be_added fresh user_id q p price st :
  (product__id p < 2 ^ 96)%N ->
  (forall p0, In p0 (db_product st) -> product__id p0 <> product__id p) ->
  dict_get (product_price p) 0%Q = Some price ->
  (forall c, find_cart user_id st = Some c ->
             ~ In (oid_str (product__id p))
                  (map item_product_id (cart_items c))) ->
  exists product_id st1 st2 c,
    admin_create_product p st = (Return product_id, st1) /\
    add_to_cart fresh user_id (mkCartUpdate product_id q) st1
    = (Return tt, st2) /\
    find_cart user_id st2 = Some c /\
    cart_items c
    = (match find_cart user_id st with
       | Some before => cart_items before
       | None => []
       end
       ++ [mkCartItem product_id (product_title p) price q
             (product_image_url p)])%list.
Proof.
  intros Hid Hfresh Hprice Hnew.
  exists (oid_str (product__id p)), (set_products (insert_one p) st).
  assert (oid_parse (oid_str (product__id p)) = Return (product__id p))
    as Hparse by (rewrite oid_parse_oid_str; now rewrite N.mod_small).
  assert (find_one (by_product_id (product__id p))
            (db_product (set_products (insert_one p) st)) = Some p) as Hprod.
  { simpl. rewrite find_one_insert_one.
    assert (find_one (by_product_id (product__id p)) (db_product st) = None)
      as ->.
    { apply find_one_none_iff. intros p0 Hp0. unfold by_product_id.
      apply N.eqb_neq. now apply Hfresh. }
    unfold by_product_id. now rewrite N.eqb_refl. }
  pose proof (add_to_cart_absent fresh user_id
                (mkCartUpdate (oid_str (product__id p)) q)
                (set_products (insert_one p) st) (product__id p) p price
                Hparse Hprod Hprice) as Hadd.
  cbv zeta in Hadd.
  change (find_cart user_id (set_products (insert_one p) st))
    with (find_cart user_id st) in Hadd.
  cbn [upd_product_id upd_quantity] in Hadd.
  assert (~ In (oid_str (product__id p))
               (map item_product_id
                  match find_cart user_id st with
                  | Some c => cart_items c
                  | None => []
                  end)) as Hnot.
  { destruct (find_cart user_id st) as [c|]; [now apply Hnew | simpl; tauto]. }
  specialize (Hadd Hnot).
  match type of Hadd with
  | _ = (_, set_carts (update_one_upsert _ (with_items ?i2) _) ?s) =>
      destruct (find_cart_after_write fresh user_id i2 s) as (c & Hc & Hitems)
  end.
  eexists. exists c.
  split; [reflexivity|]. split; [exact Hadd|]. split; [exact Hc|].
  exact Hitems.
Qed.

(** The example product, created in an empty database and added. *)
Lemma created_product_can_be_added_witness :
  exists product_id st1 st2 c,
    admin_create_product ex_product empty_store = (Return product_id, st1) /\
    add_to_cart 17%N "u1" (mkCartUpdate product_id 2) st1 = (Return tt, st2) /\
    find_cart "u1" st2 = Some c /\
    cart_items c
    = (match find_cart "u1" empty_store with
       | Some before => cart_items before
       | None => []
       end
       ++ [mkCartItem product_id (product_title ex_product) 250%Q 2
             (product_image_url ex_product)])%list.
Proof.
  apply (created_product_can_be_added 17%N "u1" 2 ex_product 250%Q
           empty_store).
  - reflexivity.
  - intros p0 [].
  - reflexivity.
  - intros c H. discriminate H.
Defined.

(** * Registration and login *)

Section RegistrationProperties.
Variable EmailStr : string -> option string.

Lemma register_returns fresh payload users uid users' :
  register EmailStr fresh payload users = (Ok uid, users') ->
  exists stored,
    find_one (by_email_or_mobile (auth_email payload) (auth_mobile payload))
      users = None /\
    EmailStr (auth_email payload) = Some stored /\
    (7 <= char_count (auth_mobile payload) <= 15)%nat /\
    uid = oid_str fresh /\
    users' = insert_one
               (mkUser fresh (name_or_empty (auth_name payload)) stored
                  (auth_mobile payload) None [] None None false true)
               users.
Proof.
  unfold register, User_new.
  destruct (find_one _ users) eqn:Hnone; [discriminate|].
  destruct (EmailStr (auth_email payload)) as [stored|]; [|discriminate].
  destruct (7 <=? char_count (auth_mobile payload))%nat eqn:H7;
    [|discriminate].
  destruct (char_count (auth_mobile payload) <=? 15)%nat eqn:H15;
    [|discriminate].
  simpl. intros H. injection H as <- <-.
  exists stored. apply Nat.leb_le in H7, H15. repeat split; assumption.
Qed.

(** After a registration that returns, a login with the same request
    returns the new user: the identifier that the registration answered,
    the name of the request (empty when it had none), the email as stored
    and the mobile of the request.  The login writes nothing. *)
Theorem register_then_login fresh payload users uid users' :
  register EmailStr fresh payload users = (Ok uid, users') ->
  exists stored,
    EmailStr (auth_email payload) = Some stored /\
    login payload users'
    = (Ok (mkLoginResponse uid (name_or_empty (auth_name payload)) stored
             (auth_mobile payload)), users').
Proof.
  intros H. apply register_returns in H.
  destruct H as (stored & Hnone & Hemail & _ & -> & ->).
  exists stored. split; [exact Hemail|].
  unfold login. rewrite find_one_insert_one, Hnone.
  unfold by_email_or_mobile at 1. cbn [user_email user_mobile].
  rewrite String.eqb_refl, orb_true_r. reflexivity.
Qed.

(** After a registration that returns, every further registration with
    the same mobile, whatever its name and email, raises the 400 error
    "User already exists" and writes nothing. *)
Theorem register_same_mobile_rejected
    fresh payload users uid users' fresh2 payload2 :
  register EmailStr fresh payload users = (Ok uid, users') ->
  auth_mobile payload2 = auth_mobile payload ->
  register EmailStr fresh2 payload2 users'
  = (Err (Exn (HTTPException 400 "User already exists")), users').
Proof.
  intros H Hmobile. apply register_returns in H.
  destruct H as (stored & Hnone & _ & _ & _ & ->).
  unfold register. rewrite find_one_insert_one.
  destruct (find_one (by_email_or_mobile (auth_email payload2)
                        (auth_mobile payload2)) users); [reflexivity|].
  unfold by_email_or_mobile. cbn [user_email user_mobile].
  now rewrite Hmobile, String.eqb_refl, orb_true_r.
Qed.

Lemma no_match_no_mobile (email mobile : string) (users : list User) :
  find_one (by_email_or_mobile email mobile) users = None ->
  ~ In mobile (map user_mobile users).
Proof.
  intros Hnone Hin. apply in_map_iff in Hin as (u & Hu & Hin).
  pose proof (proj1 (find_one_none_iff _ _) Hnone u Hin) as H.
  unfold by_email_or_mobile in H.
  rewrite Hu, String.eqb_refl, orb_true_r in H. discriminate.
Qed.

(** In every user collection built by registrations and logins, no two
    users have the same mobile, and every mobile has 7 to 15 characters. *)
Theorem users_reachable_mobiles (users : list User) :
  users_reachable EmailStr users ->
  NoDup (map user_mobile users) /\
  Forall (fun u => (7 <= char_count (user_mobile u) <= 15)%nat) users.
Proof.
  induction 1 as [|fresh payload users _ [IHnd IHlen]
                  |payload users _ IH].
  - split; constructor.
  - destruct (register EmailStr fresh payload users) as [[uid|e] users']
      eqn:E.
    + apply register_returns in E.
      destruct E as (stored & Hnone & _ & Hlen & _ & ->). simpl.
      split.
      * unfold insert_one. rewrite map_app. simpl.
        apply NoDup_app_one; [assumption|].
        now apply (no_match_no_mobile (auth_email payload)).
      * apply Forall_insert_one; assumption.
    + assert (users' = users) as ->; [|now split].
      unfold register in E.
      destruct (find_one _ users); [now injection E as _ <-|].
      destruct (User_new _ _ _ _); [discriminate | now injection E as _ <-].
  - unfold login. now destruct (find_one _ users).
Qed.

End RegistrationProperties.

(** [login] never writes.  It answers with the oldest stored user whose
    email or whose mobile is that of the request, and raises the 404 error
    "User not found" only when no stored user has either. *)
Theorem login_oldest_match (payload : AuthPayload) (users : list User) :
  (exists u before after,
      users = (before ++ u :: after)%list /\
      (user_email u = auth_email payload \/
       user_mobile u = auth_mobile payload) /\
      (forall v, In v before ->
                 user_email v <> auth_email payload /\
                 user_mobile v <> auth_mobile payload) /\
      login payload users
      = (Ok (mkLoginResponse (oid_str (user__id u)) (user_name u)
               (user_email u) (user_mobile u)), users))
  \/
  ((forall v, In v users ->
              user_email v <> auth_email payload /\
              user_mobile v <> auth_mobile payload) /\
   login payload users
   = (Err (Exn (HTTPException 404 "User not found")), users)).
Proof.
  assert (forall v, by_email_or_mobile (auth_email payload)
                      (auth_mobile payload) v = false ->
                    user_email v <> auth_email payload /\
                    user_mobile v <> auth_mobile payload) as Hfalse.
  { intros v H. unfold by_email_or_mobile in H.
    apply orb_false_iff in H as [He Hm].
    split; now apply String.eqb_neq. }
  unfold login.
  destruct (find_one _ users) as [u|] eqn:E.
  - left. destruct (find_one_split _ _ _ E) as (before & after & Hs & Hu & Hb).
    exists u, before, after. split; [exact Hs|].
    split.
    { unfold by_email_or_mobile in Hu. apply orb_true_iff in Hu.
      destruct Hu as [Hu|Hu]; apply String.eqb_eq in Hu; auto. }
    split; [|reflexivity].
    intros v Hv. apply Hfalse. now apply Hb.
  - right. split; [|reflexivity].
    intros v Hv. apply Hfalse.
    exact (proj1 (find_one_none_iff _ _) E v Hv).
Qed.

(** One registration in an empty collection. *)
Lemma register_then_login_witness :
  exists stored,
    ex_email_check (auth_email ex_auth) = Some stored /\
    login ex_auth (snd (register ex_email_check 1%N ex_auth []))
    = (Ok (mkLoginResponse (oid_str 1%N) (name_or_empty (auth_name ex_auth))
             stored (auth_mobile ex_auth)),
       snd (register ex_email_check 1%N ex_auth [])).
Proof.
  apply (register_then_login ex_email_check 1%N ex_auth [] (oid_str 1%N)).
  reflexivity.
Defined.

(** A second registration with another name and email, same mobile. *)
Lemma register_same_mobile_rejected_witness :
  register ex_email_check 2%N
    (mkAuthPayload None "other@example.com" "9876543210")
    (snd (register ex_email_check 1%N ex_auth []))
  = (Err (Exn (HTTPException 400 "User already exists")),
     snd (register ex_email_check 1%N ex_auth [])).
Proof.
  apply (register_same_mobile_rejected ex_email_check 1%N ex_auth []
           (oid_str 1%N) (snd (register ex_email_check 1%N ex_auth []))).
  - reflexivity.
  - reflexivity.
Defined.

(** The collection after two registrations, the second with a mobile of
    7 characters in 21 bytes; a mobile of 5 characters in 15 bytes is
    refused. *)
Lemma users_reachable_mobiles_witness :
  let users := snd (register ex_email_check 2%N (ex_auth_wide 7)
                      (snd (register ex_email_check 1%N ex_auth []))) in
  (NoDup (map user_mobile users) /\
   Forall (fun u => (7 <= char_count (user_mobile u) <= 15)%nat) users) /\
  map user_mobile users = ["9876543210"; ex_euro_signs 7] /\
  String.length (ex_euro_signs 7) = 21%nat /\
  String.length (ex_euro_signs 5) = 15%nat /\
  register ex_email_check 3%N
    (mkAuthPayload None "cyra@example.com" (ex_euro_signs 5)) users
  = (Err ValidationError, users).
Proof.
  intros users. split; [|repeat split; reflexivity].
  apply (users_reachable_mobiles ex_email_check).
  apply users_register, users_register, users_empty.
Defined.
